(** * PDFtoSlides: a shallow embedding of [converter.py] and [app.py]

    The development follows the two source files of the repository:

    - [Py]        the Python primitives the code relies on (string methods,
                  list indexing, integer formatting);
    - [Exec]      a small state-and-exception monad: every effect of the
                  program (logging, file system, flashes) lives in a [World],
                  and a raised exception keeps the world reached so far;
    - [Converter] [PDFToPowerPointConverter] of converter.py;
    - [App]       the Flask handlers of app.py.

    Strings are sequences of code points below 256 ([ascii]); outcomes of the
    external libraries (PyPDF2, pdf2image, PIL, python-pptx, the operating
    system) are read from an [Env] record, one field per call that can fail. *)

From Stdlib Require Import String Ascii List ZArith QArith Bool Lia.
From Stdlib Require Import DecimalString.
Import ListNotations.

Local Open Scope string_scope.
Local Open Scope Z_scope.

(* ===================================================================== *)
(** * Python primitives                                                   *)
(* ===================================================================== *)

Module Py.

(** The line feed, ["\n"]. *)
Definition LF : ascii := ascii_of_nat 10.
Definition nl : string := String LF EmptyString.

(** [str.isspace] on one character, restricted to code points below 256:
    TAB..CR, FS..US, SPACE, NEL and NBSP. *)
Definition is_space (c : ascii) : bool :=
  let n := N_of_ascii c in
  (((9 <=? n) && (n <=? 13)) || ((28 <=? n) && (n <=? 32))
   || (n =? 133) || (n =? 160))%N.

(** [len(s)] *)
Definition len (s : string) : Z := Z.of_nat (String.length s).

(** [s.startswith(p)] *)
Fixpoint startswith (s p : string) : bool :=
  match p, s with
  | EmptyString, _ => true
  | String _ _, EmptyString => false
  | String a p', String b s' => Ascii.eqb a b && startswith s' p'
  end.

(** [sub in s] *)
Fixpoint contains (s sub : string) : bool :=
  startswith s sub ||
  match s with
  | EmptyString => false
  | String _ s' => contains s' sub
  end.

(** [c in s] for a single character. *)
Fixpoint has_char (c : ascii) (s : string) : bool :=
  match s with
  | EmptyString => false
  | String a s' => Ascii.eqb a c || has_char c s'
  end.

(** [s.endswith(p)] *)
Fixpoint endswith (s p : string) : bool :=
  String.eqb s p ||
  match s with
  | EmptyString => false
  | String _ s' => endswith s' p
  end.

(** [s.lstrip()], [s.rstrip()], [s.strip()] *)
Fixpoint lstrip (s : string) : string :=
  match s with
  | EmptyString => EmptyString
  | String c s' => if is_space c then lstrip s' else s
  end.

Fixpoint rstrip (s : string) : string :=
  match s with
  | EmptyString => EmptyString
  | String c s' =>
      match rstrip s' with
      | EmptyString => if is_space c then EmptyString else String c EmptyString
      | r => String c r
      end
  end.

Definition strip (s : string) : string := rstrip (lstrip s).

(** [s.replace(old, new)] for a non-empty [old]: one pass from the left;
    where [old] starts, [new] is emitted and the scan resumes after the
    occurrence ([skip] counts the characters of it still to drop). *)
Fixpoint replace_from (skip : nat) (old new s : string) : string :=
  match s with
  | EmptyString => EmptyString
  | String c s' =>
      match skip with
      | S k => replace_from k old new s'
      | O =>
          if startswith s old
          then new ++ replace_from (String.length old - 1) old new s'
          else String c (replace_from O old new s')
      end
  end.

Definition replace (s old new : string) : string := replace_from O old new s.

(** [s.split(sep)] for a one-character separator; [''.split(sep) == ['']]. *)
Fixpoint split (sep : ascii) (s : string) : list string :=
  match s with
  | EmptyString => [EmptyString]
  | String c s' =>
      if Ascii.eqb c sep then EmptyString :: split sep s'
      else match split sep s' with
           | [] => [String c EmptyString]
           | h :: t => String c h :: t
           end
  end.

(** [sep.join(parts)] *)
Fixpoint join (sep : string) (parts : list string) : string :=
  match parts with
  | [] => EmptyString
  | [p] => p
  | p :: rest => p ++ sep ++ join sep rest
  end.

(** [s.rsplit(sep, 1)] for a one-character separator: at most one split,
    at the last occurrence of [sep]. *)
Definition rsplit1 (sep : ascii) (s : string) : list string :=
  match rev (split sep s) with
  | [] => [s]
  | [_] => [s]
  | last :: before => [join (String sep EmptyString) (rev before); last]
  end.

(** [c.lower()] on one character below 256: A..Z and the Latin-1 capitals
    (except the multiplication sign) move up by 32. *)
Definition lower_char (c : ascii) : ascii :=
  let n := N_of_ascii c in
  if (((65 <=? n) && (n <=? 90))
      || ((192 <=? n) && (n <=? 222) && negb (n =? 215)))%N
  then ascii_of_N (n + 32) else c.

Fixpoint lower (s : string) : string :=
  match s with
  | EmptyString => EmptyString
  | String c s' => String (lower_char c) (lower s')
  end.

(** [str(n)] for an [int]. *)
Definition str_of_int (n : Z) : string := NilZero.string_of_int (Z.to_int n).

(** Exceptions carry their message, which is what [str(e)] reads. *)
Inductive result (A : Type) : Type :=
| Ok (a : A)
| Raise (e : string).
Arguments Ok {A} a.
Arguments Raise {A} e.

(** [l[i]]: negative indices count from the end, anything out of range
    raises [IndexError]. *)
Definition getitem {A : Type} (l : list A) (i : Z) : result A :=
  let n := Z.of_nat (List.length l) in
  let j := if i <? 0 then i + n else i in
  if (j <? 0) || (n <=? j) then Raise "list index out of range"
  else match nth_error l (Z.to_nat j) with
       | Some a => Ok a
       | None => Raise "list index out of range"
       end.

End Py.

Import Py.

(* ===================================================================== *)
(** * The presentation document (python-pptx)                             *)
(* ===================================================================== *)

Module Pptx.

(** A paragraph with the run properties the code sets: text, font size in
    points, bold, italic and RGB colour.  Box geometry, margins, alignment
    and line spacing are fixed constants of the source and are left out. *)
Record paragraph : Type := mkParagraph {
  p_text : string;
  p_size : option Z;
  p_bold : bool;
  p_italic : bool;
  p_color : option (Z * Z * Z)
}.

Definition plain (t : string) : paragraph :=
  mkParagraph t None false false None.

Definition text_frame : Type := list paragraph.

(** [add_textbox(...).text_frame]: a fresh frame holds one empty paragraph. *)
Definition new_frame : text_frame := [plain ""].

(** [frame.text = s]: one paragraph per line of [s]. *)
Definition set_text (s : string) : text_frame := map plain (split LF s).

(** [frame.text]: the paragraphs' texts, separated by line feeds. *)
Definition get_text (f : text_frame) : string := join nl (map p_text f).

(** [frame.add_paragraph()] followed by the assignments to the new
    paragraph. *)
Definition add_paragraph (f : text_frame) (p : paragraph) : text_frame :=
  (f ++ [p])%list.

(** Assignments to [frame.paragraphs[0]]. *)
Definition update_first (f : text_frame) (g : paragraph -> paragraph)
  : text_frame :=
  match f with
  | [] => []
  | p :: rest => g p :: rest
  end.

Record slide : Type := mkSlide {
  title_box : text_frame;
  content_box : text_frame;
  thumbnail : option string;      (* path given to [add_picture] *)
  label_box : option text_frame   (* the "Reference" label *)
}.

Definition presentation : Type := list slide.

End Pptx.

Import Pptx.

(** A rasterized page (PIL image): its mode and whether writing it as JPEG
    (after the RGB conversion, when one applies) or as PNG raises. *)
Record Image : Type := mkImage {
  mode : string;
  save_jpeg_out : result unit;
  save_png_out : result unit
}.

(* ===================================================================== *)
(** * Worlds, environments and the execution monad                        *)
(* ===================================================================== *)

Module Exec.

Inductive level : Type := DEBUG | INFO | WARNING | ERROR.

(** A file-system entry: full path, regular file or directory, and
    modification time in seconds (an exact rational stands for the float). *)
Record node : Type := mkNode {
  n_path : string;
  n_isfile : bool;
  n_mtime : Q
}.

Record World : Type := mkWorld {
  log : list (level * string);             (* [logging] records, oldest first *)
  flashes : list (string * string);        (* [flash(message, category)] *)
  fs : list node;                          (* the file system *)
  documents : list (string * presentation);(* what [prs.save] wrote, newest first *)
  self_temp_dir : option string            (* [self.temp_dir] of the converter *)
}.

(** Outcomes of the calls the program makes into its libraries and the
    operating system, fixed for one request. *)
Record Env : Type := mkEnv {
  now : Q;                                           (* [time.time()] *)
  mkdtemp_out : result string;                       (* [tempfile.mkdtemp()] *)
  get_pdf_page_count_out : result Z;
      (* [self.get_pdf_page_count(pdf_path)]: this method lies beyond the end
         of the available converter.py, so its outcome is a parameter *)
  clean_extracted_text : string -> string;
      (* [self.clean_extracted_text]: likewise beyond the end of the
         available source; any function on strings *)
  thumbnail_out : Z -> result bool;
      (* the thumbnail block of [create_editable_text_slide] for a page
         number: its handler lies beyond the end of the available source.
         [Ok true]: picture and label added; [Ok false]: the block failed
         and was handled; [Raise]: an exception leaves the method *)
  reader_out : result (list (result string));
      (* [open] and [PdfReader(file)], then for each page of
         [pdf_reader.pages] the outcome of [page.extract_text()] *)
  convert_from_path_out : Z -> result (list Image);
      (* [pdf2image.convert_from_path(..., first_page=1, last_page=n)] *)
  presentation_save_out : result unit;               (* [prs.save] *)
  rmtree_out : result unit;                          (* [shutil.rmtree] *)
  upload_save_out : result unit;                     (* [file.save] *)
  remove_out : string -> result unit;                (* [os.remove(path)] *)
  uuid4 : string;                                    (* [str(uuid.uuid4())] *)
  secure_filename : string -> string;                (* werkzeug's *)
  listdir_out : string -> result unit;
      (* whether [os.listdir(folder)] can read a directory that is there *)
  send_file_out : string -> result unit
      (* whether [send_file(path, ...)] can open a regular file that is
         there; Flask resolves a relative path against the root of the
         application, so a file that [os.path.exists] sees can be missed *)
}.

Definition M (A : Type) : Type := World -> result A * World.

Definition ret {A : Type} (a : A) : M A := fun w => (Ok a, w).

Definition raise {A : Type} (e : string) : M A := fun w => (Raise e, w).

Definition bind {A B : Type} (m : M A) (k : A -> M B) : M B :=
  fun w =>
    match m w with
    | (Ok a, w1) => k a w1
    | (Raise e, w1) => (Raise e, w1)
    end.

(** [try: m  except Exception as e: h e] *)
Definition try_except {A : Type} (m : M A) (h : string -> M A) : M A :=
  fun w =>
    match m w with
    | (Ok a, w1) => (Ok a, w1)
    | (Raise e, w1) => h e w1
    end.

(** [try: m  finally: f]: [f] runs on every exit of [m]; the outcome of [m]
    stands unless [f] itself raises. *)
Definition try_finally {A : Type} (m : M A) (f : M unit) : M A :=
  fun w =>
    match m w with
    | (r, w1) =>
        match f w1 with
        | (Ok _, w2) => (r, w2)
        | (Raise e, w2) => (Raise e, w2)
        end
    end.

(** Lifting a library outcome. *)
Definition lift {A : Type} (r : result A) : M A := fun w => (r, w).

Declare Scope exec_scope.
Delimit Scope exec_scope with exec.

Notation "x <- c1 ;; c2" := (bind c1 (fun x => c2))
  (at level 61, c1 at next level, right associativity) : exec_scope.
Notation "c1 ;; c2" := (bind c1 (fun _ => c2))
  (at level 61, right associativity) : exec_scope.

(** World updates. *)
Definition with_log (w : World) (l : list (level * string)) : World :=
  mkWorld l (flashes w) (fs w) (documents w) (self_temp_dir w).
Definition with_flashes (w : World) (f : list (string * string)) : World :=
  mkWorld (log w) f (fs w) (documents w) (self_temp_dir w).
Definition with_fs (w : World) (f : list node) : World :=
  mkWorld (log w) (flashes w) f (documents w) (self_temp_dir w).
Definition with_documents (w : World) (d : list (string * presentation))
  : World :=
  mkWorld (log w) (flashes w) (fs w) d (self_temp_dir w).
Definition with_temp_dir (w : World) (t : option string) : World :=
  mkWorld (log w) (flashes w) (fs w) (documents w) t.

(** [logging.debug/info/warning/error(msg)] *)
Definition logging (lv : level) (msg : string) : M unit :=
  fun w => (Ok tt, with_log w (log w ++ [(lv, msg)])%list).

(** [flash(message, category)] *)
Definition flash (msg cat : string) : M unit :=
  fun w => (Ok tt, with_flashes w (flashes w ++ [(msg, cat)])%list).

Definition get_temp_dir : M (option string) :=
  fun w => (Ok (self_temp_dir w), w).

Definition set_temp_dir (t : option string) : M unit :=
  fun w => (Ok tt, with_temp_dir w t).

(** ** The file system *)

(** [os.path.join(a, p)] (POSIX). *)
Definition os_path_join (a p : string) : string :=
  if startswith p "/" then p
  else if String.eqb a "" || endswith a "/" then a ++ p
  else a ++ "/" ++ p.

Definition lookup_node (f : list node) (p : string) : option node :=
  find (fun n => String.eqb (n_path n) p) f.

(** [os.path.exists(p)], [os.path.isfile(p)] *)
Definition path_exists (f : list node) (p : string) : bool :=
  match lookup_node f p with Some _ => true | None => false end.

Definition path_isfile (f : list node) (p : string) : bool :=
  match lookup_node f p with Some n => n_isfile n | None => false end.

(** [os.path.getmtime(p)] *)
Definition getmtime (p : string) : M Q :=
  fun w =>
    match lookup_node (fs w) p with
    | Some n => (Ok (n_mtime n), w)
    | None => (Raise "No such file or directory", w)
    end.

(** Writing [p]: the entry is created, or replaced, with the current time. *)
Definition write_node (E : Env) (p : string) (isfile : bool) : M unit :=
  fun w =>
    (Ok tt,
     with_fs w (mkNode p isfile (now E)
                :: filter (fun n => negb (String.eqb (n_path n) p)) (fs w))).

(** Removing the entry [p]. *)
Definition delete_node (p : string) : M unit :=
  fun w =>
    (Ok tt, with_fs w (filter (fun n => negb (String.eqb (n_path n) p)) (fs w))).

(** Removing [d] and everything below it. *)
Definition delete_tree (d : string) : M unit :=
  fun w =>
    (Ok tt,
     with_fs w
       (filter (fun n => negb (String.eqb (n_path n) d
                               || startswith (n_path n) (d ++ "/")))
               (fs w))).

(** The name of [p] inside [folder], when [p] is a direct child of it. *)
Fixpoint drop_prefix (pre s : string) : option string :=
  match pre, s with
  | EmptyString, _ => Some s
  | String _ _, EmptyString => None
  | String a pre', String b s' =>
      if Ascii.eqb a b then drop_prefix pre' s' else None
  end.

Definition child_name (folder p : string) : option string :=
  match drop_prefix (folder ++ "/") p with
  | Some name =>
      if String.eqb name "" || has_char "/" name then None else Some name
  | None => None
  end.

(** [os.listdir(folder)], in the order of the entries. *)
Fixpoint listdir (folder : string) (f : list node) : list string :=
  match f with
  | [] => []
  | n :: rest =>
      match child_name folder (n_path n) with
      | Some name => name :: listdir folder rest
      | None => listdir folder rest
      end
  end.

End Exec.

Import Exec.
Local Open Scope exec_scope.

(* ===================================================================== *)
(** * converter.py                                                        *)
(* ===================================================================== *)

Module Converter.

(** [range(n)] *)
Definition range (n : Z) : list Z := map Z.of_nat (seq 0 (Z.to_nat n)).

(** [len(l)] of a list. *)
Definition llen {A : Type} (l : list A) : Z := Z.of_nat (List.length l).

(** Truthiness of a string: [not s] holds of the empty string only. *)
Definition truthy (s : string) : bool := negb (String.eqb s "").

(** [os.path.exists(p)] *)
Definition os_path_exists (p : string) : M bool :=
  fun w => (Ok (path_exists (fs w) p), w).

(** [self.temp_dir] where a string is required: [None] is a [TypeError]. *)
Definition temp_dir_str : M string :=
  td <- get_temp_dir ;;
  match td with
  | Some d => ret d
  | None => raise "expected str, bytes or os.PathLike object, not NoneType"
  end.

(** The text kept for a page: [text.replace('\n\n', '\n').strip()]. *)
Definition clean_page_text (text : string) : string :=
  strip (replace text (nl ++ nl) nl).

(** The placeholder of [convert] for page number [n]. *)
Definition placeholder (n : Z) : string :=
  "[Edit this text - Content from page " ++ str_of_int n ++ "]" ++ nl ++ nl
  ++ "Click here to add your content. You can replace this placeholder text with any content you want.".

(** [pdf_texts[i] if i < len(pdf_texts) else ""] *)
Definition page_text_at (pdf_texts : list string) (i : Z) : result string :=
  if i <? llen pdf_texts then getitem pdf_texts i else Ok "".

(** The replacement test of [convert]:
    [not page_text or len(page_text.strip()) < 20]. *)
Definition too_short (page_text : string) : bool :=
  negb (truthy page_text) || (len (strip page_text) <? 20).

Section WithEnv.

Variable E : Env.

(** ** [extract_text_from_pdf] *)

(** The body of the inner [try] for page index [i]. *)
Definition extract_page (pages : list (result string)) (i : Z)
  : result string :=
  match getitem pages i with
  | Ok page =>
      match page with
      | Ok text => Ok (clean_page_text text)
      | Raise e => Raise e
      end
  | Raise e => Raise e
  end.

(** The [for i in range(pages_to_process)] loop; [texts] is the list
    appended to. *)
Fixpoint extract_pages (pages : list (result string)) (idx : list Z)
    (texts : list string) : M (list string) :=
  match idx with
  | [] => ret texts
  | i :: rest =>
      texts' <- try_except
        (text <- lift (extract_page pages i) ;;
         logging DEBUG ("Extracted " ++ str_of_int (len text)
                        ++ " characters from page " ++ str_of_int (i + 1)) ;;
         ret (texts ++ [text])%list)
        (fun e =>
         logging WARNING ("Error extracting text from page "
                          ++ str_of_int (i + 1) ++ ": " ++ e) ;;
         ret (texts ++ [""])%list) ;;
      extract_pages pages rest texts'
  end.

(** The outer [try] fails only before the loop starts (opening the file,
    building the reader, taking its page count): inside the loop every
    statement sits in the inner [try]. *)
Definition extract_text_from_pdf (pdf_path : string) (max_pages : Z)
  : M (list string) :=
  match reader_out E with
  | Ok pages =>
      let pages_to_process := Z.min (llen pages) max_pages in
      extract_pages pages (range pages_to_process) []
  | Raise e =>
      logging ERROR ("Error reading PDF for text extraction: " ++ e) ;;
      ret []
  end.

(** ** [create_editable_text_slide] *)

Definition title_frame (page_num : Z) : text_frame :=
  update_first
    (set_text ("Page " ++ str_of_int page_num ++ " - Click to Edit Title"))
    (fun p => mkParagraph (p_text p) (Some 28) true (p_italic p)
                          (Some (44, 62, 80))).

(** The placeholder branch: [content_frame.text = text], then the first
    paragraph is set in grey italics. *)
Definition placeholder_frame (text : string) : text_frame :=
  update_first (set_text text)
    (fun p => mkParagraph (p_text p) (Some 16) (p_bold p) true
                          (Some (127, 140, 141))).

Definition body_style (t : string) (p : paragraph) : paragraph :=
  mkParagraph t (Some 16) (p_bold p) (p_italic p) (Some (0, 0, 0)).

(** The loop over [enumerate(paragraphs)]: a line that is not blank goes,
    stripped, into the frame's first paragraph when its index is 0 and into
    a new paragraph otherwise; blank lines are skipped. *)
Fixpoint fill_paragraphs (i : Z) (paragraphs : list string) (f : text_frame)
  : text_frame :=
  match paragraphs with
  | [] => f
  | para_text :: rest =>
      let f' :=
        if truthy (strip para_text) then
          if i =? 0 then update_first f (body_style (strip para_text))
          else add_paragraph f (body_style (strip para_text) (plain ""))
        else f in
      fill_paragraphs (i + 1) rest f'
  end.

Definition extracted_frame (text : string) : text_frame :=
  let cleaned_text := clean_extracted_text E text in
  fill_paragraphs 0 (split LF cleaned_text) new_frame.

Definition content_frame (text : string) : text_frame :=
  if startswith text "[Edit this text" then placeholder_frame text
  else extracted_frame text.

(** The label next to the thumbnail (its colour lies beyond the end of the
    available source). *)
Definition reference_label : text_frame :=
  update_first (set_text "Reference")
    (fun p => mkParagraph (p_text p) (Some 8) (p_bold p) (p_italic p) None).

Definition create_editable_text_slide (text image_path : string)
    (page_num : Z) : M slide :=
  let title := title_frame page_num in
  let content := content_frame text in
  added <- lift (thumbnail_out E page_num) ;;
  if added : bool
  then ret (mkSlide title content (Some image_path) (Some reference_label))
  else ret (mkSlide title content None None).

(** ** [convert] *)

(** [tempfile.mkdtemp()] *)
Definition mkdtemp : M string :=
  d <- lift (mkdtemp_out E) ;;
  write_node E d false ;;
  ret d.

(** [convert_from_path(pdf_path, dpi=150, output_folder=self.temp_dir,
    fmt='JPEG', thread_count=2, first_page=1, last_page=last_page)] *)
Definition convert_from_path (pdf_path : string) (last_page : Z)
  : M (list Image) :=
  lift (convert_from_path_out E last_page).

(** [image.save(path, fmt)] *)
Definition image_save (out : result unit) (path : string) : M unit :=
  lift out ;;
  write_node E path true.

(** Lines 77-86: the page image is written as JPEG, and as PNG when that
    raises; the result is [image_path]. *)
Definition save_page_image (image : Image) (i : Z) : M string :=
  d <- temp_dir_str ;;
  let image_path := os_path_join d ("page_" ++ str_of_int (i + 1) ++ ".jpg") in
  try_except
    (let image1 :=
       if String.eqb (mode image) "RGBA" || String.eqb (mode image) "P"
       then mkImage "RGB" (save_jpeg_out image) (save_png_out image)
       else image in
     image_save (save_jpeg_out image1) image_path ;;
     ret image_path)
    (fun save_error =>
     logging ERROR ("Error saving image " ++ str_of_int (i + 1) ++ ": "
                    ++ save_error) ;;
     d' <- temp_dir_str ;;
     let image_path := os_path_join d' ("page_" ++ str_of_int (i + 1) ++ ".png") in
     image_save (save_png_out image) image_path ;;
     ret image_path).

(** The [for i, image in enumerate(images)] loop; [slides] are the slides of
    [prs] so far and [total] is [len(images)]. *)
Fixpoint build_slides (pdf_texts : list string) (total : Z) (i : Z)
    (images : list Image) (slides : presentation) : M presentation :=
  match images with
  | [] => ret slides
  | image :: rest =>
      logging INFO ("Processing slide " ++ str_of_int (i + 1) ++ "/"
                    ++ str_of_int total) ;;
      page_text <- lift (page_text_at pdf_texts i) ;;
      image_path <- save_page_image image i ;;
      let page_text :=
        if too_short page_text then placeholder (i + 1) else page_text in
      slide <- create_editable_text_slide page_text image_path (i + 1) ;;
      build_slides pdf_texts total (i + 1) rest (slides ++ [slide])%list
  end.

(** [prs.save(output_path)] *)
Definition presentation_save (prs : presentation) (output_path : string)
  : M unit :=
  lift (presentation_save_out E) ;;
  write_node E output_path true ;;
  (fun w => (Ok tt, with_documents w ((output_path, prs) :: documents w))).

(** The body of the [try] of [convert]. *)
Definition convert_body (pdf_path output_path : string) (max_pages : Z)
  : M bool :=
  d <- mkdtemp ;;
  set_temp_dir (Some d) ;;
  logging INFO ("Created temporary directory: " ++ d) ;;
  page_count <- lift (get_pdf_page_count_out E) ;;
  last_page <-
    (if page_count >? max_pages then
       logging WARNING ("PDF has " ++ str_of_int page_count
                        ++ " pages, limiting to " ++ str_of_int max_pages
                        ++ " pages") ;;
       ret max_pages
     else ret page_count) ;;
  pdf_texts <- extract_text_from_pdf pdf_path last_page ;;
  logging INFO ("Converting PDF to images: " ++ pdf_path ++ " (pages 1-"
                ++ str_of_int last_page ++ ")") ;;
  images <- convert_from_path pdf_path last_page ;;
  match images with
  | [] =>
      logging ERROR "No images generated from PDF" ;;
      ret false
  | _ :: _ =>
      logging INFO ("Generated " ++ str_of_int (llen images)
                    ++ " images from PDF") ;;
      prs <- build_slides pdf_texts (llen images) 0 images [] ;;
      presentation_save prs output_path ;;
      logging INFO ("PowerPoint presentation saved: " ++ output_path) ;;
      ret true
  end.

(** The [except Exception as e] clause of [convert]. *)
Definition convert_handler (e : string) : M bool :=
  logging ERROR ("Error during PDF to PowerPoint conversion: " ++ e) ;;
  ret false.

(** The [finally] clause of [convert]. *)
Definition convert_cleanup : M unit :=
  td <- get_temp_dir ;;
  match td with
  | Some d =>
      present <- os_path_exists d ;;
      if truthy d && present then
        try_except
          (lift (rmtree_out E) ;;
           delete_tree d ;;
           logging INFO ("Cleaned up temporary directory: " ++ d))
          (fun e =>
           logging ERROR ("Error cleaning up temporary directory: " ++ e))
      else ret tt
  | None => ret tt
  end.

Definition convert (pdf_path output_path : string) (max_pages : Z) : M bool :=
  try_finally
    (try_except (convert_body pdf_path output_path max_pages) convert_handler)
    convert_cleanup.

End WithEnv.

End Converter.

Import Converter.

(* ===================================================================== *)
(** * app.py                                                              *)
(* ===================================================================== *)

Module App.

Definition UPLOAD_FOLDER : string := "uploads".
Definition OUTPUT_FOLDER : string := "output".
Definition ALLOWED_EXTENSIONS : list string := ["pdf"].
Definition MAX_FILE_SIZE : Z := 20 * 1024 * 1024.

(** What a handler returns. *)
Inductive response : Type :=
| Redirect (endpoint : string)
| RenderTemplate (template : string) (download_file original_name : option string)
| SendFile (path download_name : string)
| Json (key value : string).

(** A request as far as [upload_file] reads it: [None] when [request.files]
    has no ['file'] entry, otherwise the entry's [filename] (which werkzeug
    types as optional). *)
Record request : Type := mkRequest {
  file_filename : option (option string)
}.

(** ['.' in filename and
     filename.rsplit('.', 1)[1].lower() in ALLOWED_EXTENSIONS] *)
Definition allowed_file (filename : option string) : result bool :=
  match filename with
  | None => Raise "argument of type 'NoneType' is not iterable"
  | Some name =>
      if has_char "." name then
        match getitem (rsplit1 "." name) 1 with
        | Ok ext => Ok (existsb (String.eqb (lower ext)) ALLOWED_EXTENSIONS)
        | Raise e => Raise e
        end
      else Ok false
  end.

(** [current_time - mtime > 3600] *)
Definition older_than_an_hour (current_time mtime : Q) : bool :=
  negb (Qle_bool (current_time - mtime) (inject_Z 3600)).

Section WithEnv.

Variable E : Env.

Definition os_path_isfile (p : string) : M bool :=
  fun w => (Ok (path_isfile (fs w) p), w).

(** [os.listdir(folder)]: it raises when the folder is missing, is not a
    directory, or cannot be read. *)
Definition os_listdir (folder : string) : M (list string) :=
  fun w =>
    match lookup_node (fs w) folder with
    | None => (Raise "[Errno 2] No such file or directory", w)
    | Some n =>
        if n_isfile n then (Raise "[Errno 20] Not a directory", w)
        else
          match listdir_out E folder with
          | Ok _ => (Ok (listdir folder (fs w)), w)
          | Raise e => (Raise e, w)
          end
    end.

(** [os.remove(p)] *)
Definition os_remove (p : string) : M unit :=
  lift (remove_out E p) ;;
  delete_node p.

(** The body of the inner loop of [cleanup_old_files] for one name. *)
Definition sweep_file (current_time : Q) (folder filename : string) : M unit :=
  if String.eqb filename ".gitkeep" then ret tt
  else
    let file_path := os_path_join folder filename in
    isfile <- os_path_isfile file_path ;;
    if isfile : bool then
      mtime <- getmtime file_path ;;
      if older_than_an_hour current_time mtime then
        try_except
          (os_remove file_path ;;
           logging INFO ("Cleaned up old file: " ++ file_path))
          (fun e =>
           logging ERROR ("Error cleaning up file " ++ file_path ++ ": "
                          ++ e))
      else ret tt
    else ret tt.

(** The inner loop, over the names of one folder. *)
Fixpoint sweep (current_time : Q) (folder : string) (names : list string)
  : M unit :=
  match names with
  | [] => ret tt
  | filename :: rest =>
      sweep_file current_time folder filename ;;
      sweep current_time folder rest
  end.

Fixpoint sweep_folders (current_time : Q) (folders : list string) : M unit :=
  match folders with
  | [] => ret tt
  | folder :: rest =>
      names <- os_listdir folder ;;
      sweep current_time folder names ;;
      sweep_folders current_time rest
  end.

Definition cleanup_old_files : M unit :=
  let current_time := now E in
  sweep_folders current_time [UPLOAD_FOLDER; OUTPUT_FOLDER].

(** [GET /] *)
Definition index : M response :=
  cleanup_old_files ;;
  ret (RenderTemplate "index.html" None None).

(** [file.save(filepath)] *)
Definition file_save (filepath : string) : M unit :=
  lift (upload_save_out E) ;;
  write_node E filepath true.

(** The [finally] clause of the conversion block of [upload_file]. *)
Definition remove_upload (filepath : string) : M unit :=
  try_except
    (present <- os_path_exists filepath ;;
     if present : bool then os_remove filepath else ret tt)
    (fun e => logging ERROR ("Error removing uploaded file: " ++ e)).

(** Lines 73-111 of [upload_file]: what follows the three checks. *)
Definition save_and_convert (filename : option string) : M response :=
  let unique_id := uuid4 E in
  let original_filename :=
    secure_filename E
      (match filename with
       | Some name => if truthy name then name else "upload.pdf"
       | None => "upload.pdf"
       end) in
  let filename' := unique_id ++ "_" ++ original_filename in
  let filepath := os_path_join UPLOAD_FOLDER filename' in
  file_save filepath ;;
  logging INFO ("File uploaded: " ++ filepath) ;;
  set_temp_dir None ;;
  try_finally
    (try_except
       (base <- lift (getitem (rsplit1 "." original_filename) 0) ;;
        let output_filename := unique_id ++ "_" ++ base ++ ".pptx" in
        let output_path := os_path_join OUTPUT_FOLDER output_filename in
        success <- convert E filepath output_path 30 ;;
        if success : bool then
          flash "PDF converted successfully! Click the download button below."
                "success" ;;
          ret (RenderTemplate "index.html" (Some output_filename) (Some base))
        else
          flash "Error converting PDF. Please ensure the file is valid and not corrupted."
                "error" ;;
          ret (Redirect "index"))
       (fun e =>
        logging ERROR ("Conversion error: " ++ e) ;;
        flash ("Error during conversion: " ++ e) "error" ;;
        ret (Redirect "index")))
    (remove_upload filepath).

(** [POST /upload] *)
Definition upload_file (req : request) : M response :=
  try_except
    (match file_filename req with
     | None =>
         flash "No file selected" "error" ;;
         ret (Redirect "index")
     | Some filename =>
         match filename with
         | Some EmptyString =>
             flash "No file selected" "error" ;;
             ret (Redirect "index")
         | _ =>
             allowed <- lift (allowed_file filename) ;;
             if negb allowed then
               flash "Invalid file type. Please upload a PDF file." "error" ;;
               ret (Redirect "index")
             else save_and_convert filename
         end
     end)
    (fun e =>
     logging ERROR ("Upload error: " ++ e) ;;
     flash "An unexpected error occurred. Please try again." "error" ;;
     ret (Redirect "index")).

(** [send_file(path, as_attachment=True, download_name=name)]: it raises
    when the path is missing, is a directory, or cannot be opened. *)
Definition send_file (path download_name : string) : M response :=
  fun w =>
    match lookup_node (fs w) path with
    | None => (Raise "[Errno 2] No such file or directory", w)
    | Some n =>
        if n_isfile n then
          match send_file_out E path with
          | Ok _ => (Ok (SendFile path download_name), w)
          | Raise e => (Raise e, w)
          end
        else (Raise "[Errno 21] Is a directory", w)
    end.

(** [GET /download/<filename>] *)
Definition download_file (filename : string) : M response :=
  try_except
    (let file_path := os_path_join OUTPUT_FOLDER (secure_filename E filename) in
     present <- os_path_exists file_path ;;
     if negb present then
       flash "File not found or has expired." "error" ;;
       ret (Redirect "index")
     else send_file file_path filename)
    (fun e =>
     logging ERROR ("Download error: " ++ e) ;;
     flash "Error downloading file." "error" ;;
     ret (Redirect "index")).

(** [GET /status/<task_id>] *)
Definition get_status (task_id : string) : M response :=
  ret (Json "status" "processing").

End WithEnv.

End App.

Import App.

(* ===================================================================== *)
(** * Vocabulary of the statements                                        *)
(* ===================================================================== *)

Definition first_char (s : string) : option ascii :=
  match s with
  | EmptyString => None
  | String c _ => Some c
  end.

Fixpoint last_char (s : string) : option ascii :=
  match s with
  | EmptyString => None
  | String c EmptyString => Some c
  | String _ s' => last_char s'
  end.

(** Whether a character is there and is whitespace. *)
Definition space_at (o : option ascii) : bool :=
  match o with
  | Some c => is_space c
  | None => false
  end.

Fixpoint all_space (s : string) : bool :=
  match s with
  | EmptyString => true
  | String c s' => is_space c && all_space s'
  end.

(** What [extract_text_from_pdf] keeps for a page, by the outcome of
    [page.extract_text()]. *)
Definition page_entry (page : result string) : string :=
  match page with
  | Ok raw => clean_page_text raw
  | Raise _ => ""
  end.

(** The entry appended for page index [i]. *)
Definition entry_at (pages : list (result string)) (i : Z) : string :=
  match extract_page pages i with
  | Ok text => text
  | Raise _ => ""
  end.

(** A computation that only appends log records: it returns normally and
    leaves the rest of the world alone. *)
Definition only_logs {A : Type} (m : M A) (a : A) : Prop :=
  forall w, exists l, m w = (Ok a, with_log w (log w ++ l)%list).

(** The text [convert] hands to the slide of page index [k]: the entry of
    [pdf_texts], or the placeholder when that is missing or too short. *)
Definition page_text_of (pdf_texts : list string) (k : nat) : string :=
  match nth_error pdf_texts k with
  | Some text => text
  | None => ""
  end.

Definition slide_text (pdf_texts : list string) (k : nat) : string :=
  if too_short (page_text_of pdf_texts k)
  then placeholder (Z.of_nat k + 1)
  else page_text_of pdf_texts k.

(** The paragraphs of a content box filled from a cleaned text, in words:
    the first line stripped, then every later line that is not blank,
    stripped. *)
Definition paragraph_texts (cleaned_text : string) : list string :=
  let lines := split LF cleaned_text in
  strip (hd "" lines) :: filter truthy (map strip (tl lines)).

(** A page image can be written when the JPEG or the PNG save succeeds. *)
Definition savable (image : Image) : Prop :=
  save_jpeg_out image = Ok tt \/ save_png_out image = Ok tt.

(** A valid PDF with [P] pages, on a host that works: the page count probe
    answers [P]; the rasterizer renders the pages of the range it is asked
    for, each to an image that can be written; the temporary directory can
    be made, the thumbnail block lets no exception through and the
    presentation can be saved.  Nothing is asked of the text extraction. *)
Definition valid_pdf (E : Env) (P : Z) : Prop :=
  get_pdf_page_count_out E = Ok P /\
  (forall last_page,
     exists images,
       convert_from_path_out E last_page = Ok images /\
       llen images = Z.max 0 (Z.min P last_page) /\
       Forall savable images) /\
  (exists d, mkdtemp_out E = Ok d) /\
  (forall n, exists added, thumbnail_out E n = Ok added) /\
  presentation_save_out E = Ok tt.

(** A paragraph text that is one stripped line. *)
Definition tidy (t : string) : Prop :=
  has_char LF t = false /\ space_at (last_char t) = false.

(** A space followed by a line feed. *)
Definition space_LF : string := String " " nl.

(** The separator of file extensions. *)
Definition dot : ascii := ".".

(** Whether [os.remove(p)] succeeds. *)
Definition removable (E : Env) (p : string) : bool :=
  match remove_out E p with
  | Ok _ => true
  | Raise _ => false
  end.

(** What makes the sweep delete an entry once it has come to its path: a
    regular file, older than an hour, that can be removed. *)
Definition expired (E : Env) (n : node) : bool :=
  n_isfile n && older_than_an_hour (now E) (n_mtime n)
  && removable E (n_path n).

(** The entries the sweep of [folder] deletes: the expired ones directly
    inside it, except those named ".gitkeep". *)
Definition swept_in (E : Env) (folder : string) (n : node) : bool :=
  match child_name folder (n_path n) with
  | Some name => negb (String.eqb name ".gitkeep") && expired E n
  | None => false
  end.

Definition swept (E : Env) (n : node) : bool :=
  swept_in E UPLOAD_FOLDER n || swept_in E OUTPUT_FOLDER n.

(** Whether [os.listdir(folder)] returns: the folder is there, is a
    directory, and can be read. *)
Definition can_list (E : Env) (f : list node) (folder : string) : bool :=
  match lookup_node f folder with
  | Some n =>
      negb (n_isfile n)
      && match listdir_out E folder with Ok _ => true | Raise _ => false end
  | None => false
  end.

(** No two entries of a file system share a path. *)
Definition well_formed (f : list node) : Prop := NoDup (map n_path f).

(** The entries a pass over [names] in [folder] deletes. *)
Definition hit (E : Env) (folder : string) (names : list string) (n : node)
  : bool :=
  existsb (fun name => String.eqb (os_path_join folder name) (n_path n)
                       && negb (String.eqb name ".gitkeep")) names
  && expired E n.

(** A folder name that [os.path.join] extends with a slash. *)
Definition plain_folder (folder : string) : Prop :=
  String.eqb folder "" || endswith folder "/" = false.

(** [m] moves every world to one related to it by [R], however it ends. *)
Definition respects {A : Type} (R : World -> World -> Prop) (m : M A) : Prop :=
  forall w, R w (snd (m w)).

(** Relations between the world before and the world after. *)
Definition keeps_temp_dir (w w' : World) : Prop :=
  self_temp_dir w' = self_temp_dir w.

Definition keeps_documents (w w' : World) : Prop :=
  documents w' = documents w.

Definition log_grows (w w' : World) : Prop :=
  exists l, log w' = (log w ++ l)%list.

(** The texts [extract_text_from_pdf] returns for a page cap. *)
Definition extracted_texts (E : Env) (max_pages : Z) : list string :=
  match reader_out E with
  | Ok pages => map (entry_at pages) (range (Z.min (llen pages) max_pages))
  | Raise _ => []
  end.

(** A page image that can be written neither as JPEG nor as PNG. *)
Definition unwritable (image : Image) : Prop :=
  (exists e, save_jpeg_out image = Raise e) /\
  (exists e, save_png_out image = Raise e).

(** No text was extracted for page index [k]: the reader could not open the
    PDF, or the extraction of that page raised. *)
Definition text_missing (E : Env) (k : nat) : Prop :=
  match reader_out E with
  | Ok pages => exists e, nth_error pages k = Some (Raise e)
  | Raise _ => True
  end.

(** [filename.rsplit('.', 1)[0]] *)
Definition stem_of (filename : string) : string :=
  hd filename (rsplit1 dot filename).

(** Where [upload_file] saves an upload named [name], and the name and
    path of the presentation made from it. *)
Definition upload_path (E : Env) (name : string) : string :=
  os_path_join UPLOAD_FOLDER (uuid4 E ++ "_" ++ secure_filename E name).

Definition result_name (E : Env) (name : string) : string :=
  uuid4 E ++ "_" ++ stem_of (secure_filename E name) ++ ".pptx".

Definition result_path (E : Env) (name : string) : string :=
  os_path_join OUTPUT_FOLDER (result_name E name).

(** The answers [upload_file] gives. *)
Definition upload_answer (r : response) : Prop :=
  r = Redirect "index" \/
  exists file original, r = RenderTemplate "index.html" (Some file) (Some original).

(** The path [convert] gives the image of page index [i]. *)
Definition page_image_path (d : string) (i : Z) (ext : string) : string :=
  os_path_join d ("page_" ++ str_of_int (i + 1) ++ ext).

(** Concrete hosts and documents on which the statements are run: every
    call succeeds except where an argument says otherwise. *)
Module Scenario.

Definition page_image : Image := mkImage "RGB" (Ok tt) (Ok tt).

Definition env (count : result Z) (pages : result (list (result string)))
    (raster : Z -> result (list Image)) (rmtree : result unit) : Env :=
  mkEnv (7200 # 1) (Ok "/tmp/tmpa1") count (fun s => s) (fun _ => Ok true)
        pages raster (Ok tt) rmtree (Ok tt) (fun _ => Ok tt) "4f1c"
        (fun s => s) (fun _ => Ok tt) (fun _ => Ok tt).

(** A rasterizer that renders the pages 1..last_page of a [P]-page PDF. *)
Definition raster (P : Z) (last_page : Z) : result (list Image) :=
  Ok (repeat page_image (Z.to_nat (Z.min P last_page))).

Definition world : World := mkWorld [] [] [] [] None.

(** A one-page PDF whose page text has three line feeds in a row. *)
Definition triple_newline : Env :=
  env (Ok 1) (Ok [Ok ("  a" ++ nl ++ nl ++ nl ++ "b ")]) (raster 1) (Ok tt).

(** A three-page PDF whose third page the rasterizer cannot render: a range
    that stops before it is rendered, one that reaches it fails. *)
Definition one_bad_page : Env :=
  env (Ok 3) (Ok [Ok "one"; Ok "two"; Ok "three"])
      (fun last_page =>
         if last_page <? 3 then raster 3 last_page
         else Raise "Unable to render page 3.")
      (Ok tt).

(** A PDF without pages. *)
Definition empty_pdf : Env := env (Ok 0) (Ok []) (raster 0) (Ok tt).

(** A PDF of 31 pages without text. *)
Definition long_pdf : Env :=
  env (Ok 31) (Ok (repeat (Ok "") 31)) (raster 31) (Ok tt).

(** A one-page PDF on a host where the temporary directory cannot be
    removed. *)
Definition undeletable : Env :=
  env (Ok 1) (Ok [Ok "A page with enough text on it."]) (raster 1)
      (Raise "[Errno 13] Permission denied").

(** Two page texts, the first long enough to be kept and with a space
    before its line feed, the second too short; and the slide-building loop
    run on them inside a job. *)
Definition two_texts : list string :=
  ["A first line of twenty chars " ++ nl ++ "second"; "short"].

Definition two_pages : Env :=
  env (Ok 2) (Ok [Ok (nth 0 two_texts ""); Ok (nth 1 two_texts "")])
      (raster 2) (Ok tt).

Definition job_world : World := mkWorld [] [] [] [] (Some "/tmp/tmpa1").

Definition two_slides_run : result presentation * World :=
  Eval vm_compute in
    build_slides two_pages two_texts 2 0 [page_image; page_image] [] job_world.

Definition two_slides : presentation :=
  match fst two_slides_run with
  | Ok prs => prs
  | Raise _ => []
  end.

(** The two folders of the application an hour or more into their life:
    the keep-file and an upload are two hours old, a result is 200 seconds
    old. *)
Definition swept_world : World :=
  mkWorld [] []
    [mkNode "uploads" false (0 # 1);
     mkNode "output" false (0 # 1);
     mkNode "uploads/.gitkeep" true (0 # 1);
     mkNode "uploads/4f1c_old.pdf" true (10 # 1);
     mkNode "output/4f1c_new.pptx" true (7000 # 1)]
    [] None.

(** A two-page PDF on a full disk: no page image can be written. *)
Definition disk_full : Env :=
  env (Ok 2) (Ok [Ok "one"; Ok "two"])
      (fun _ => Ok [mkImage "RGB" (Raise "[Errno 28] No space left on device")
                            (Raise "[Errno 28] No space left on device")])
      (Ok tt).

(** A two-page PDF the rasterizer renders and the text reader cannot
    open, and the slides made from it. *)
Definition textless : Env :=
  env (Ok 2) (Raise "EOF marker not found") (raster 2) (Ok tt).

Definition textless_slides : presentation :=
  Eval vm_compute in
    match documents (snd (convert textless "in.pdf" "out.pptx" 30 world)) with
    | (_, prs) :: _ => prs
    | [] => []
    end.

(** A page image whose JPEG save fails. *)
Definition png_only : Image :=
  mkImage "P" (Raise "cannot write mode P as JPEG") (Ok tt).

End Scenario.

(* ===================================================================== *)
(** * Strings                                                             *)
(* ===================================================================== *)

(** The Python primitives on small inputs. *)
Example replace_ex1 : replace ("a" ++ nl ++ nl ++ "b") (nl ++ nl) nl = "a" ++ nl ++ "b".
Proof. reflexivity. Qed.

Example replace_ex2 :
  replace ("a" ++ nl ++ nl ++ nl ++ "b") (nl ++ nl) nl = "a" ++ nl ++ nl ++ "b".
Proof. reflexivity. Qed.

Example strip_ex : strip ("  a b " ++ nl) = "a b".
Proof. reflexivity. Qed.

Example rsplit1_ex1 : rsplit1 "." "a.b.PDF" = ["a.b"; "PDF"].
Proof. reflexivity. Qed.

Example rsplit1_ex2 : rsplit1 "." "nodot" = ["nodot"].
Proof. reflexivity. Qed.

Example split_ex : split "," "a,,b," = ["a"; ""; "b"; ""].
Proof. reflexivity. Qed.

Example str_of_int_ex : str_of_int 31 = "31" /\ str_of_int 0 = "0" /\ str_of_int (-4) = "-4".
Proof. repeat split; reflexivity. Qed.

Example lower_ex : lower "a.PdF" = "a.pdf".
Proof. reflexivity. Qed.

Section StringFacts.

Lemma lstrip_first (s : string) : space_at (first_char (lstrip s)) = false.
Proof.
  induction s as [|c s IH]; simpl; [reflexivity|].
  destruct (is_space c) eqn:Hc; [exact IH|].
  simpl. exact Hc.
Qed.

Lemma rstrip_first (s : string) :
  rstrip s = EmptyString \/ first_char (rstrip s) = first_char s.
Proof.
  destruct s as [|c s]; simpl; [now left|].
  destruct (rstrip s); [destruct (is_space c)|]; auto.
Qed.

Lemma rstrip_last (s : string) : space_at (last_char (rstrip s)) = false.
Proof.
  induction s as [|c s IH]; simpl; [reflexivity|].
  destruct (rstrip s) as [|d r] eqn:Hr.
  - destruct (is_space c) eqn:Hc; simpl; [reflexivity | exact Hc].
  - exact IH.
Qed.

Lemma strip_first (s : string) : space_at (first_char (strip s)) = false.
Proof.
  unfold strip.
  destruct (rstrip_first (lstrip s)) as [H|H]; rewrite H.
  - reflexivity.
  - apply lstrip_first.
Qed.

Lemma strip_last (s : string) : space_at (last_char (strip s)) = false.
Proof. apply rstrip_last. Qed.

Lemma append_empty_r (s : string) : s ++ "" = s.
Proof. induction s; simpl; congruence. Qed.

Lemma append_assoc (a b c : string) : (a ++ b) ++ c = a ++ (b ++ c).
Proof. induction a; simpl; congruence. Qed.

Lemma lstrip_decompose (s : string) :
  exists a, s = a ++ lstrip s /\ all_space a = true.
Proof.
  induction s as [|c s [a [Ha Hs]]]; simpl.
  - exists "". auto.
  - destruct (is_space c) eqn:Hc.
    + exists (String c a). simpl. rewrite Hc, Hs. split; [congruence | reflexivity].
    + exists "". auto.
Qed.

Lemma rstrip_decompose (s : string) :
  exists b, s = rstrip s ++ b /\ all_space b = true.
Proof.
  induction s as [|c s [b [Hb Hs]]]; simpl.
  - exists "". auto.
  - destruct (rstrip s) as [|d r] eqn:Hr.
    + destruct (is_space c) eqn:Hc.
      * exists (String c b). simpl in *. rewrite Hc, Hs.
        split; [congruence | reflexivity].
      * exists b. simpl in *. split; congruence.
    + exists b. simpl in *. split; congruence.
Qed.

(** [strip] removes a run of whitespace at each end and nothing else. *)
Lemma strip_decompose (s : string) :
  exists a b,
    s = a ++ strip s ++ b /\ all_space a = true /\ all_space b = true.
Proof.
  destruct (lstrip_decompose s) as [a [Ha Hsa]].
  destruct (rstrip_decompose (lstrip s)) as [b [Hb Hsb]].
  exists a, b. unfold strip. rewrite <- Hb. auto.
Qed.

End StringFacts.

(* ===================================================================== *)
(** * The per-page text lookup of [convert]                               *)
(* ===================================================================== *)

Lemma getitem_nth {A : Type} (l : list A) (i : nat) (d : A) :
  (i < List.length l)%nat -> getitem l (Z.of_nat i) = Ok (nth i l d).
Proof.
  intros Hi. unfold getitem. cbv zeta.
  assert (H1 : (Z.of_nat i <? 0) = false) by (apply Z.ltb_ge; lia).
  assert (H2 : (Z.of_nat (List.length l) <=? Z.of_nat i) = false)
    by (apply Z.leb_gt; lia).
  rewrite !H1, H2. simpl. rewrite Nat2Z.id.
  rewrite (nth_error_nth' l d Hi). reflexivity.
Qed.

Lemma page_text_at_nth (pdf_texts : list string) (i : nat) :
  page_text_at pdf_texts (Z.of_nat i) =
  Ok (match nth_error pdf_texts i with
      | Some text => text
      | None => ""
      end).
Proof.
  unfold page_text_at, llen.
  destruct (Z.ltb_spec (Z.of_nat i) (Z.of_nat (List.length pdf_texts))) as [H|H].
  - assert (Hi : (i < List.length pdf_texts)%nat) by lia.
    rewrite (getitem_nth pdf_texts i "" Hi).
    rewrite (nth_error_nth' pdf_texts "" Hi). reflexivity.
  - assert (Hn : nth_error pdf_texts i = None) by (apply nth_error_None; lia).
    rewrite Hn. reflexivity.
Qed.

(** C10. In the slide-building loop the text of page index [i] is looked up
    without ever leaving the list: for every index [i] that [enumerate]
    produces, [pdf_texts[i] if i < len(pdf_texts) else ""] raises nothing; it
    yields the entry at [i] when there is one and the empty string when the
    text list is shorter than the image list. *)
Theorem page_text_lookup_total (pdf_texts : list string) (i : nat) :
  page_text_at pdf_texts (Z.of_nat i) =
  Ok (match nth_error pdf_texts i with
      | Some text => text
      | None => ""
      end).
Proof. apply page_text_at_nth. Qed.

(* ===================================================================== *)
(** * [extract_text_from_pdf]                                             *)
(* ===================================================================== *)

Lemma with_log_nil (w : World) : with_log w (log w ++ [])%list = w.
Proof. destruct w; unfold with_log; simpl. rewrite app_nil_r. reflexivity. Qed.

Lemma with_log_log (w : World) (l1 l2 : list (level * string)) :
  with_log (with_log w (log w ++ l1)%list)
           (log (with_log w (log w ++ l1)%list) ++ l2)%list
  = with_log w (log w ++ (l1 ++ l2))%list.
Proof. unfold with_log; simpl. rewrite app_assoc. reflexivity. Qed.

Lemma only_logs_ret {A : Type} (a : A) : only_logs (ret a) a.
Proof. intros w. exists []. unfold ret. rewrite with_log_nil. reflexivity. Qed.

Lemma only_logs_logging (lv : level) (msg : string) :
  only_logs (logging lv msg) tt.
Proof. intros w. exists [(lv, msg)]. reflexivity. Qed.

Lemma only_logs_bind {A B : Type} (m : M A) (k : A -> M B) (a : A) (b : B) :
  only_logs m a -> only_logs (k a) b -> only_logs (bind m k) b.
Proof.
  intros Hm Hk w. unfold bind.
  destruct (Hm w) as [l1 ->].
  destruct (Hk (with_log w (log w ++ l1)%list)) as [l2 ->].
  exists (l1 ++ l2)%list. rewrite with_log_log. reflexivity.
Qed.

Section ExtractText.

Variable E : Env.

Lemma extract_pages_spec (pages : list (result string)) (idx : list Z) :
  forall texts,
    only_logs (extract_pages pages idx texts)
              (texts ++ map (entry_at pages) idx)%list.
Proof.
  induction idx as [|i rest IH]; intros texts; simpl.
  - rewrite app_nil_r. apply only_logs_ret.
  - apply only_logs_bind with (a := (texts ++ [entry_at pages i])%list).
    + intros w. unfold try_except, bind, lift, ret, logging, entry_at.
      destruct (extract_page pages i) as [text|e]; eexists; reflexivity.
    + replace (texts ++ entry_at pages i :: map (entry_at pages) rest)%list
        with ((texts ++ [entry_at pages i]) ++ map (entry_at pages) rest)%list
        by (rewrite <- app_assoc; reflexivity).
      apply IH.
Qed.

Lemma entry_at_in_range (pages : list (result string)) (i : nat) :
  (i < List.length pages)%nat ->
  Some (entry_at pages (Z.of_nat i)) = option_map page_entry (nth_error pages i).
Proof.
  intros Hi. unfold entry_at, extract_page.
  rewrite (getitem_nth pages i (Raise "") Hi).
  rewrite (nth_error_nth' pages (Raise "") Hi). simpl.
  destruct (nth i pages (Raise "")); reflexivity.
Qed.

Lemma range_length (n : Z) : List.length (range n) = Z.to_nat n.
Proof. unfold range. rewrite length_map, length_seq. reflexivity. Qed.

Lemma range_nth_error (n : Z) (i : nat) :
  (i < Z.to_nat n)%nat -> nth_error (range n) i = Some (Z.of_nat i).
Proof.
  intros Hi. unfold range. rewrite nth_error_map.
  rewrite (nth_error_nth' (seq 0 (Z.to_nat n)) O) by (rewrite length_seq; exact Hi).
  rewrite seq_nth by exact Hi. reflexivity.
Qed.

(** The list returned for a readable PDF. *)
Lemma extracted_entries (pages : list (result string)) (max_pages : Z) (i : nat) :
  let texts := map (entry_at pages) (range (Z.min (llen pages) max_pages)) in
  (i < List.length texts)%nat ->
  nth_error texts i = option_map page_entry (nth_error pages i).
Proof.
  cbv zeta. rewrite length_map, range_length. intros Hi.
  rewrite nth_error_map, range_nth_error by exact Hi. simpl.
  apply entry_at_in_range. unfold llen in Hi. lia.
Qed.

(** What [extract_text_from_pdf] returns and what it changes. *)
Lemma extract_text_run
    (pdf_path : string) (max_pages : Z) (w : World) :
  exists texts l,
    extract_text_from_pdf E pdf_path max_pages w
    = (Ok texts, with_log w (log w ++ l)%list) /\
    match reader_out E with
    | Ok pages =>
        List.length texts = Z.to_nat (Z.min (llen pages) max_pages) /\
        forall i, (i < List.length texts)%nat ->
          nth_error texts i = option_map page_entry (nth_error pages i)
    | Raise _ => texts = []
    end.
Proof.
  unfold extract_text_from_pdf.
  destruct (reader_out E) as [pages|e].
  - destruct (extract_pages_spec pages (range (Z.min (llen pages) max_pages))
                [] w) as [l Hl].
    simpl in Hl. exists (map (entry_at pages) (range (Z.min (llen pages) max_pages))), l.
    split; [exact Hl|]. split.
    + rewrite length_map, range_length. reflexivity.
    + intros i Hi. apply extracted_entries. exact Hi.
  - exists [], [(ERROR, "Error reading PDF for text extraction: " ++ e)].
    split; reflexivity.
Qed.

(** C3. [extract_text_from_pdf] never aborts.  For a PDF the reader opens,
    the result has one entry per processed page, in page order, where the
    number of processed pages is min(page count, max_pages) (no page when
    that is negative); a page whose extraction raises contributes the empty
    string and the pages after it are still processed, a page whose
    extraction succeeds contributes its cleaned text.  A PDF the reader
    cannot open gives the empty list.  Nothing but the log changes. *)
Theorem extract_text_tolerates_page_failures
    (pdf_path : string) (max_pages : Z) (w : World) :
  exists texts l,
    extract_text_from_pdf E pdf_path max_pages w
    = (Ok texts, with_log w (log w ++ l)%list) /\
    match reader_out E with
    | Ok pages =>
        List.length texts = Z.to_nat (Z.min (llen pages) max_pages) /\
        forall i, (i < List.length texts)%nat ->
          nth_error texts i = option_map page_entry (nth_error pages i)
    | Raise _ => texts = []
    end.
Proof. apply extract_text_run. Qed.

End ExtractText.

(* ===================================================================== *)
(** * The text kept for a page                                            *)
(* ===================================================================== *)

Section CleanPageText.

#[local] Arguments Ascii.eqb : simpl never.
#[local] Arguments LF : simpl never.

(** One pass of [replace('\n\n', '\n')], unfolded at the head of the text. *)
Lemma replace_nn_pair (t : string) :
  replace (String LF (String LF t)) (nl ++ nl) nl
  = String LF (replace t (nl ++ nl) nl).
Proof. unfold replace. simpl. destruct t; reflexivity. Qed.

Lemma replace_nn_other (c : ascii) (s : string) :
  startswith (String c s) (nl ++ nl) = false ->
  replace (String c s) (nl ++ nl) nl = String c (replace s (nl ++ nl) nl).
Proof.
  intros H. unfold replace. cbn [replace_from]. rewrite H. reflexivity.
Qed.

Lemma startswith_nn (c : ascii) (s : string) :
  startswith (String c s) (nl ++ nl) = true ->
  c = LF /\ exists t, s = String LF t.
Proof.
  simpl. intros H. apply andb_prop in H. destruct H as [Hc Hs].
  apply Ascii.eqb_eq in Hc. split; [congruence|].
  destruct s as [|d t]; [discriminate|].
  simpl in Hs. apply andb_prop in Hs. destruct Hs as [Hd _].
  apply Ascii.eqb_eq in Hd. exists t. congruence.
Qed.

(** A text without three line feeds in a row has, after the pass, no two in
    a row; and the pass never puts a line feed in front of a text that did
    not start with one. *)
Lemma replace_nn_no_double (n : nat) :
  forall s, (String.length s <= n)%nat ->
    contains s (nl ++ nl ++ nl) = false ->
    contains (replace s (nl ++ nl) nl) (nl ++ nl) = false /\
    (first_char (replace s (nl ++ nl) nl) = Some LF -> first_char s = Some LF).
Proof.
  induction n as [|n IH]; intros s Hlen Hno.
  - destruct s; [|simpl in Hlen; lia]. split; [reflexivity | auto].
  - destruct s as [|c s]; [split; [reflexivity | auto]|].
    destruct (startswith (String c s) (nl ++ nl)) eqn:Hpair.
    + destruct (startswith_nn c s Hpair) as [-> [t ->]].
      rewrite replace_nn_pair.
      assert (Ht : contains t (nl ++ nl ++ nl) = false).
      { cbn [contains] in Hno.
        apply orb_false_elim in Hno. destruct Hno as [_ Hno].
        apply orb_false_elim in Hno. destruct Hno as [_ Hno]. exact Hno. }
      assert (Hfirst : first_char t <> Some LF).
      { intros Hf. destruct t as [|d t']; [discriminate|].
        simpl in Hf. injection Hf as ->.
        cbn [contains] in Hno. apply orb_false_elim in Hno.
        destruct Hno as [Hno _]. simpl in Hno.
        rewrite ?Ascii.eqb_refl in Hno. destruct t'; discriminate. }
      destruct (IH t) as [IH1 IH2]; [simpl in Hlen; lia | exact Ht |].
      split; [|reflexivity].
      cbn [contains]. rewrite IH1, orb_false_r.
      destruct (replace t (nl ++ nl) nl) as [|d r] eqn:Hr; [reflexivity|].
      simpl. destruct (Ascii.eqb_spec LF d) as [<-|Hd].
      * exfalso. apply Hfirst, IH2. reflexivity.
      * reflexivity.
    + rewrite (replace_nn_other c s Hpair).
      assert (Hs : contains s (nl ++ nl ++ nl) = false).
      { cbn [contains] in Hno. apply orb_false_elim in Hno. tauto. }
      destruct (IH s) as [IH1 IH2]; [simpl in Hlen; lia | exact Hs |].
      split; [|simpl; auto].
      cbn [contains]. rewrite IH1, orb_false_r.
      destruct (replace s (nl ++ nl) nl) as [|d r] eqn:Hr.
      * simpl. rewrite andb_false_r. reflexivity.
      * simpl. destruct (Ascii.eqb_spec LF c) as [<-|Hc]; [|reflexivity].
        destruct (Ascii.eqb_spec LF d) as [<-|Hd]; [|reflexivity].
        exfalso. assert (Hf : first_char s = Some LF) by (apply IH2; reflexivity).
        destruct s as [|d' s']; [discriminate|].
        simpl in Hf. injection Hf as ->. simpl in Hpair.
        rewrite ?Ascii.eqb_refl in Hpair. destruct s'; discriminate.
Qed.

Lemma startswith_app (x b sub : string) :
  startswith x sub = true -> startswith (x ++ b) sub = true.
Proof.
  revert sub. induction x as [|c x IH]; intros [|d sub]; simpl; auto.
  - intros _. destruct b; reflexivity.
  - discriminate.
  - intros H. apply andb_prop in H. destruct H as [-> H]. simpl. auto.
Qed.

Lemma contains_app_r (x b sub : string) :
  contains x sub = true -> contains (x ++ b) sub = true.
Proof.
  induction x as [|c x IH]; simpl.
  - rewrite orb_false_r. intros H. destruct sub; [|discriminate].
    destruct b; reflexivity.
  - intros H. apply orb_prop in H. destruct H as [H|H].
    + apply (startswith_app (String c x) b) in H. simpl in H. rewrite H.
      reflexivity.
    + rewrite (IH H). apply orb_true_r.
Qed.

Lemma contains_app_l (a y sub : string) :
  contains y sub = true -> contains (a ++ y) sub = true.
Proof.
  induction a as [|c a IH]; simpl; auto.
  intros H. rewrite (IH H). apply orb_true_r.
Qed.

Lemma strip_keeps_absence (s sub : string) :
  contains s sub = false -> contains (strip s) sub = false.
Proof.
  intros H. destruct (contains (strip s) sub) eqn:Hc; [|reflexivity].
  destruct (strip_decompose s) as [a [b [Hs _]]].
  rewrite Hs in H. rewrite contains_app_l in H; [discriminate|].
  apply contains_app_r. exact Hc.
Qed.

(** The kept text has no whitespace at either end, is what [strip] leaves
    of the text after the replacement pass, and has no two line feeds in a
    row when the raw text had no three in a row. *)
Lemma clean_page_text_spec (raw : string) :
  space_at (first_char (clean_page_text raw)) = false /\
  space_at (last_char (clean_page_text raw)) = false /\
  (exists a b,
     replace raw (nl ++ nl) nl = a ++ clean_page_text raw ++ b /\
     all_space a = true /\ all_space b = true) /\
  (contains raw (nl ++ nl ++ nl) = false ->
   contains (clean_page_text raw) (nl ++ nl) = false).
Proof.
  unfold clean_page_text. repeat split.
  - apply strip_first.
  - apply strip_last.
  - apply strip_decompose.
  - intros H. apply strip_keeps_absence.
    apply (replace_nn_no_double (String.length raw) raw (le_n _) H).
Qed.

End CleanPageText.

(** C4 (amended). For a page whose extraction succeeds, the stored string
    is the raw text after one left-to-right pass that replaces each
    occurrence of two line feeds by one, with the whitespace at both ends
    removed: it has no leading and no trailing whitespace, and it differs
    from the text after the pass only by a run of whitespace at each end.
    It has no two line feeds in a row when the raw text had no three in a
    row. *)
Theorem stored_page_text_is_cleaned
    (E : Env) (pdf_path : string) (max_pages : Z) (w w' : World)
    (pages : list (result string)) (texts : list string) (i : nat)
    (raw : string) :
  reader_out E = Ok pages ->
  extract_text_from_pdf E pdf_path max_pages w = (Ok texts, w') ->
  (i < List.length texts)%nat ->
  nth_error pages i = Some (Ok raw) ->
  exists stored,
    nth_error texts i = Some stored /\
    stored = strip (replace raw (nl ++ nl) nl) /\
    space_at (first_char stored) = false /\
    space_at (last_char stored) = false /\
    (exists a b,
       replace raw (nl ++ nl) nl = a ++ stored ++ b /\
       all_space a = true /\ all_space b = true) /\
    (contains raw (nl ++ nl ++ nl) = false ->
     contains stored (nl ++ nl) = false).
Proof.
  intros Hreader Hrun Hi Hpage.
  destruct (extract_text_run E pdf_path max_pages w) as [texts0 [l [Hrun0 Hspec]]].
  rewrite Hrun in Hrun0. injection Hrun0 as <- _.
  rewrite Hreader in Hspec. destruct Hspec as [_ Hentries].
  exists (clean_page_text raw). split.
  - rewrite (Hentries i Hi), Hpage. reflexivity.
  - split; [reflexivity|]. apply clean_page_text_spec.
Qed.

Lemma stored_page_text_is_cleaned_at_a_page :
  reader_out Scenario.triple_newline
  = Ok [Ok ("  a" ++ nl ++ nl ++ nl ++ "b ")] /\
  extract_text_from_pdf Scenario.triple_newline "in.pdf" 30 Scenario.world
  = (Ok ["a" ++ nl ++ nl ++ "b"],
     snd (extract_text_from_pdf Scenario.triple_newline "in.pdf" 30
            Scenario.world)) /\
  (0 < List.length ["a" ++ nl ++ nl ++ "b"])%nat /\
  exists stored,
    nth_error ["a" ++ nl ++ nl ++ "b"] 0 = Some stored /\
    stored = strip (replace ("  a" ++ nl ++ nl ++ nl ++ "b ") (nl ++ nl) nl) /\
    space_at (first_char stored) = false /\
    space_at (last_char stored) = false /\
    (exists a b,
       replace ("  a" ++ nl ++ nl ++ nl ++ "b ") (nl ++ nl) nl = a ++ stored ++ b /\
       all_space a = true /\ all_space b = true) /\
    (contains ("  a" ++ nl ++ nl ++ nl ++ "b ") (nl ++ nl ++ nl) = false ->
     contains stored (nl ++ nl) = false).
Proof.
  split; [reflexivity|]. split; [reflexivity|]. split; [simpl; lia|].
  apply (stored_page_text_is_cleaned Scenario.triple_newline "in.pdf" 30
           Scenario.world
           (snd (extract_text_from_pdf Scenario.triple_newline "in.pdf" 30
                   Scenario.world))
           [Ok ("  a" ++ nl ++ nl ++ nl ++ "b ")] ["a" ++ nl ++ nl ++ "b"] 0%nat
           ("  a" ++ nl ++ nl ++ nl ++ "b ")).
  - reflexivity.
  - reflexivity.
  - simpl; lia.
  - reflexivity.
Defined.

(** C4 as stated fails: a page whose raw text has three line feeds in a row
    is extracted without error and its stored string still has two in a
    row. *)
Lemma stored_text_keeps_double_newline :
  extract_text_from_pdf Scenario.triple_newline "in.pdf" 30 Scenario.world
  = (Ok ["a" ++ nl ++ nl ++ "b"],
     snd (extract_text_from_pdf Scenario.triple_newline "in.pdf" 30
            Scenario.world)) /\
  contains ("a" ++ nl ++ nl ++ "b") (nl ++ nl) = true.
Proof. split; reflexivity. Qed.

(* ===================================================================== *)
(** * Frame reasoning                                                     *)
(* ===================================================================== *)

Section Frame.

Variable R : World -> World -> Prop.
Hypothesis R_refl : forall w, R w w.
Hypothesis R_trans : forall w1 w2 w3, R w1 w2 -> R w2 w3 -> R w1 w3.
Hypothesis R_log : forall w l, R w (with_log w (log w ++ l)%list).
Hypothesis R_fs : forall w f, R w (with_fs w f).

Lemma respects_ret {A : Type} (a : A) : respects R (ret a).
Proof. intros w. apply R_refl. Qed.

Lemma respects_raise {A : Type} (e : string) : respects R (@raise A e).
Proof. intros w. apply R_refl. Qed.

Lemma respects_lift {A : Type} (r : result A) : respects R (lift r).
Proof. intros w. apply R_refl. Qed.

Lemma respects_bind {A B : Type} (m : M A) (k : A -> M B) :
  respects R m -> (forall a, respects R (k a)) -> respects R (bind m k).
Proof.
  intros Hm Hk w. unfold bind. specialize (Hm w).
  destruct (m w) as [[a|e] w1]; simpl in *.
  - eapply R_trans; [exact Hm | apply Hk].
  - exact Hm.
Qed.

Lemma respects_try_except {A : Type} (m : M A) (h : string -> M A) :
  respects R m -> (forall e, respects R (h e)) -> respects R (try_except m h).
Proof.
  intros Hm Hh w. unfold try_except. specialize (Hm w).
  destruct (m w) as [[a|e] w1]; simpl in *.
  - exact Hm.
  - eapply R_trans; [exact Hm | apply Hh].
Qed.

Lemma respects_try_finally {A : Type} (m : M A) (f : M unit) :
  respects R m -> respects R f -> respects R (try_finally m f).
Proof.
  intros Hm Hf w. unfold try_finally. specialize (Hm w).
  destruct (m w) as [r w1]. specialize (Hf w1).
  destruct (f w1) as [[u|e] w2]; simpl in *; eapply R_trans; eauto.
Qed.

Lemma respects_logging (lv : level) (msg : string) :
  respects R (logging lv msg).
Proof. intros w. apply R_log. Qed.

Lemma respects_get_temp_dir : respects R get_temp_dir.
Proof. intros w. apply R_refl. Qed.

Lemma respects_temp_dir_str : respects R temp_dir_str.
Proof.
  apply respects_bind; [apply respects_get_temp_dir|].
  intros [d|]; [apply respects_ret | apply respects_raise].
Qed.

Lemma respects_os_path_exists (p : string) : respects R (os_path_exists p).
Proof. intros w. apply R_refl. Qed.

Lemma respects_write_node (E : Env) (p : string) (b : bool) :
  respects R (write_node E p b).
Proof. intros w. apply R_fs. Qed.

Lemma respects_delete_node (p : string) : respects R (delete_node p).
Proof. intros w. apply R_fs. Qed.

Lemma respects_delete_tree (p : string) : respects R (delete_tree p).
Proof. intros w. apply R_fs. Qed.

Lemma respects_extract_pages (pages : list (result string)) (idx : list Z) :
  forall texts, respects R (extract_pages pages idx texts).
Proof.
  induction idx as [|i rest IH]; intros texts; simpl.
  - apply respects_ret.
  - apply respects_bind; [|intros; apply IH].
    apply respects_try_except.
    + apply respects_bind; [apply respects_lift|]. intros.
      apply respects_bind; [apply respects_logging|]. intros.
      apply respects_ret.
    + intros. apply respects_bind; [apply respects_logging|]. intros.
      apply respects_ret.
Qed.

Lemma respects_extract_text (E : Env) (pdf_path : string) (max_pages : Z) :
  respects R (extract_text_from_pdf E pdf_path max_pages).
Proof.
  unfold extract_text_from_pdf. destruct (reader_out E).
  - apply respects_extract_pages.
  - apply respects_bind; [apply respects_logging|]. intros.
    apply respects_ret.
Qed.

Lemma respects_image_save (E : Env) (out : result unit) (path : string) :
  respects R (image_save E out path).
Proof.
  apply respects_bind; [apply respects_lift|]. intros.
  apply respects_write_node.
Qed.

Lemma respects_save_page_image (E : Env) (image : Image) (i : Z) :
  respects R (save_page_image E image i).
Proof.
  apply respects_bind; [apply respects_temp_dir_str|]. intros d.
  apply respects_try_except.
  - apply respects_bind; [apply respects_image_save|]. intros.
    apply respects_ret.
  - intros e. apply respects_bind; [apply respects_logging|]. intros.
    apply respects_bind; [apply respects_temp_dir_str|]. intros.
    apply respects_bind; [apply respects_image_save|]. intros.
    apply respects_ret.
Qed.

Lemma respects_create_slide (E : Env) (text image_path : string) (n : Z) :
  respects R (create_editable_text_slide E text image_path n).
Proof.
  apply respects_bind; [apply respects_lift|].
  intros [|]; apply respects_ret.
Qed.

Lemma respects_build_slides (E : Env) (pdf_texts : list string) (total : Z)
    (images : list Image) :
  forall i slides, respects R (build_slides E pdf_texts total i images slides).
Proof.
  induction images as [|image rest IH]; intros i slides; simpl.
  - apply respects_ret.
  - apply respects_bind; [apply respects_logging|]. intros.
    apply respects_bind; [apply respects_lift|]. intros.
    apply respects_bind; [apply respects_save_page_image|]. intros.
    apply respects_bind; [apply respects_create_slide|]. intros.
    apply IH.
Qed.

Lemma respects_convert_handler (e : string) : respects R (convert_handler e).
Proof.
  apply respects_bind; [apply respects_logging|]. intros. apply respects_ret.
Qed.

Lemma respects_convert_cleanup (E : Env) : respects R (convert_cleanup E).
Proof.
  apply respects_bind; [apply respects_get_temp_dir|].
  intros [d|]; [|apply respects_ret].
  apply respects_bind; [apply respects_os_path_exists|]. intros present.
  destruct (truthy d && present); [|apply respects_ret].
  apply respects_try_except.
  - apply respects_bind; [apply respects_lift|]. intros.
    apply respects_bind; [apply respects_delete_tree|]. intros.
    apply respects_logging.
  - intros. apply respects_logging.
Qed.

(** What [convert] does once [self.temp_dir] is set, when [R] also allows
    for the presentation being written. *)
Hypothesis R_documents : forall w d, R w (with_documents w d).

Lemma respects_presentation_save (E : Env) (prs : presentation) (p : string) :
  respects R (presentation_save E prs p).
Proof.
  apply respects_bind; [apply respects_lift|]. intros.
  apply respects_bind; [apply respects_write_node|]. intros.
  intros w. apply R_documents.
Qed.

Lemma respects_convert_pages (E : Env) (pdf_path output_path : string)
    (last_page : Z) :
  respects R
    (pdf_texts <- extract_text_from_pdf E pdf_path last_page ;;
     logging INFO ("Converting PDF to images: " ++ pdf_path ++ " (pages 1-"
                   ++ str_of_int last_page ++ ")") ;;
     images <- convert_from_path E pdf_path last_page ;;
     match images with
     | [] =>
         logging ERROR "No images generated from PDF" ;;
         ret false
     | _ :: _ =>
         logging INFO ("Generated " ++ str_of_int (llen images)
                       ++ " images from PDF") ;;
         prs <- build_slides E pdf_texts (llen images) 0 images [] ;;
         presentation_save E prs output_path ;;
         logging INFO ("PowerPoint presentation saved: " ++ output_path) ;;
         ret true
     end).
Proof.
  apply respects_bind; [apply respects_extract_text|]. intros pdf_texts.
  apply respects_bind; [apply respects_logging|]. intros _.
  apply respects_bind; [apply respects_lift|]. intros [|image rest].
  - apply respects_bind; [apply respects_logging|]. intros.
    apply respects_ret.
  - apply respects_bind; [apply respects_logging|]. intros _.
    apply respects_bind; [apply respects_build_slides|]. intros prs.
    apply respects_bind; [apply respects_presentation_save|]. intros _.
    apply respects_bind; [apply respects_logging|]. intros.
    apply respects_ret.
Qed.

Lemma respects_convert_steps (E : Env) (pdf_path output_path d : string)
    (max_pages : Z) :
  respects R
    (logging INFO ("Created temporary directory: " ++ d) ;;
     page_count <- lift (get_pdf_page_count_out E) ;;
     last_page <-
       (if page_count >? max_pages then
          logging WARNING ("PDF has " ++ str_of_int page_count
                           ++ " pages, limiting to " ++ str_of_int max_pages
                           ++ " pages") ;;
          ret max_pages
        else ret page_count) ;;
     pdf_texts <- extract_text_from_pdf E pdf_path last_page ;;
     logging INFO ("Converting PDF to images: " ++ pdf_path ++ " (pages 1-"
                   ++ str_of_int last_page ++ ")") ;;
     images <- convert_from_path E pdf_path last_page ;;
     match images with
     | [] =>
         logging ERROR "No images generated from PDF" ;;
         ret false
     | _ :: _ =>
         logging INFO ("Generated " ++ str_of_int (llen images)
                       ++ " images from PDF") ;;
         prs <- build_slides E pdf_texts (llen images) 0 images [] ;;
         presentation_save E prs output_path ;;
         logging INFO ("PowerPoint presentation saved: " ++ output_path) ;;
         ret true
     end).
Proof.
  apply respects_bind; [apply respects_logging|]. intros _.
  apply respects_bind; [apply respects_lift|]. intros page_count.
  apply respects_bind.
  { destruct (page_count >? max_pages); [|apply respects_ret].
    apply respects_bind; [apply respects_logging|]. intros.
    apply respects_ret. }
  intros last_page. apply respects_convert_pages.
Qed.

End Frame.

(* ===================================================================== *)
(** * Running a computation step by step                                  *)
(* ===================================================================== *)

Lemma bind_inv {A B : Type} (m : M A) (k : A -> M B) (w w' : World)
    (r : result B) :
  bind m k w = (r, w') ->
  (exists a w1, m w = (Ok a, w1) /\ k a w1 = (r, w')) \/
  (exists e, m w = (Raise e, w') /\ r = Raise e).
Proof.
  unfold bind. destruct (m w) as [[a|e] w1]; intros H.
  - left. eauto.
  - right. injection H as <- <-. eauto.
Qed.

Lemma try_except_inv {A : Type} (m : M A) (h : string -> M A) (w w' : World)
    (r : result A) :
  try_except m h w = (r, w') ->
  (exists a, m w = (Ok a, w') /\ r = Ok a) \/
  (exists e w1, m w = (Raise e, w1) /\ h e w1 = (r, w')).
Proof.
  unfold try_except. destruct (m w) as [[a|e] w1]; intros H.
  - left. injection H as <- <-. eauto.
  - right. eauto.
Qed.

(** Case analysis on the first step of a sequence: [Hs] is the run of the
    step, [H] the run of what follows it. *)
Ltac step H Hs :=
  apply bind_inv in H;
  let a := fresh "a" in
  let w := fresh "w" in
  let e := fresh "e" in
  let Hr := fresh "Hr" in
  destruct H as [[a [w [Hs H]]] | [e [Hs Hr]]];
  [| try discriminate Hr;
     try (match type of Hr with ?x = _ => is_var x; subst x end)].

(** The run of a primitive step, read off its definition. *)
Ltac inv_run H :=
  unfold ret, raise, lift, logging, flash, get_temp_dir, set_temp_dir,
    write_node, delete_node, delete_tree, os_path_exists in H;
  try discriminate H;
  try (injection H; clear H; intros;
       repeat match goal with
              | Hq : _ = ?x |- _ => is_var x; subst x
              end;
       subst).

(** A first step that is a primitive. *)
Ltac prim H :=
  let Hs := fresh "Hs" in
  step H Hs; inv_run Hs.

(* ===================================================================== *)
(** * [convert]                                                           *)
(* ===================================================================== *)

Section Convert.

Variable E : Env.
Variables pdf_path output_path : string.
Variable max_pages : Z.

Lemma keeps_documents_refl (w : World) : keeps_documents w w.
Proof. reflexivity. Qed.

Lemma keeps_documents_trans (w1 w2 w3 : World) :
  keeps_documents w1 w2 -> keeps_documents w2 w3 -> keeps_documents w1 w3.
Proof. unfold keeps_documents. congruence. Qed.

Lemma keeps_temp_dir_refl (w : World) : keeps_temp_dir w w.
Proof. reflexivity. Qed.

Lemma keeps_temp_dir_trans (w1 w2 w3 : World) :
  keeps_temp_dir w1 w2 -> keeps_temp_dir w2 w3 -> keeps_temp_dir w1 w3.
Proof. unfold keeps_temp_dir. congruence. Qed.

Lemma log_grows_refl (w : World) : log_grows w w.
Proof. exists []. rewrite app_nil_r. reflexivity. Qed.

Lemma log_grows_trans (w1 w2 w3 : World) :
  log_grows w1 w2 -> log_grows w2 w3 -> log_grows w1 w3.
Proof.
  intros [l1 H1] [l2 H2]. exists (l1 ++ l2)%list.
  rewrite H2, H1, app_assoc. reflexivity.
Qed.

Lemma log_grows_log (w : World) (l : list (level * string)) :
  log_grows w (with_log w (log w ++ l)%list).
Proof. exists l. reflexivity. Qed.

Lemma log_grows_In (w w' : World) (r : level * string) :
  log_grows w w' -> In r (log w) -> In r (log w').
Proof. intros [l ->] H. apply in_or_app. now left. Qed.

Lemma mkdtemp_run (w : World) :
  mkdtemp E w
  = match mkdtemp_out E with
    | Ok d =>
        (Ok d,
         with_fs w (mkNode d false (now E)
                    :: filter (fun n => negb (String.eqb (n_path n) d)) (fs w)))
    | Raise e => (Raise e, w)
    end.
Proof. unfold mkdtemp, bind, lift. destruct (mkdtemp_out E); reflexivity. Qed.

(** The handler and the cleanup always return. *)
Lemma convert_handler_run (e : string) (w : World) :
  convert_handler e w
  = (Ok false,
     with_log w (log w ++ [(ERROR, ("Error during PDF to PowerPoint conversion: " ++ e)%string)])%list).
Proof. reflexivity. Qed.

Lemma convert_cleanup_returns (w : World) :
  exists w', convert_cleanup E w = (Ok tt, w').
Proof.
  unfold convert_cleanup, bind, get_temp_dir, os_path_exists, try_except, lift.
  destruct (self_temp_dir w) as [d|]; [|eexists; reflexivity].
  destruct (truthy d && path_exists (fs w) d); [|eexists; reflexivity].
  destruct (rmtree_out E); eexists; reflexivity.
Qed.

(** [convert] in terms of the outcome of its [try] body. *)
Lemma convert_after_body (w : World) :
  convert E pdf_path output_path max_pages w
  = match convert_body E pdf_path output_path max_pages w with
    | (Ok b, w1) => (Ok b, snd (convert_cleanup E w1))
    | (Raise e, w1) =>
        (Ok false, snd (convert_cleanup E (snd (convert_handler e w1))))
    end.
Proof.
  unfold convert, try_finally, try_except.
  destruct (convert_body E pdf_path output_path max_pages w) as [[b|e] w1].
  - destruct (convert_cleanup_returns w1) as [w2 ->]. reflexivity.
  - rewrite convert_handler_run.
    destruct (convert_cleanup_returns
                (with_log w1 (log w1 ++ [(ERROR, ("Error during PDF to PowerPoint conversion: " ++ e)%string)])%list))
      as [w2 H].
    cbn [snd]. rewrite H. reflexivity.
Qed.

(** The block that caps the page count. *)
Lemma last_page_run (page_count : Z) (w : World) :
  (if page_count >? max_pages then
     logging WARNING ("PDF has " ++ str_of_int page_count
                      ++ " pages, limiting to " ++ str_of_int max_pages
                      ++ " pages") ;;
     ret max_pages
   else ret page_count) w
  = (Ok (Z.min page_count max_pages),
     if page_count >? max_pages
     then with_log w (log w ++ [(WARNING,
                                 ("PDF has " ++ str_of_int page_count
                                  ++ " pages, limiting to "
                                  ++ str_of_int max_pages ++ " pages")%string)])%list
     else w).
Proof.
  destruct (Z.gtb_spec page_count max_pages) as [H|H].
  - rewrite Z.min_r by lia. reflexivity.
  - rewrite Z.min_l by lia. reflexivity.
Qed.

(** The documents are as before when the text extraction starts. *)
Ltac documents_before_extraction H w Hw :=
  match type of H with
  | _ ?w1 = _ =>
      assert (Hw : documents w1 = documents w)
        by (match goal with
            | |- context [if ?c then _ else _] => destruct c
            end; reflexivity)
  end.

(** The text extraction leaves the documents alone. *)
Ltac documents_after_extraction Hx Hd :=
  match type of Hx with
  | extract_text_from_pdf E pdf_path ?lp ?w1 = _ =>
      pose proof (respects_extract_text keeps_documents keeps_documents_refl
                    keeps_documents_trans (fun w l => eq_refl) E pdf_path lp w1)
        as Hd;
      rewrite Hx in Hd; unfold keeps_documents in Hd; cbn [snd] in Hd
  end.

(** When the rasterizer raises, so does the body, before any presentation
    is written. *)
Lemma body_raises_when_rasterizer_does (w w' : World) (r : result bool) :
  (forall last_page, exists e, convert_from_path_out E last_page = Raise e) ->
  convert_body E pdf_path output_path max_pages w = (r, w') ->
  (exists e, r = Raise e) /\ documents w' = documents w.
Proof.
  intros Hraster H. unfold convert_body in H.
  step H Hmk; rewrite mkdtemp_run in Hmk;
    destruct (mkdtemp_out E) as [d|].
  all: inv_run Hmk.
  2:{ split; [eauto | reflexivity]. }
  prim H. prim H. prim H.
  2:{ split; [eauto | reflexivity]. }
  step H Hlast; rewrite last_page_run in Hlast; inv_run Hlast.
  documents_before_extraction H w Hw.
  step H Hx; documents_after_extraction Hx Hd.
  2:{ split; [eauto | congruence]. }
  prim H.
  step H Hr; unfold convert_from_path in Hr; inv_run Hr.
  - exfalso.
    match goal with
    | Hq : convert_from_path_out E ?lp = Ok _ |- _ =>
        destruct (Hraster lp) as [e He]; congruence
    end.
  - split; [eauto|]. cbn [documents with_log]. congruence.
Qed.

Lemma body_raises_when_page_count_does (w w' : World) (r : result bool)
    (e : string) :
  get_pdf_page_count_out E = Raise e ->
  convert_body E pdf_path output_path max_pages w = (r, w') ->
  (exists e', r = Raise e') /\ documents w' = documents w.
Proof.
  intros Hcount H. unfold convert_body in H.
  step H Hmk; rewrite mkdtemp_run in Hmk;
    destruct (mkdtemp_out E) as [d|].
  all: inv_run Hmk.
  2:{ split; [eauto | reflexivity]. }
  prim H. prim H. rewrite Hcount in H. prim H.
  split; [eauto | reflexivity].
Qed.

(** A PDF without pages: the body ends in [return False] or raises, before
    any presentation is written. *)
Lemma body_fails_without_pages (w w' : World) (r : result bool) :
  get_pdf_page_count_out E = Ok 0 ->
  (forall last_page images,
     last_page <= 0 -> convert_from_path_out E last_page = Ok images ->
     images = []) ->
  convert_body E pdf_path output_path max_pages w = (r, w') ->
  (r = Ok false \/ exists e, r = Raise e) /\ documents w' = documents w.
Proof.
  intros Hcount Hraster H. unfold convert_body in H.
  step H Hmk; rewrite mkdtemp_run in Hmk;
    destruct (mkdtemp_out E) as [d|].
  all: inv_run Hmk.
  2:{ split; [eauto | reflexivity]. }
  prim H. prim H. rewrite Hcount in H. prim H.
  step H Hlast; rewrite last_page_run in Hlast; inv_run Hlast.
  documents_before_extraction H w Hw.
  step H Hx; documents_after_extraction Hx Hd.
  2:{ split; [eauto | congruence]. }
  prim H.
  step H Hr; unfold convert_from_path in Hr; inv_run Hr.
  - match goal with
    | Hq : convert_from_path_out E ?lp = Ok ?imgs |- _ =>
        rewrite (Hraster lp imgs (Z.le_min_l 0 max_pages) Hq) in H
    end.
    prim H. inv_run H.
    split; [now left | cbn [documents with_log]; congruence].
  - split; [eauto|]. cbn [documents with_log]. congruence.
Qed.

Lemma convert_false_when_body_raises (w w1 : World) (e : string) :
  convert_body E pdf_path output_path max_pages w = (Raise e, w1) ->
  fst (convert E pdf_path output_path max_pages w) = Ok false /\
  In (ERROR, "Error during PDF to PowerPoint conversion: " ++ e)
     (log (snd (convert E pdf_path output_path max_pages w))) /\
  documents (snd (convert E pdf_path output_path max_pages w)) = documents w1.
Proof.
  intros Hbody. rewrite convert_after_body, Hbody. simpl.
  split; [reflexivity|]. split.
  - eapply log_grows_In.
    + apply (respects_convert_cleanup log_grows log_grows_refl log_grows_trans
               log_grows_log (fun w f => log_grows_refl _)).
    + simpl. apply in_or_app. right. left. reflexivity.
  - rewrite (respects_convert_cleanup keeps_documents keeps_documents_refl
               keeps_documents_trans (fun w l => eq_refl) (fun w f => eq_refl) E).
    reflexivity.
Qed.

End Convert.

(** C5. [convert] always returns a boolean and lets no exception through:
    whatever the libraries and the operating system do, the call ends with
    [True] or [False].  An exception that leaves the [try] body at any stage
    is logged as an error and turned into [False].  In particular a PDF
    whose page count is 0 (the rasterizer then yields no image) and a PDF
    that cannot be read (the page count probe or the rasterizer raises)
    give [False]. *)
Theorem convert_returns_a_boolean
    (E : Env) (pdf_path output_path : string) (max_pages : Z) (w : World) :
  (exists b w', convert E pdf_path output_path max_pages w = (Ok b, w')) /\
  (forall e w1,
     convert_body E pdf_path output_path max_pages w = (Raise e, w1) ->
     fst (convert E pdf_path output_path max_pages w) = Ok false /\
     In (ERROR, "Error during PDF to PowerPoint conversion: " ++ e)
        (log (snd (convert E pdf_path output_path max_pages w)))) /\
  (get_pdf_page_count_out E = Ok 0 ->
   (forall last_page images,
      last_page <= 0 -> convert_from_path_out E last_page = Ok images ->
      images = []) ->
   fst (convert E pdf_path output_path max_pages w) = Ok false) /\
  ((exists e, get_pdf_page_count_out E = Raise e) \/
   (forall last_page, exists e, convert_from_path_out E last_page = Raise e) ->
   fst (convert E pdf_path output_path max_pages w) = Ok false).
Proof.
  repeat split.
  - rewrite convert_after_body.
    destruct (convert_body E pdf_path output_path max_pages w) as [[b|e] w1];
      eexists; eexists; reflexivity.
  - apply (convert_false_when_body_raises E pdf_path output_path max_pages
             w w1 e H).
  - apply (convert_false_when_body_raises E pdf_path output_path max_pages
             w w1 e H).
  - intros Hcount Hraster.
    destruct (convert_body E pdf_path output_path max_pages w) as [r w1] eqn:Hb.
    destruct (body_fails_without_pages E pdf_path output_path max_pages
                w w1 r Hcount Hraster Hb) as [[->|[e ->]] _].
    + rewrite convert_after_body, Hb. reflexivity.
    + apply (convert_false_when_body_raises E pdf_path output_path max_pages
               w w1 e Hb).
  - intros Hunreadable.
    destruct (convert_body E pdf_path output_path max_pages w) as [r w1] eqn:Hb.
    assert (Hr : exists e, r = Raise e).
    { destruct Hunreadable as [[e He]|Hraster].
      - apply (body_raises_when_page_count_does E pdf_path output_path
                 max_pages w w1 r e He Hb).
      - apply (body_raises_when_rasterizer_does E pdf_path output_path
                 max_pages w w1 r Hraster Hb). }
    destruct Hr as [e ->].
    apply (convert_false_when_body_raises E pdf_path output_path max_pages
             w w1 e Hb).
Qed.

Lemma convert_returns_a_boolean_on_an_empty_pdf :
  get_pdf_page_count_out Scenario.empty_pdf = Ok 0 /\
  (forall last_page images,
     last_page <= 0 ->
     convert_from_path_out Scenario.empty_pdf last_page = Ok images ->
     images = []) /\
  fst (convert Scenario.empty_pdf "in.pdf" "out.pptx" 30 Scenario.world)
  = Ok false.
Proof.
  assert (Hraster : forall last_page images,
            last_page <= 0 ->
            convert_from_path_out Scenario.empty_pdf last_page = Ok images ->
            images = []).
  { intros last_page images Hle Himages. simpl in Himages.
    unfold Scenario.raster in Himages.
    replace (Z.to_nat (Z.min 0 last_page)) with O in Himages by lia.
    simpl in Himages. congruence. }
  split; [reflexivity|]. split; [exact Hraster|].
  apply (proj1 (proj2 (proj2
           (convert_returns_a_boolean Scenario.empty_pdf "in.pdf" "out.pptx" 30
              Scenario.world)))).
  - reflexivity.
  - exact Hraster.
Defined.

(* ===================================================================== *)
(** * The temporary directory                                             *)
(* ===================================================================== *)

Section TempDir.

Variable E : Env.
Variables pdf_path output_path : string.
Variable max_pages : Z.

Lemma lookup_after_delete_tree (f : list node) (d : string) :
  lookup_node
    (filter (fun n => negb (String.eqb (n_path n) d
                            || startswith (n_path n) (d ++ "/"))) f) d
  = None.
Proof.
  unfold lookup_node. induction f as [|n f IH]; simpl; [reflexivity|].
  destruct (String.eqb (n_path n) d) eqn:Hn; simpl; [exact IH|].
  destruct (startswith (n_path n) (d ++ "/")); simpl; [exact IH|].
  rewrite Hn. exact IH.
Qed.

(** Once [mkdtemp] has returned [d], [self.temp_dir] is [d] when the body
    ends, however it ends. *)
Lemma body_sets_temp_dir (w w' : World) (r : result bool) (d : string) :
  mkdtemp_out E = Ok d ->
  convert_body E pdf_path output_path max_pages w = (r, w') ->
  self_temp_dir w' = Some d.
Proof.
  intros Hmk H. unfold convert_body in H.
  step H Hs; rewrite mkdtemp_run, Hmk in Hs; inv_run Hs.
  prim H.
  match goal with
  | |- self_temp_dir _ = Some ?x =>
      pose proof (respects_convert_steps keeps_temp_dir keeps_temp_dir_refl
                    keeps_temp_dir_trans (fun w l => eq_refl)
                    (fun w f => eq_refl) (fun w f => eq_refl)
                    E pdf_path output_path x max_pages) as Hframe
  end.
  match type of H with
  | ?m ?w1 = _ =>
      assert (Hw' : snd (m w1) = w') by (rewrite H; reflexivity);
      rewrite <- Hw'; etransitivity; [exact (Hframe w1) | reflexivity]
  end.
Qed.

(** The cleanup removes the directory named by [self.temp_dir] when
    [shutil.rmtree] succeeds. *)
Lemma cleanup_removes_temp_dir (w : World) (d : string) :
  self_temp_dir w = Some d -> d <> "" -> rmtree_out E = Ok tt ->
  path_exists (fs (snd (convert_cleanup E w))) d = false.
Proof.
  intros Htd Hd Hrm.
  unfold convert_cleanup, bind, get_temp_dir, os_path_exists, try_except, lift.
  rewrite Htd, Hrm.
  assert (Ht : truthy d = true).
  { unfold truthy. destruct (String.eqb_spec d ""); [contradiction|reflexivity]. }
  rewrite Ht. simpl andb.
  destruct (path_exists (fs w) d) eqn:Hex; simpl.
  - unfold path_exists. rewrite lookup_after_delete_tree. reflexivity.
  - exact Hex.
Qed.

End TempDir.

(** C6 (amended). When [tempfile.mkdtemp] has created the directory [d] for
    the job and [shutil.rmtree] succeeds, [d] does not exist after [convert]
    returns, whether the conversion succeeded, returned [False] early or
    raised. *)
Theorem temp_dir_removed_when_rmtree_succeeds
    (E : Env) (pdf_path output_path : string) (max_pages : Z) (w : World)
    (d : string) :
  mkdtemp_out E = Ok d -> d <> "" -> rmtree_out E = Ok tt ->
  path_exists (fs (snd (convert E pdf_path output_path max_pages w))) d = false.
Proof.
  intros Hmk Hd Hrm. rewrite convert_after_body.
  destruct (convert_body E pdf_path output_path max_pages w) as [[b|e] w1] eqn:Hb;
    pose proof (body_sets_temp_dir E pdf_path output_path max_pages w w1 _ d
                  Hmk Hb) as Htd;
    cbn [snd]; apply cleanup_removes_temp_dir; auto.
Qed.

Lemma temp_dir_removed_after_a_conversion :
  mkdtemp_out Scenario.triple_newline = Ok "/tmp/tmpa1" /\
  "/tmp/tmpa1" <> "" /\
  rmtree_out Scenario.triple_newline = Ok tt /\
  path_exists
    (fs (snd (convert Scenario.triple_newline "in.pdf" "out.pptx" 30
                Scenario.world)))
    "/tmp/tmpa1"
  = false.
Proof.
  split; [reflexivity|]. split; [discriminate|]. split; [reflexivity|].
  apply (temp_dir_removed_when_rmtree_succeeds Scenario.triple_newline
           "in.pdf" "out.pptx" 30 Scenario.world "/tmp/tmpa1").
  - reflexivity.
  - discriminate.
  - reflexivity.
Defined.

(** C6 as stated fails: when [shutil.rmtree] raises, the error is logged,
    [convert] still returns, and the directory it created is still there. *)
Lemma temp_dir_survives_failed_rmtree :
  path_exists (fs Scenario.world) "/tmp/tmpa1" = false /\
  mkdtemp_out Scenario.undeletable = Ok "/tmp/tmpa1" /\
  fst (convert Scenario.undeletable "in.pdf" "out.pptx" 30 Scenario.world)
  = Ok true /\
  path_exists
    (fs (snd (convert Scenario.undeletable "in.pdf" "out.pptx" 30
                Scenario.world)))
    "/tmp/tmpa1"
  = true.
Proof. repeat split; reflexivity. Qed.

(* ===================================================================== *)
(** * The slide-building loop                                             *)
(* ===================================================================== *)

Section BuildSlides.

Variable E : Env.

Lemma create_slide_inv (text image_path : string) (n : Z) (w w' : World)
    (s : slide) :
  create_editable_text_slide E text image_path n w = (Ok s, w') ->
  title_box s = title_frame n /\ content_box s = content_frame E text /\ w' = w.
Proof.
  unfold create_editable_text_slide. intros H.
  prim H. destruct a; inv_run H; auto.
Qed.

(** The slides the loop adds, one per image, each filled from the text of
    its page. *)
Lemma build_slides_inv (pdf_texts : list string) (total : Z)
    (images : list Image) :
  forall (i : nat) (slides : presentation) (w w' : World) (prs : presentation),
    build_slides E pdf_texts total (Z.of_nat i) images slides w = (Ok prs, w') ->
    exists added,
      prs = (slides ++ added)%list /\
      List.length added = List.length images /\
      forall k, (k < List.length images)%nat ->
        exists s,
          nth_error added k = Some s /\
          title_box s = title_frame (Z.of_nat (i + k) + 1) /\
          content_box s = content_frame E (slide_text pdf_texts (i + k)).
Proof.
  induction images as [|image rest IH]; intros i slides w w' prs H.
  - simpl in H. inv_run H. exists []. rewrite app_nil_r.
    repeat split. intros k Hk. simpl in Hk. lia.
  - cbn [build_slides] in H.
    prim H.
    rewrite page_text_at_nth in H. prim H.
    step H Himg.
    step H Hslide.
    match type of Hslide with _ = (Ok ?s, _) => rename s into sl end.
    apply create_slide_inv in Hslide. destruct Hslide as [Ht [Hc ->]].
    replace (Z.of_nat i + 1) with (Z.of_nat (S i)) in H by lia.
    apply IH in H. destruct H as [added [-> [Hlen Hnth]]].
    exists (sl :: added). repeat split.
    + rewrite <- app_assoc. reflexivity.
    + simpl. congruence.
    + intros [|k] Hk.
      * exists sl. rewrite Nat.add_0_r. repeat split; assumption.
      * destruct (Hnth k) as [s [Hs1 [Hs2 Hs3]]]; [simpl in Hk; lia|].
        exists s. replace (i + S k)%nat with (S i + k)%nat by lia.
        repeat split; assumption.
Qed.

Lemma save_page_image_returns (image : Image) (i : Z) (w : World) (d : string) :
  savable image -> self_temp_dir w = Some d ->
  exists path w', save_page_image E image i w = (Ok path, w').
Proof.
  intros Hsav Htd.
  unfold save_page_image, temp_dir_str, bind, get_temp_dir, try_except,
    image_save, lift, ret, logging, write_node.
  rewrite Htd. simpl.
  assert (Hj : save_jpeg_out
                 (if String.eqb (mode image) "RGBA" || String.eqb (mode image) "P"
                  then mkImage "RGB" (save_jpeg_out image) (save_png_out image)
                  else image) = save_jpeg_out image).
  { destruct (String.eqb (mode image) "RGBA" || String.eqb (mode image) "P");
      reflexivity. }
  rewrite Hj.
  destruct (save_jpeg_out image) as [[]|e] eqn:Hjpeg.
  - eexists; eexists; reflexivity.
  - destruct Hsav as [Hs|Hs]; [congruence|].
    simpl. rewrite ?Htd. simpl. rewrite Hs.
    eexists; eexists; reflexivity.
Qed.

(** With writable images and a thumbnail block that lets no exception
    through, the loop returns. *)
Lemma build_slides_returns (pdf_texts : list string) (total : Z)
    (images : list Image) (d : string) :
  Forall savable images ->
  (forall n, exists added, thumbnail_out E n = Ok added) ->
  forall (i : nat) (slides : presentation) (w : World),
    self_temp_dir w = Some d ->
    exists prs w',
      build_slides E pdf_texts total (Z.of_nat i) images slides w = (Ok prs, w').
Proof.
  intros Hsav Hthumb.
  induction images as [|image rest IH]; intros i slides w Htd.
  - eexists; eexists; reflexivity.
  - inversion Hsav as [|? ? Himage Hrest]; subst.
    destruct (build_slides E pdf_texts total (Z.of_nat i) (image :: rest) slides w)
      as [r w'] eqn:H.
    cbn [build_slides] in H.
    prim H. rewrite page_text_at_nth in H. prim H.
    match type of H with
    | bind (save_page_image E image ?j) _ ?w0 = _ =>
        destruct (save_page_image_returns image j w0 d Himage Htd)
          as [path [w1 Hrun]];
        pose proof (respects_save_page_image keeps_temp_dir keeps_temp_dir_refl
                      keeps_temp_dir_trans (fun w l => eq_refl)
                      (fun w f => eq_refl) E image j w0) as Hframe;
        rewrite Hrun in Hframe; unfold keeps_temp_dir in Hframe;
        simpl in Hframe
    end.
    step H Himg; rewrite Hrun in Himg; inv_run Himg.
    step H Hslide.
    2:{ exfalso. unfold create_editable_text_slide in Hslide.
        match type of Hslide with
        | context [thumbnail_out E ?n] => destruct (Hthumb n) as [b Hb]
        end.
        rewrite Hb in Hslide. unfold bind, lift, ret in Hslide.
        destruct b; discriminate. }
    match type of Hslide with _ = (Ok ?s, _) => rename s into sl end.
    apply create_slide_inv in Hslide. destruct Hslide as [_ [_ ->]].
    replace (Z.of_nat i + 1) with (Z.of_nat (S i)) in H by lia.
    match type of H with
    | build_slides E _ _ _ _ ?slides1 ?wx = _ =>
        destruct (IH Hrest (S i) slides1 wx) as [prs [w2 Hrec]];
        [ rewrite Hframe; exact Htd
        | rewrite Hrec in H; inv_run H; eexists; eexists; reflexivity ]
    end.
Qed.

End BuildSlides.

(* ===================================================================== *)
(** * The number of slides                                                *)
(* ===================================================================== *)

(** The body of [convert] on a valid PDF with at least one page. *)
Lemma body_converts_valid_pdf (E : Env) (pdf_path output_path : string)
    (max_pages : Z) (w w' : World) (r : result bool) (P : Z) :
  valid_pdf E P -> 1 <= P -> 1 <= max_pages ->
  convert_body E pdf_path output_path max_pages w = (r, w') ->
  exists prs,
    r = Ok true /\
    documents w' = (output_path, prs) :: documents w /\
    llen prs = Z.min P max_pages /\
    (P > max_pages ->
     In (WARNING, "PDF has " ++ str_of_int P ++ " pages, limiting to "
                  ++ str_of_int max_pages ++ " pages") (log w')).
Proof.
  intros [Hcount [Hraster [[d Hmk] [Hthumb Hsave]]]] HP Hmax H.
  unfold convert_body in H.
  step H Hs; rewrite mkdtemp_run, Hmk in Hs; inv_run Hs.
  prim H. prim H. rewrite Hcount in H. prim H.
  step H Hlast; rewrite last_page_run in Hlast; inv_run Hlast.
  match type of H with
  | ?m ?w1 = _ =>
      pose proof (respects_convert_pages log_grows log_grows_refl log_grows_trans
                    log_grows_log (fun w f => log_grows_refl _)
                    (fun w f => log_grows_refl _)
                    E pdf_path output_path (Z.min P max_pages) w1) as Hlog;
      assert (Hw' : snd (m w1) = w') by (rewrite H; reflexivity);
      change (log_grows w1 (snd (m w1))) in Hlog; rewrite Hw' in Hlog;
      assert (Hwarn : P > max_pages ->
                In (WARNING, "PDF has " ++ str_of_int P ++ " pages, limiting to "
                  ++ str_of_int max_pages ++ " pages") (log w1));
      [ intros Hgt; destruct (Z.gtb_spec P max_pages); [|lia];
        cbn [log with_log]; apply in_or_app; right; left; reflexivity
      | assert (Hdocs1 : documents w1 = documents w)
          by (destruct (P >? max_pages); reflexivity);
        assert (Htd1 : self_temp_dir w1 = Some d)
          by (destruct (P >? max_pages); reflexivity);
        clear Hw' ]
  end.
  match type of H with
  | _ ?w1 = _ =>
      destruct (extract_text_run E pdf_path (Z.min P max_pages) w1)
        as [texts [l [Hx _]]]
  end.
  step H Hx'; rewrite Hx in Hx'; inv_run Hx'.
  prim H.
  destruct (Hraster (Z.min P max_pages)) as [images [Himages [Hlen Hsav]]].
  step H Hr; unfold convert_from_path in Hr; rewrite Himages in Hr; inv_run Hr.
  destruct images as [|image rest]; [unfold llen in Hlen; simpl in Hlen; lia|].
  prim H.
  match type of H with
  | bind (build_slides E ?t ?n 0 ?imgs []) _ ?w1 = _ =>
      destruct (build_slides_returns E t n imgs d Hsav Hthumb O [] w1)
        as [prs [w2 Hbuild]];
      [ cbn [self_temp_dir with_log]; exact Htd1 |];
      pose proof (respects_build_slides keeps_documents keeps_documents_refl
                    keeps_documents_trans (fun w l => eq_refl)
                    (fun w f => eq_refl) E t n imgs 0 [] w1) as Hd;
      change (Z.of_nat 0) with 0 in Hbuild;
      rewrite Hbuild in Hd; unfold keeps_documents in Hd;
      cbn [snd documents with_log] in Hd;
      destruct (build_slides_inv E t n imgs O [] w1 w2 prs Hbuild)
        as [added [Hprs [Hadded _]]]
  end.
  step H Hb; rewrite Hbuild in Hb; inv_run Hb.
  unfold presentation_save in H. rewrite Hsave in H.
  step H Hp; unfold bind, lift, write_node in Hp; inv_run Hp.
  prim H. inv_run H.
  exists added. repeat split.
  - cbn [documents with_log with_documents with_fs]. simpl app. f_equal.
    rewrite Hd. cbn [documents with_log]. exact Hdocs1.
  - unfold llen in *. rewrite Hadded. lia.
  - intros Hgt. apply (log_grows_In _ _ _ Hlog). exact (Hwarn Hgt).
Qed.

(** The hosts of [Scenario] hold valid PDFs. *)
Lemma scenario_valid (P : Z) (pages : result (list (result string)))
    (rmtree : result unit) :
  valid_pdf (Scenario.env (Ok P) pages (Scenario.raster P) rmtree) P.
Proof.
  unfold valid_pdf, Scenario.env, Scenario.raster. simpl.
  split; [reflexivity|]. split; [|split; [eauto | split; [eauto | reflexivity]]].
  intros last_page.
  exists (repeat Scenario.page_image (Z.to_nat (Z.min P last_page))).
  split; [reflexivity|]. split.
  - unfold llen. rewrite repeat_length. lia.
  - apply Forall_forall. intros image Hin.
    apply repeat_spec in Hin. subst. left. reflexivity.
Qed.

(** C1 (amended). For every valid PDF with page count P >= 1,
    [convert(pdf_path, output_path, max_pages=30)] returns [True] and writes
    to [output_path] a presentation with exactly min(P, 30) slides: P slides
    when P <= 30, and 30 slides, with the warning in the log, when
    P > 30. *)
Theorem convert_makes_one_slide_per_page
    (E : Env) (pdf_path output_path : string) (w : World) (P : Z) :
  valid_pdf E P -> 1 <= P ->
  exists prs w',
    convert E pdf_path output_path 30 w = (Ok true, w') /\
    documents w' = (output_path, prs) :: documents w /\
    llen prs = Z.min P 30 /\
    (P <= 30 -> llen prs = P) /\
    (P > 30 ->
     llen prs = 30 /\
     In (WARNING, "PDF has " ++ str_of_int P ++ " pages, limiting to "
                  ++ str_of_int 30 ++ " pages") (log w')).
Proof.
  intros Hvalid HP.
  destruct (convert_body E pdf_path output_path 30 w) as [r w1] eqn:Hb.
  destruct (body_converts_valid_pdf E pdf_path output_path 30 w w1 r P
              Hvalid HP ltac:(lia) Hb) as [prs [-> [Hdocs [Hlen Hwarn]]]].
  exists prs, (snd (convert_cleanup E w1)).
  rewrite convert_after_body, Hb.
  split; [reflexivity|]. split; [|split; [exact Hlen | split]].
  - rewrite (respects_convert_cleanup keeps_documents keeps_documents_refl
               keeps_documents_trans (fun w l => eq_refl) (fun w f => eq_refl) E).
    exact Hdocs.
  - intros Hle. lia.
  - intros Hgt. split; [lia|].
    eapply log_grows_In; [|exact (Hwarn Hgt)].
    apply (respects_convert_cleanup log_grows log_grows_refl log_grows_trans
             log_grows_log (fun w f => log_grows_refl _)).
Qed.

Lemma convert_caps_a_long_pdf :
  valid_pdf Scenario.long_pdf 31 /\
  1 <= 31 /\
  exists prs w',
    convert Scenario.long_pdf "in.pdf" "out.pptx" 30 Scenario.world
    = (Ok true, w') /\
    documents w' = ("out.pptx", prs) :: documents Scenario.world /\
    llen prs = Z.min 31 30 /\
    (31 <= 30 -> llen prs = 31) /\
    (31 > 30 ->
     llen prs = 30 /\
     In (WARNING, "PDF has " ++ str_of_int 31 ++ " pages, limiting to "
                  ++ str_of_int 30 ++ " pages") (log w')).
Proof.
  split; [apply scenario_valid|]. split; [lia|].
  apply (convert_makes_one_slide_per_page Scenario.long_pdf "in.pdf"
           "out.pptx" Scenario.world 31).
  - apply scenario_valid.
  - lia.
Defined.

(** C1 as stated fails for a valid PDF without pages: [convert] returns
    [False] and writes no presentation at all, rather than one with
    min(0, 30) = 0 slides. *)
Lemma convert_writes_nothing_for_an_empty_pdf :
  valid_pdf Scenario.empty_pdf 0 /\
  fst (convert Scenario.empty_pdf "in.pdf" "out.pptx" 30 Scenario.world)
  = Ok false /\
  documents (snd (convert Scenario.empty_pdf "in.pdf" "out.pptx" 30
                    Scenario.world))
  = [].
Proof.
  split; [apply scenario_valid|]. split; reflexivity.
Qed.

(* ===================================================================== *)
(** * The content box of a slide                                          *)
(* ===================================================================== *)

Section ContentBox.

#[local] Arguments Ascii.eqb : simpl never.
#[local] Arguments LF : simpl never.

Lemma split_nonempty (sep : ascii) (s : string) : split sep s <> [].
Proof.
  destruct s as [|c s]; simpl; [discriminate|].
  destruct (Ascii.eqb c sep); [discriminate|].
  destruct (split sep s); discriminate.
Qed.

Lemma join_cons (sep p : string) (rest : list string) :
  rest <> [] -> join sep (p :: rest) = p ++ sep ++ join sep rest.
Proof. destruct rest; [contradiction | reflexivity]. Qed.

(** Joining the lines of a text gives the text back. *)
Lemma join_split (s : string) : join nl (split LF s) = s.
Proof.
  induction s as [|c s IH]; [reflexivity|].
  cbn [split]. destruct (Ascii.eqb_spec c LF) as [->|Hc].
  - rewrite join_cons by apply split_nonempty. rewrite IH. reflexivity.
  - pose proof (split_nonempty LF s) as Hne.
    destruct (split LF s) as [|h t] eqn:Hs; [contradiction|].
    destruct t as [|h' t'].
    + simpl in *. congruence.
    + rewrite join_cons by discriminate.
      rewrite join_cons in IH by discriminate.
      cbn [append]. rewrite IH. reflexivity.
Qed.

Lemma update_first_texts (f : text_frame) (g : paragraph -> paragraph) :
  (forall p, p_text (g p) = p_text p) ->
  map p_text (update_first f g) = map p_text f.
Proof. intros Hg. destruct f; simpl; [reflexivity|]. rewrite Hg. reflexivity. Qed.

(** In the placeholder branch the box reads back the text it was given. *)
Lemma placeholder_frame_text (text : string) :
  get_text (placeholder_frame text) = text.
Proof.
  unfold get_text, placeholder_frame.
  rewrite update_first_texts by reflexivity.
  unfold set_text. rewrite map_map. simpl. rewrite map_id. apply join_split.
Qed.

Lemma startswith_prefix (a b : string) : startswith (a ++ b) a = true.
Proof.
  induction a as [|c a IH]; simpl; [destruct b; reflexivity|].
  rewrite Ascii.eqb_refl. exact IH.
Qed.

Lemma startswith_contains (s sub : string) :
  startswith s sub = true -> contains s sub = true.
Proof. intros H. destruct s; simpl in *; rewrite H; reflexivity. Qed.

(** The loop over the lines, from an index past the first. *)
Lemma fill_paragraphs_later (paragraphs : list string) :
  forall (i : Z) (f : text_frame),
    0 < i ->
    map p_text (fill_paragraphs i paragraphs f)
    = (map p_text f ++ filter truthy (map strip paragraphs))%list.
Proof.
  induction paragraphs as [|l rest IH]; intros i f Hi; simpl.
  - rewrite app_nil_r. reflexivity.
  - rewrite IH by lia.
    destruct (truthy (strip l)) eqn:Ht.
    + destruct (Z.eqb_spec i 0) as [->|_]; [lia|].
      unfold add_paragraph. rewrite map_app. simpl.
      rewrite <- app_assoc. reflexivity.
    + reflexivity.
Qed.

(** The content box filled from an extracted text holds the first line of
    the cleaned text, stripped, and then its later lines that are not blank,
    stripped. *)
Lemma extracted_frame_texts (E : Env) (text : string) :
  map p_text (extracted_frame E text)
  = paragraph_texts (clean_extracted_text E text).
Proof.
  unfold extracted_frame, paragraph_texts.
  pose proof (split_nonempty LF (clean_extracted_text E text)) as Hne.
  destruct (split LF (clean_extracted_text E text)) as [|l rest]; [contradiction|].
  cbn [fill_paragraphs hd tl]. rewrite fill_paragraphs_later by lia.
  destruct (truthy (strip l)) eqn:Ht; simpl.
  - reflexivity.
  - unfold truthy in Ht. apply negb_false_iff in Ht.
    apply String.eqb_eq in Ht. rewrite Ht. reflexivity.
Qed.

(** ** What a content box filled from extracted text cannot hold *)

Lemma startswith_split (s sub : string) :
  startswith s sub = true -> exists b, s = sub ++ b.
Proof.
  revert s. induction sub as [|c sub IH]; intros s H.
  - exists s. reflexivity.
  - destruct s as [|d s]; [discriminate|].
    simpl in H. apply andb_prop in H. destruct H as [Hc Hs].
    apply Ascii.eqb_eq in Hc. subst d.
    destruct (IH s Hs) as [b ->]. exists b. reflexivity.
Qed.

Lemma contains_split (s sub : string) :
  contains s sub = true -> exists a b, s = a ++ sub ++ b.
Proof.
  induction s as [|c s IH]; intros H.
  - cbn [contains] in H. rewrite orb_false_r in H.
    destruct (startswith_split _ _ H) as [b Hb]. exists "", b. exact Hb.
  - cbn [contains] in H. apply orb_prop in H. destruct H as [H|H].
    + destruct (startswith_split _ _ H) as [b Hb]. exists "", b. exact Hb.
    + destruct (IH H) as [a [b ->]]. exists (String c a), b. reflexivity.
Qed.

Lemma contains_trans (s t u : string) :
  contains s t = true -> contains t u = true -> contains s u = true.
Proof.
  intros Hst Htu.
  destruct (contains_split _ _ Hst) as [a [b ->]].
  apply contains_app_l, contains_app_r. exact Htu.
Qed.

Lemma has_char_app (c : ascii) (a b : string) :
  has_char c (a ++ b) = has_char c a || has_char c b.
Proof.
  induction a as [|d a IH]; simpl; [reflexivity|].
  rewrite IH, orb_assoc. reflexivity.
Qed.

Lemma split_lines_no_LF (s : string) :
  Forall (fun l => has_char LF l = false) (split LF s).
Proof.
  induction s as [|c s IH]; cbn [split].
  - constructor; [reflexivity | constructor].
  - destruct (Ascii.eqb_spec c LF) as [->|Hc].
    + constructor; [reflexivity | exact IH].
    + destruct (split LF s) as [|h t]; [repeat constructor|].
      * simpl. rewrite orb_false_r. apply Ascii.eqb_neq. exact Hc.
      * inversion IH; subst. constructor; [|assumption].
        simpl. rewrite H1, orb_false_r. apply Ascii.eqb_neq. exact Hc.
Qed.

Lemma strip_no_LF (l : string) :
  has_char LF l = false -> has_char LF (strip l) = false.
Proof.
  intros H. destruct (strip_decompose l) as [a [b [Hl _]]].
  rewrite Hl in H. rewrite !has_char_app in H.
  apply orb_false_elim in H. destruct H as [_ H].
  apply orb_false_elim in H. tauto.
Qed.

Lemma paragraph_texts_tidy (cleaned_text : string) :
  Forall tidy (paragraph_texts cleaned_text).
Proof.
  unfold paragraph_texts.
  pose proof (split_lines_no_LF cleaned_text) as Hlines.
  destruct (split LF cleaned_text) as [|l rest]; cbn [hd tl].
  - repeat constructor.
  - inversion Hlines; subst. constructor.
    + split; [apply strip_no_LF; assumption | apply strip_last].
    + apply Forall_forall. intros t Ht.
      apply filter_In in Ht. destruct Ht as [Ht _].
      apply in_map_iff in Ht. destruct Ht as [l' [<- Hl']].
      rewrite Forall_forall in H2.
      split; [apply strip_no_LF; auto | apply strip_last].
Qed.

Lemma has_LF_when_contains_space_LF (s : string) :
  contains s space_LF = true -> has_char LF s = true.
Proof.
  intros H. destruct (contains_split _ _ H) as [a [b ->]].
  rewrite !has_char_app. unfold space_LF, nl. cbn [has_char].
  rewrite (Ascii.eqb_refl LF). rewrite !orb_true_r. reflexivity.
Qed.

Lemma tidy_then_line (p r : string) :
  tidy p -> contains r space_LF = false ->
  contains (p ++ nl ++ r) space_LF = false.
Proof.
  intros [Hlf Hlast] Hr. induction p as [|c p IH].
  - cbn [append nl contains]. rewrite Hr, orb_false_r. reflexivity.
  - cbn [append contains]. rewrite IH.
    + rewrite orb_false_r. unfold space_LF, nl. cbn [startswith].
      destruct p as [|c' p'].
      * simpl in Hlast. cbn [append startswith].
        destruct (Ascii.eqb_spec " " c) as [<-|Hc]; [discriminate|reflexivity].
      * cbn [append startswith]. simpl in Hlf.
        apply orb_false_elim in Hlf. destruct Hlf as [_ Hlf].
        apply orb_false_elim in Hlf. destruct Hlf as [Hc' _].
        rewrite Ascii.eqb_sym in Hc'. rewrite Hc'.
        rewrite andb_false_r. reflexivity.
    + simpl in Hlf. apply orb_false_elim in Hlf. tauto.
    + destruct p; [reflexivity | exact Hlast].
Qed.

Lemma tidy_lines_no_space_LF (ps : list string) :
  Forall tidy ps -> contains (join nl ps) space_LF = false.
Proof.
  induction ps as [|p rest IH]; intros H; [reflexivity|].
  inversion H as [|? ? Hp Hrest]; subst.
  destruct rest as [|q rest'].
  - cbn [join]. destruct (contains p space_LF) eqn:Hc; [|reflexivity].
    apply has_LF_when_contains_space_LF in Hc. destruct Hp. congruence.
  - rewrite join_cons by discriminate.
    apply tidy_then_line; [exact Hp | apply IH; exact Hrest].
Qed.

(** No text with a space before a line feed is held by a content box that
    was filled from extracted text, whatever [clean_extracted_text] does. *)
Lemma extracted_frame_omits (E : Env) (text sub : string) :
  contains sub space_LF = true ->
  contains (get_text (extracted_frame E text)) sub = false.
Proof.
  intros Hsub.
  destruct (contains (get_text (extracted_frame E text)) sub) eqn:Hc; [|reflexivity].
  pose proof (contains_trans _ _ _ Hc Hsub) as Hbad.
  unfold get_text in Hbad. rewrite extracted_frame_texts in Hbad.
  rewrite tidy_lines_no_space_LF in Hbad by apply paragraph_texts_tidy.
  discriminate.
Qed.

End ContentBox.

(** C2 (amended). For every processed page N, if the text extracted for the
    page is empty or has fewer than 20 characters once stripped, the content
    box of the slide built for page N holds the placeholder, which starts
    with "[Edit this text - Content from page N]".  Otherwise the box is
    filled from the extracted text: verbatim when that text itself starts
    with "[Edit this text", and else with one paragraph for the first line
    of [clean_extracted_text(text)] and one for each later line that is not
    blank, every line stripped of the whitespace around it. *)
Theorem slide_content_for_each_page
    (E : Env) (pdf_texts : list string) (total : Z) (images : list Image)
    (w w' : World) (prs : presentation) (k : nat) :
  build_slides E pdf_texts total 0 images [] w = (Ok prs, w') ->
  (k < List.length images)%nat ->
  exists s,
    nth_error prs k = Some s /\
    if too_short (page_text_of pdf_texts k) then
      get_text (content_box s) = placeholder (Z.of_nat k + 1) /\
      contains (get_text (content_box s))
               ("[Edit this text - Content from page "
                ++ str_of_int (Z.of_nat k + 1) ++ "]") = true
    else if startswith (page_text_of pdf_texts k) "[Edit this text" then
      get_text (content_box s) = page_text_of pdf_texts k
    else
      map p_text (content_box s)
      = paragraph_texts (clean_extracted_text E (page_text_of pdf_texts k)).
Proof.
  intros Hrun Hk.
  destruct (build_slides_inv E pdf_texts total images O [] w w' prs Hrun)
    as [added [Hprs [_ Hnth]]].
  destruct (Hnth k Hk) as [s [Hs [_ Hc]]].
  exists s. split; [rewrite Hprs; exact Hs|].
  rewrite Hc. unfold slide_text. simpl (0 + k)%nat.
  destruct (too_short (page_text_of pdf_texts k)).
  - assert (Hph : content_frame E (placeholder (Z.of_nat k + 1))
                  = placeholder_frame (placeholder (Z.of_nat k + 1)))
      by reflexivity.
    rewrite Hph, placeholder_frame_text. split; [reflexivity|].
    apply startswith_contains.
    assert (Hsplit : placeholder (Z.of_nat k + 1)
                     = ("[Edit this text - Content from page "
                        ++ str_of_int (Z.of_nat k + 1) ++ "]")
                       ++ (nl ++ nl
                           ++ "Click here to add your content. You can replace this placeholder text with any content you want."))
      by (unfold placeholder; rewrite !append_assoc; reflexivity).
    rewrite Hsplit. apply startswith_prefix.
  - unfold content_frame.
    destruct (startswith (page_text_of pdf_texts k) "[Edit this text").
    + apply placeholder_frame_text.
    + apply extracted_frame_texts.
Qed.

Lemma slide_content_for_two_pages :
  build_slides Scenario.two_pages Scenario.two_texts 2 0
    [Scenario.page_image; Scenario.page_image] [] Scenario.job_world
  = (Ok Scenario.two_slides, snd Scenario.two_slides_run) /\
  (1 < List.length [Scenario.page_image; Scenario.page_image])%nat /\
  exists s,
    nth_error Scenario.two_slides 1 = Some s /\
    if too_short (page_text_of Scenario.two_texts 1) then
      get_text (content_box s) = placeholder (Z.of_nat 1 + 1) /\
      contains (get_text (content_box s))
               ("[Edit this text - Content from page "
                ++ str_of_int (Z.of_nat 1 + 1) ++ "]") = true
    else if startswith (page_text_of Scenario.two_texts 1) "[Edit this text" then
      get_text (content_box s) = page_text_of Scenario.two_texts 1
    else
      map p_text (content_box s)
      = paragraph_texts
          (clean_extracted_text Scenario.two_pages
             (page_text_of Scenario.two_texts 1)).
Proof.
  split; [reflexivity|]. split; [simpl; lia|].
  apply (slide_content_for_each_page Scenario.two_pages Scenario.two_texts 2
           [Scenario.page_image; Scenario.page_image] Scenario.job_world
           (snd Scenario.two_slides_run) Scenario.two_slides 1%nat).
  - reflexivity.
  - simpl; lia.
Defined.

(** C2 as stated fails in its second half: a page text of 20 characters or
    more is kept as it is by [extract_text_from_pdf], yet the content box of
    its slide does not contain it, here and whatever
    [clean_extracted_text] does, because every line is stripped on its way
    into the box. *)
Lemma content_box_omits_the_extracted_text :
  too_short (page_text_of Scenario.two_texts 0) = false /\
  clean_page_text (page_text_of Scenario.two_texts 0)
  = page_text_of Scenario.two_texts 0 /\
  (exists s,
     nth_error Scenario.two_slides 0 = Some s /\
     contains (get_text (content_box s)) (page_text_of Scenario.two_texts 0)
     = false) /\
  (forall E,
     contains (get_text (content_frame E (page_text_of Scenario.two_texts 0)))
              (page_text_of Scenario.two_texts 0)
     = false).
Proof.
  split; [reflexivity|]. split; [reflexivity|]. split.
  - eexists. split; reflexivity.
  - intros E.
    assert (Hf : content_frame E (page_text_of Scenario.two_texts 0)
                 = extracted_frame E (page_text_of Scenario.two_texts 0))
      by reflexivity.
    rewrite Hf. apply extracted_frame_omits. reflexivity.
Qed.

(* ===================================================================== *)
(** * Uploads                                                             *)
(* ===================================================================== *)

Section AllowedFile.

#[local] Arguments Ascii.eqb : simpl never.

Lemma lower_char_dot (c : ascii) :
  Ascii.eqb (lower_char c) dot = Ascii.eqb c dot.
Proof. destruct c as [[] [] [] [] [] [] [] []]; reflexivity. Qed.

Lemma has_dot_lower (s : string) : has_char dot (lower s) = has_char dot s.
Proof.
  induction s as [|c s IH]; [reflexivity|].
  cbn [lower has_char]. rewrite lower_char_dot, IH. reflexivity.
Qed.

Lemma endswith_pdf_has_dot (t : string) :
  endswith t ".pdf" = true -> has_char dot t = true.
Proof.
  induction t as [|c t IH]; cbn [endswith]; intros H.
  - rewrite orb_false_r in H. discriminate.
  - apply orb_prop in H. destruct H as [H|H].
    + apply String.eqb_eq in H. rewrite H. reflexivity.
    + cbn [has_char]. rewrite (IH H). apply orb_true_r.
Qed.

Lemma split_without_sep (sep : ascii) (s : string) :
  has_char sep s = false -> split sep s = [s].
Proof.
  induction s as [|c s IH]; [reflexivity|].
  cbn [has_char split]. intros H. apply orb_false_elim in H.
  destruct H as [Hc Hs]. rewrite Hc, (IH Hs). reflexivity.
Qed.

Lemma split_with_sep (sep : ascii) (s : string) :
  has_char sep s = true -> exists h k t, split sep s = h :: k :: t.
Proof.
  induction s as [|c s IH]; [discriminate|].
  cbn [has_char split]. intros H.
  destruct (Ascii.eqb c sep) eqn:Hc.
  - pose proof (split_nonempty sep s) as Hne.
    destruct (split sep s) as [|k t]; [contradiction|]. eauto.
  - simpl in H. destruct (IH H) as [h [k [t ->]]]. eauto.
Qed.

Lemma last_cons_cons {A : Type} (a b : A) (l : list A) (d : A) :
  last (a :: b :: l) d = last (b :: l) d.
Proof. reflexivity. Qed.

(** With a dot in the name, [rsplit('.', 1)[1]] is what follows the last
    dot. *)
Lemma rsplit1_extension (s : string) :
  has_char dot s = true ->
  getitem (rsplit1 dot s) 1 = Ok (last (split dot s) "").
Proof.
  intros H. destruct (split_with_sep dot s H) as [h [k [t Hs]]].
  unfold rsplit1. rewrite Hs.
  assert (Hne : h :: k :: t <> []) by discriminate.
  destruct (exists_last Hne) as [l' [x Hx]]. rewrite Hx.
  rewrite rev_unit, last_last.
  destruct l' as [|y l']; [destruct t; discriminate|].
  destruct (rev (y :: l')) as [|z zs] eqn:Hr.
  - apply (f_equal (@List.length _)) in Hr. rewrite length_rev in Hr. discriminate.
  - reflexivity.
Qed.

Lemma last_split_cons (c : ascii) (s : string) :
  Ascii.eqb c dot = false -> has_char dot s = true ->
  last (split dot (String c s)) "" = last (split dot s) "".
Proof.
  intros Hc Hs. cbn [split]. rewrite Hc.
  destruct (split_with_sep dot s Hs) as [h [k [t ->]]]. reflexivity.
Qed.

Lemma last_split_dot (s : string) :
  last (split dot (String dot s)) "" = last (split dot s) "".
Proof.
  cbn [split]. rewrite Ascii.eqb_refl.
  pose proof (split_nonempty dot s) as Hne.
  destruct (split dot s); [contradiction | reflexivity].
Qed.

Lemma extension_is_pdf (s : string) :
  has_char dot s = true ->
  String.eqb (lower (last (split dot s) "")) "pdf"
  = endswith (lower s) ".pdf".
Proof.
  induction s as [|c s IH]; [discriminate|].
  intros H. cbn [lower endswith].
  destruct (Ascii.eqb c dot) eqn:Hc.
  - apply Ascii.eqb_eq in Hc. subst c. rewrite last_split_dot.
    change (lower_char dot) with dot.
    change (String.eqb (String dot (lower s)) ".pdf")
      with (String.eqb (lower s) "pdf").
    destruct (has_char dot s) eqn:Hs.
    + rewrite (IH eq_refl).
      destruct (String.eqb_spec (lower s) "pdf") as [Hpdf|_]; [|reflexivity].
      exfalso. rewrite <- has_dot_lower, Hpdf in Hs. discriminate.
    + rewrite (split_without_sep dot s Hs). cbn [last].
      destruct (endswith (lower s) ".pdf") eqn:He.
      * apply endswith_pdf_has_dot in He. rewrite has_dot_lower in He. congruence.
      * rewrite orb_false_r. reflexivity.
  - cbn [has_char] in H. rewrite Hc in H. simpl in H.
    rewrite (last_split_cons c s Hc H), (IH H).
    assert (Hne : String.eqb (String (lower_char c) (lower s)) ".pdf" = false).
    { apply String.eqb_neq. intros Heq. injection Heq as Heq _.
      rewrite <- lower_char_dot in Hc. rewrite Heq in Hc. discriminate. }
    rewrite Hne. reflexivity.
Qed.

(** [allowed_file] accepts exactly the names that end in ".pdf", whatever
    the case of the letters. *)
Lemma allowed_file_spec (name : string) :
  allowed_file (Some name) = Ok (endswith (lower name) ".pdf").
Proof.
  unfold allowed_file. change "."%char with dot.
  destruct (has_char dot name) eqn:Hdot.
  - rewrite (rsplit1_extension name Hdot). unfold ALLOWED_EXTENSIONS.
    cbn [existsb]. rewrite orb_false_r. rewrite extension_is_pdf by exact Hdot.
    reflexivity.
  - f_equal. symmetry. apply not_true_is_false. intros He.
    apply endswith_pdf_has_dot in He. rewrite has_dot_lower in He. congruence.
Qed.

End AllowedFile.

(** C7. [allowed_file] accepts a name exactly when it ends in ".pdf", in
    any case of the letters; and a POST /upload whose file name does not end
    so, or has no dot, is answered with a redirect to the index page after
    one flashed error message and nothing else: the world differs from the
    one before the request by that flash only, so the upload was not saved,
    nothing was logged and no conversion was started. *)
Theorem upload_rejects_other_extensions
    (E : Env) (w : World) (name : string) :
  allowed_file (Some name) = Ok (endswith (lower name) ".pdf") /\
  (endswith (lower name) ".pdf" = false \/ has_char dot name = false ->
   exists msg,
     upload_file E (mkRequest (Some (Some name))) w
     = (Ok (Redirect "index"),
        with_flashes w (flashes w ++ [(msg, "error")])%list)).
Proof.
  split; [apply allowed_file_spec|].
  intros Hrej.
  assert (Hno : endswith (lower name) ".pdf" = false).
  { destruct Hrej as [H|H]; [exact H|].
    apply not_true_is_false. intros He.
    apply endswith_pdf_has_dot in He. rewrite has_dot_lower in He. congruence. }
  destruct name as [|c name].
  - exists "No file selected". reflexivity.
  - exists "Invalid file type. Please upload a PDF file.".
    unfold upload_file, try_except, bind, lift. cbn [file_filename].
    rewrite allowed_file_spec, Hno. reflexivity.
Qed.

Lemma upload_rejects_a_text_file :
  (endswith (lower "notes.txt") ".pdf" = false \/ has_char dot "notes.txt" = false) /\
  exists msg,
    upload_file Scenario.two_pages (mkRequest (Some (Some "notes.txt")))
      Scenario.world
    = (Ok (Redirect "index"),
       with_flashes Scenario.world
         (flashes Scenario.world ++ [(msg, "error")])%list).
Proof.
  split; [left; reflexivity|].
  apply (proj2 (upload_rejects_other_extensions Scenario.two_pages
                  Scenario.world "notes.txt")).
  left. reflexivity.
Defined.

(* ===================================================================== *)
(** * The cleanup sweep                                                   *)
(* ===================================================================== *)

Section Sweep.

Variable E : Env.

Lemma lookup_unique (f : list node) (n : node) :
  well_formed f -> In n f -> lookup_node f (n_path n) = Some n.
Proof.
  unfold well_formed, lookup_node.
  induction f as [|m f IH]; intros Hnd Hin; [contradiction|].
  simpl in Hnd. inversion Hnd as [|? ? Hnotin Hnd']; subst.
  simpl. destruct Hin as [->|Hin].
  - rewrite String.eqb_refl. reflexivity.
  - destruct (String.eqb_spec (n_path m) (n_path n)) as [Heq|_].
    + exfalso. apply Hnotin. rewrite Heq. apply in_map. exact Hin.
    + apply IH; assumption.
Qed.

Lemma well_formed_filter (g : node -> bool) (f : list node) :
  well_formed f -> well_formed (filter g f).
Proof.
  unfold well_formed. induction f as [|m f IH]; intros Hnd; [exact Hnd|].
  simpl in Hnd. inversion Hnd as [|? ? Hnotin Hnd']; subst.
  simpl. destruct (g m); [|apply IH; exact Hnd'].
  simpl. constructor; [|apply IH; exact Hnd'].
  intros Hin. apply Hnotin. apply in_map_iff in Hin.
  destruct Hin as [x [Hx Hin]]. apply filter_In in Hin.
  rewrite <- Hx. apply in_map. tauto.
Qed.

Lemma lookup_filtered_out (g : node -> bool) (f : list node) (n : node) :
  well_formed f -> In n f -> g n = false ->
  lookup_node (filter g f) (n_path n) = None.
Proof.
  intros Hwf Hn Hg.
  destruct (lookup_node (filter g f) (n_path n)) as [m|] eqn:Hm; [|reflexivity].
  unfold lookup_node in Hm. apply find_some in Hm. destruct Hm as [Hin Hp].
  apply filter_In in Hin. destruct Hin as [Hin Hgm].
  apply String.eqb_eq in Hp.
  pose proof (lookup_unique f m Hwf Hin) as H1.
  pose proof (lookup_unique f n Hwf Hn) as H2.
  rewrite Hp in H1. congruence.
Qed.

Lemma lookup_filtered_in (g : node -> bool) (f : list node) (n : node) :
  well_formed f -> In n f -> g n = true ->
  lookup_node (filter g f) (n_path n) = Some n.
Proof.
  intros Hwf Hn Hg. apply lookup_unique.
  - apply well_formed_filter. exact Hwf.
  - apply filter_In. auto.
Qed.

Lemma filter_filter {A : Type} (g h : A -> bool) (l : list A) :
  filter h (filter g l) = filter (fun x => g x && h x) l.
Proof.
  induction l as [|x l IH]; [reflexivity|].
  simpl. destruct (g x); simpl; [destruct (h x)|]; rewrite IH; reflexivity.
Qed.

Lemma filter_all {A : Type} (g : A -> bool) (l : list A) :
  (forall x, In x l -> g x = true) -> filter g l = l.
Proof.
  induction l as [|x l IH]; intros H; [reflexivity|].
  simpl. rewrite (H x) by (left; reflexivity).
  rewrite IH; [reflexivity|]. intros y Hy. apply H. right. exact Hy.
Qed.

Lemma with_fs_log (w : World) (f : list node) (l : list (level * string)) :
  with_log (with_fs w f) (log w ++ l)%list
  = with_fs (with_log w (log w ++ l)%list) f.
Proof. reflexivity. Qed.

Lemma world_same (w : World) :
  w = with_log (with_fs w (fs w)) (log w ++ [])%list.
Proof.
  destruct w; unfold with_log, with_fs; simpl. rewrite app_nil_r. reflexivity.
Qed.

Lemma hit_one (folder name : string) (n : node) :
  hit E folder [name] n
  = String.eqb (os_path_join folder name) (n_path n)
    && negb (String.eqb name ".gitkeep") && expired E n.
Proof. unfold hit. cbn [existsb]. rewrite orb_false_r. reflexivity. Qed.

(** The loop body for one name: the entry at that path goes when it is hit,
    and only the log grows besides. *)
Lemma sweep_file_run (folder name : string) (w : World) :
  well_formed (fs w) ->
  exists l,
    sweep_file E (now E) folder name w
    = (Ok tt,
       with_log (with_fs w (filter (fun n => negb (hit E folder [name] n)) (fs w)))
                (log w ++ l)%list).
Proof.
  intros Hwf. unfold sweep_file.
  assert (Hkeep :
    (forall n, In n (fs w) ->
       n_path n = os_path_join folder name ->
       negb (String.eqb name ".gitkeep") && expired E n = false) ->
    exists l,
      (Ok tt, w)
      = (Ok tt,
         with_log (with_fs w (filter (fun n => negb (hit E folder [name] n)) (fs w)))
                  (log w ++ l)%list)).
  { intros Hexp. exists []. f_equal. rewrite filter_all; [apply world_same|].
    intros n Hn. rewrite hit_one.
    destruct (String.eqb_spec (os_path_join folder name) (n_path n)) as [Hp|_];
      [|reflexivity].
    cbn [andb]. rewrite (Hexp n Hn (eq_sym Hp)). reflexivity. }
  destruct (String.eqb name ".gitkeep") eqn:Hgk.
  { apply Hkeep. intros. reflexivity. }
  cbv zeta. set (p := os_path_join folder name) in *.
  unfold bind at 1. unfold os_path_isfile at 1. unfold path_isfile.
  destruct (lookup_node (fs w) p) as [n0|] eqn:Hlk.
  2:{ apply Hkeep. intros n Hn Hp.
      rewrite <- Hp, (lookup_unique _ _ Hwf Hn) in Hlk. discriminate. }
  assert (Hn0 : forall n, In n (fs w) -> n_path n = p -> n = n0).
  { intros n Hn Hp. rewrite <- Hp, (lookup_unique _ _ Hwf Hn) in Hlk.
    congruence. }
  destruct (n_isfile n0) eqn:Hfile.
  2:{ apply Hkeep. intros n Hn Hp. rewrite (Hn0 n Hn Hp).
      unfold expired. rewrite Hfile. reflexivity. }
  unfold bind at 1. unfold getmtime at 1. rewrite Hlk.
  destruct (older_than_an_hour (now E) (n_mtime n0)) eqn:Hold.
  2:{ apply Hkeep. intros n Hn Hp. rewrite (Hn0 n Hn Hp).
      unfold expired. rewrite Hold, andb_false_r. reflexivity. }
  unfold try_except, os_remove, bind, lift, delete_node, logging.
  destruct (remove_out E p) as [[]|e] eqn:Hrm.
  - eexists. f_equal. unfold with_log, with_fs. cbn. f_equal.
    apply filter_ext_in. intros n Hn. rewrite hit_one, Hgk. fold p.
    rewrite String.eqb_sym.
    destruct (String.eqb_spec p (n_path n)) as [Hp|_]; [|reflexivity].
    assert (Hp0 : n_path n0 = p).
    { rewrite <- (Hn0 n Hn (eq_sym Hp)). congruence. }
    rewrite (Hn0 n Hn (eq_sym Hp)). unfold expired, removable.
    rewrite Hfile, Hold, Hp0, Hrm. reflexivity.
  - assert (Hex : forall n, In n (fs w) -> n_path n = p ->
                    negb false && expired E n = false).
    { intros n Hn Hp. rewrite (Hn0 n Hn Hp).
      assert (Hp0 : n_path n0 = p) by (rewrite <- (Hn0 n Hn Hp); exact Hp).
      unfold expired, removable. rewrite Hp0, Hrm, andb_false_r. reflexivity. }
    eexists. f_equal. unfold with_log, with_fs. cbn. f_equal.
    symmetry. apply filter_all. intros n Hn. rewrite hit_one, Hgk. fold p.
    destruct (String.eqb_spec p (n_path n)) as [Hp|_]; [|reflexivity].
    cbn [andb]. rewrite (Hex n Hn (eq_sym Hp)). reflexivity.
Qed.

(** One pass of the sweep over [names]: the entries hit are gone, the
    others are as they were, and only the log has grown besides. *)
Lemma sweep_run (folder : string) (names : list string) :
  forall w,
    well_formed (fs w) ->
    exists l,
      sweep E (now E) folder names w
      = (Ok tt,
         with_log (with_fs w (filter (fun n => negb (hit E folder names n)) (fs w)))
                  (log w ++ l)%list).
Proof.
  induction names as [|name rest IH]; intros w Hwf.
  - exists []. cbn [sweep]. unfold ret. f_equal.
    rewrite filter_all by reflexivity. apply world_same.
  - cbn [sweep]. unfold bind at 1.
    destruct (sweep_file_run folder name w Hwf) as [l1 ->].
    destruct (IH (with_log
                    (with_fs w (filter (fun n => negb (hit E folder [name] n)) (fs w)))
                    (log w ++ l1)%list)) as [l2 Hrest].
    { cbn [fs with_log with_fs]. apply well_formed_filter. exact Hwf. }
    rewrite Hrest. exists (l1 ++ l2)%list. f_equal.
    unfold with_log, with_fs. cbn.
    rewrite app_assoc. f_equal. rewrite filter_filter.
    apply filter_ext. intros n. rewrite hit_one. unfold hit. cbn [existsb].
    destruct (String.eqb (os_path_join folder name) (n_path n)
              && negb (String.eqb name ".gitkeep"));
      destruct (existsb _ rest); destruct (expired E n); reflexivity.
Qed.

Lemma drop_prefix_app (pre s r : string) :
  drop_prefix pre s = Some r -> s = pre ++ r.
Proof.
  revert s. induction pre as [|a pre IH]; intros s H.
  - simpl in H. injection H as ->. reflexivity.
  - destruct s as [|b s]; [discriminate|]. simpl in H.
    destruct (Ascii.eqb_spec a b) as [->|_]; [|discriminate].
    simpl. rewrite (IH s H). reflexivity.
Qed.

Lemma child_name_inv (folder p name : string) :
  child_name folder p = Some name ->
  p = (folder ++ "/") ++ name /\ has_char "/" name = false.
Proof.
  unfold child_name. intros H.
  destruct (drop_prefix (folder ++ "/") p) as [r|] eqn:Hd; [|discriminate].
  destruct (String.eqb r "" || has_char "/" r) eqn:Hr; [discriminate|].
  injection H as <-. apply orb_false_elim in Hr.
  split; [apply drop_prefix_app; exact Hd | tauto].
Qed.

Lemma child_name_join (folder p name : string) :
  plain_folder folder ->
  child_name folder p = Some name -> os_path_join folder name = p.
Proof.
  intros Hf H. destruct (child_name_inv _ _ _ H) as [-> Hslash].
  unfold os_path_join. rewrite Hf.
  destruct name as [|c name]; [rewrite append_assoc; reflexivity|].
  cbn [has_char] in Hslash. apply orb_false_elim in Hslash.
  destruct Hslash as [Hc _]. cbn [startswith]. rewrite Ascii.eqb_sym, Hc.
  cbn [andb]. rewrite append_assoc. reflexivity.
Qed.

Lemma in_listdir (folder name : string) (f : list node) :
  In name (listdir folder f) <->
  exists m, In m f /\ child_name folder (n_path m) = Some name.
Proof.
  induction f as [|m f IH]; cbn [listdir].
  - split; [contradiction | intros [m [[] _]]].
  - destruct (child_name folder (n_path m)) as [x|] eqn:Hm.
    + split.
      * intros [<-|Hin]; [exists m; split; [now left | exact Hm]|].
        apply IH in Hin. destruct Hin as [m' [Hm' Hc]].
        exists m'. split; [now right | exact Hc].
      * intros [m' [[<-|Hin] Hc]].
        -- left. congruence.
        -- right. apply IH. eauto.
    + rewrite IH. split.
      * intros [m' [Hin Hc]]. exists m'. split; [now right | exact Hc].
      * intros [m' [[<-|Hin] Hc]]; [congruence | eauto].
Qed.

(** A pass over the names of a folder deletes the entries [swept_in] says. *)
Lemma hit_listdir (folder : string) (f : list node) (n : node) :
  plain_folder folder -> In n f ->
  hit E folder (listdir folder f) n = swept_in E folder n.
Proof.
  intros Hf Hn. unfold hit, swept_in.
  assert (Hchild : forall x,
            In x (listdir folder f) ->
            os_path_join folder x = n_path n ->
            child_name folder (n_path n) = Some x).
  { intros x Hx Hjoin. apply in_listdir in Hx. destruct Hx as [m [_ Hm]].
    rewrite <- Hjoin, (child_name_join folder (n_path m) x Hf Hm). exact Hm. }
  destruct (child_name folder (n_path n)) as [name|] eqn:Hc.
  - f_equal.
    destruct (existsb
                (fun x => String.eqb (os_path_join folder x) (n_path n)
                          && negb (String.eqb x ".gitkeep"))
                (listdir folder f)) eqn:Hex.
    + apply existsb_exists in Hex. destruct Hex as [x [Hx Hg]].
      apply andb_prop in Hg. destruct Hg as [Hj Hk].
      apply String.eqb_eq in Hj.
      pose proof (Hchild x Hx Hj) as Hx'. injection Hx' as <-.
      symmetry. exact Hk.
    + destruct (String.eqb name ".gitkeep") eqn:Hk; [reflexivity|].
      exfalso. apply not_true_iff_false in Hex. apply Hex.
      apply existsb_exists. exists name. split.
      * apply in_listdir. exists n. auto.
      * rewrite (child_name_join folder (n_path n) name Hf Hc).
        rewrite String.eqb_refl, Hk. reflexivity.
  - destruct (existsb _ (listdir folder f)) eqn:Hex; [|reflexivity].
    apply existsb_exists in Hex. destruct Hex as [x [Hx Hg]].
    apply andb_prop in Hg. destruct Hg as [Hj _].
    apply String.eqb_eq in Hj. pose proof (Hchild x Hx Hj). discriminate.
Qed.

Lemma sweep_folder_run (folder : string) (w : World) :
  plain_folder folder -> well_formed (fs w) ->
  exists l,
    sweep E (now E) folder (listdir folder (fs w)) w
    = (Ok tt,
       with_log (with_fs w (filter (fun n => negb (swept_in E folder n)) (fs w)))
                (log w ++ l)%list).
Proof.
  intros Hf Hwf.
  destruct (sweep_run folder (listdir folder (fs w)) w Hwf) as [l ->].
  exists l. f_equal. f_equal. f_equal.
  apply filter_ext_in. intros n Hn. rewrite hit_listdir by assumption.
  reflexivity.
Qed.

(** [os.listdir] returns the names of the folder when it can be listed, and
    raises otherwise. *)
Lemma os_listdir_run (folder : string) (w : World) :
  can_list E (fs w) folder = true ->
  os_listdir E folder w = (Ok (listdir folder (fs w)), w).
Proof.
  unfold can_list, os_listdir. intros H.
  destruct (lookup_node (fs w) folder) as [n|]; [|discriminate].
  destruct (n_isfile n); [discriminate|].
  destruct (listdir_out E folder); [reflexivity | discriminate].
Qed.

Lemma os_listdir_raises (folder : string) (w : World) :
  can_list E (fs w) folder = false ->
  exists e, os_listdir E folder w = (Raise e, w).
Proof.
  unfold can_list, os_listdir. intros H.
  destruct (lookup_node (fs w) folder) as [n|]; [|eauto].
  destruct (n_isfile n); [eauto|].
  destruct (listdir_out E folder); [discriminate | eauto].
Qed.

Lemma swept_in_is_file (folder : string) (n : node) :
  swept_in E folder n = true -> n_isfile n = true.
Proof.
  unfold swept_in, expired. intros H.
  destruct (child_name folder (n_path n)); [|discriminate].
  destruct (n_isfile n); [reflexivity|].
  rewrite andb_false_r in H. discriminate.
Qed.

(** The sweep of a folder deletes no directory, so what could be listed
    before it can be listed after it. *)
Lemma can_list_after_sweep (folder other : string) (f : list node) :
  well_formed f ->
  can_list E (filter (fun n => negb (swept_in E folder n)) f) other
  = can_list E f other.
Proof.
  intros Hwf. unfold can_list.
  destruct (lookup_node f other) as [n|] eqn:Hn.
  - pose proof Hn as Hin. unfold lookup_node in Hin. apply find_some in Hin.
    destruct Hin as [Hin Hp]. apply String.eqb_eq in Hp. subst other.
    destruct (swept_in E folder n) eqn:Hs.
    + rewrite lookup_filtered_out by (auto; rewrite Hs; reflexivity).
      rewrite (swept_in_is_file folder n Hs). reflexivity.
    + rewrite (lookup_filtered_in _ f n Hwf Hin) by (rewrite Hs; reflexivity).
      reflexivity.
  - destruct (lookup_node (filter (fun n => negb (swept_in E folder n)) f) other)
      as [m|] eqn:Hm; [|reflexivity].
    unfold lookup_node in Hm, Hn. apply find_some in Hm.
    destruct Hm as [Hin Hp]. apply filter_In in Hin. destruct Hin as [Hin _].
    rewrite (find_none _ _ Hn m Hin) in Hp. discriminate.
Qed.

(** The whole sweep, when both folders can be listed. *)
Lemma cleanup_old_files_run (w : World) :
  well_formed (fs w) ->
  can_list E (fs w) UPLOAD_FOLDER = true ->
  can_list E (fs w) OUTPUT_FOLDER = true ->
  exists l,
    cleanup_old_files E w
    = (Ok tt,
       with_log (with_fs w (filter (fun n => negb (swept E n)) (fs w)))
                (log w ++ l)%list).
Proof.
  intros Hwf Hup Hout. unfold cleanup_old_files. cbn [sweep_folders].
  unfold bind at 1. rewrite (os_listdir_run UPLOAD_FOLDER w Hup).
  unfold bind at 1.
  destruct (sweep_folder_run UPLOAD_FOLDER w eq_refl Hwf) as [l1 ->].
  unfold bind at 1. rewrite os_listdir_run
    by (cbn [fs with_log with_fs]; rewrite can_list_after_sweep; assumption).
  unfold bind at 1.
  match goal with
  | |- context [sweep E (now E) OUTPUT_FOLDER _ ?w1] =>
      destruct (sweep_folder_run OUTPUT_FOLDER w1 eq_refl) as [l2 Hrun];
      [ cbn [fs with_log with_fs]; apply well_formed_filter; exact Hwf |]
  end.
  rewrite Hrun. exists (l1 ++ l2)%list. unfold ret. f_equal.
  unfold with_log, with_fs. cbn. rewrite app_assoc. f_equal.
  rewrite filter_filter. apply filter_ext. intros n. unfold swept.
  destruct (swept_in E UPLOAD_FOLDER n); reflexivity.
Qed.

(** The sweep when the upload folder cannot be listed: the exception of
    [os.listdir] leaves [cleanup_old_files] before anything is deleted. *)
Lemma cleanup_old_files_unlisted_uploads (w : World) :
  can_list E (fs w) UPLOAD_FOLDER = false ->
  exists e, cleanup_old_files E w = (Raise e, w).
Proof.
  intros Hup. unfold cleanup_old_files. cbn [sweep_folders].
  unfold bind at 1.
  destruct (os_listdir_raises UPLOAD_FOLDER w Hup) as [e ->]. eauto.
Qed.

(** The sweep when only the output folder cannot be listed: the upload
    folder has been swept when the exception leaves. *)
Lemma cleanup_old_files_unlisted_output (w : World) :
  well_formed (fs w) ->
  can_list E (fs w) UPLOAD_FOLDER = true ->
  can_list E (fs w) OUTPUT_FOLDER = false ->
  exists e l,
    cleanup_old_files E w
    = (Raise e,
       with_log
         (with_fs w (filter (fun n => negb (swept_in E UPLOAD_FOLDER n)) (fs w)))
         (log w ++ l)%list).
Proof.
  intros Hwf Hup Hout. unfold cleanup_old_files. cbn [sweep_folders].
  unfold bind at 1. rewrite (os_listdir_run UPLOAD_FOLDER w Hup).
  unfold bind at 1.
  destruct (sweep_folder_run UPLOAD_FOLDER w eq_refl Hwf) as [l1 ->].
  unfold bind at 1.
  match goal with
  | |- context [os_listdir E OUTPUT_FOLDER ?w1] =>
      destruct (os_listdir_raises OUTPUT_FOLDER w1) as [e ->];
      [ cbn [fs with_log with_fs]; rewrite can_list_after_sweep; assumption |]
  end.
  eauto.
Qed.

(** However the sweep ends, what it has deleted is among the entries
    [swept] says. *)
Lemma cleanup_old_files_deletes (w : World) :
  well_formed (fs w) ->
  exists g,
    fs (snd (cleanup_old_files E w)) = filter (fun n => negb (g n)) (fs w) /\
    forall n, g n = true -> swept E n = true.
Proof.
  intros Hwf.
  destruct (can_list E (fs w) UPLOAD_FOLDER) eqn:Hup.
  - destruct (can_list E (fs w) OUTPUT_FOLDER) eqn:Hout.
    + destruct (cleanup_old_files_run w Hwf Hup Hout) as [l ->].
      exists (swept E). split; [reflexivity | auto].
    + destruct (cleanup_old_files_unlisted_output w Hwf Hup Hout) as [e [l ->]].
      exists (swept_in E UPLOAD_FOLDER). split; [reflexivity|].
      intros n Hn. unfold swept. rewrite Hn. reflexivity.
  - destruct (cleanup_old_files_unlisted_uploads w Hup) as [e ->].
    exists (fun _ => false). split; [|discriminate].
    cbn [snd]. symmetry. apply filter_all. reflexivity.
Qed.

End Sweep.

(** C9 (amended). On every GET / request on which both the upload and the
    output folder can be listed, the sweep runs over the two folders before
    the page is rendered, and deletes exactly the entries directly inside
    them that are regular files, are not named ".gitkeep", are older than
    3600 seconds and can be removed; every other entry, a file at most one
    hour old among them, is left as it was.  A removal that fails is logged
    and the file stays. *)
Theorem index_sweeps_expired_files (E : Env) (w : World) :
  well_formed (fs w) ->
  can_list E (fs w) UPLOAD_FOLDER = true ->
  can_list E (fs w) OUTPUT_FOLDER = true ->
  exists l,
    index E w
    = (Ok (RenderTemplate "index.html" None None),
       with_log (with_fs w (filter (fun n => negb (swept E n)) (fs w)))
                (log w ++ l)%list) /\
    forall n,
      In n (fs (snd (index E w))) <-> In n (fs w) /\ swept E n = false.
Proof.
  intros Hwf Hup Hout. unfold index, bind.
  destruct (cleanup_old_files_run E w Hwf Hup Hout) as [l ->].
  exists l. split; [reflexivity|].
  intros n. cbn [snd ret fs with_log with_fs]. rewrite filter_In.
  rewrite negb_true_iff. reflexivity.
Qed.

Lemma index_sweeps_the_old_upload :
  well_formed (fs Scenario.swept_world) /\
  can_list Scenario.two_pages (fs Scenario.swept_world) UPLOAD_FOLDER = true /\
  can_list Scenario.two_pages (fs Scenario.swept_world) OUTPUT_FOLDER = true /\
  exists l,
    index Scenario.two_pages Scenario.swept_world
    = (Ok (RenderTemplate "index.html" None None),
       with_log
         (with_fs Scenario.swept_world
            (filter (fun n => negb (swept Scenario.two_pages n))
                    (fs Scenario.swept_world)))
         (log Scenario.swept_world ++ l)%list) /\
    forall n,
      In n (fs (snd (index Scenario.two_pages Scenario.swept_world))) <->
      In n (fs Scenario.swept_world) /\ swept Scenario.two_pages n = false.
Proof.
  assert (Hwf : well_formed (fs Scenario.swept_world)).
  { unfold well_formed. simpl.
    repeat constructor; simpl; intuition discriminate. }
  split; [exact Hwf|]. split; [reflexivity|]. split; [reflexivity|].
  apply (index_sweeps_expired_files Scenario.two_pages Scenario.swept_world Hwf);
    reflexivity.
Defined.

(** C9 as stated fails: with both folders listed, a regular file named
    ".gitkeep" in the upload folder is two hours old and is still there
    after GET /, while the old upload next to it is gone. *)
Lemma index_keeps_the_old_gitkeep :
  can_list Scenario.two_pages (fs Scenario.swept_world) UPLOAD_FOLDER = true /\
  can_list Scenario.two_pages (fs Scenario.swept_world) OUTPUT_FOLDER = true /\
  path_isfile (fs Scenario.swept_world) "uploads/.gitkeep" = true /\
  older_than_an_hour (now Scenario.two_pages) (0 # 1) = true /\
  path_exists (fs (snd (index Scenario.two_pages Scenario.swept_world)))
              "uploads/.gitkeep" = true /\
  path_exists (fs (snd (index Scenario.two_pages Scenario.swept_world)))
              "uploads/4f1c_old.pdf" = false.
Proof. repeat split; reflexivity. Qed.

(** Without the upload folder GET / does not render: the exception of
    [os.listdir] leaves [index], and the output folder is not swept. *)
Lemma index_raises_without_upload_folder (E : Env) (w : World) :
  can_list E (fs w) UPLOAD_FOLDER = false ->
  exists e, index E w = (Raise e, w).
Proof.
  intros Hup. unfold index, bind.
  destruct (cleanup_old_files_unlisted_uploads E w Hup) as [e ->]. eauto.
Qed.

(* ===================================================================== *)
(** * What the return value of [convert] says                             *)
(* ===================================================================== *)

Section ReturnValue.

Variable E : Env.
Variables pdf_path output_path : string.
Variable max_pages : Z.

Lemma extract_text_value (w : World) (cap : Z) :
  fst (extract_text_from_pdf E pdf_path cap w) = Ok (extracted_texts E cap).
Proof.
  unfold extract_text_from_pdf, extracted_texts.
  destruct (reader_out E) as [pages|e]; [|reflexivity].
  destruct (extract_pages_spec pages (range (Z.min (llen pages) cap)) [] w)
    as [l ->].
  reflexivity.
Qed.

(** The body of [convert] ends in [True] only after [prs.save] has written
    a presentation with a slide in it, and otherwise leaves the documents as
    they were. *)
Lemma body_outcome (w w' : World) (r : result bool) :
  convert_body E pdf_path output_path max_pages w = (r, w') ->
  (r = Ok true /\
   exists page_count images prs w1 w2,
     get_pdf_page_count_out E = Ok page_count /\
     convert_from_path_out E (Z.min page_count max_pages) = Ok images /\
     build_slides E (extracted_texts E (Z.min page_count max_pages))
       (llen images) 0 images [] w1 = (Ok prs, w2) /\
     prs <> [] /\
     documents w' = (output_path, prs) :: documents w /\
     lookup_node (fs w') output_path
     = Some (mkNode output_path true (now E))) \/
  (r <> Ok true /\ documents w' = documents w).
Proof.
  intros H. unfold convert_body in H.
  step H Hmk; rewrite mkdtemp_run in Hmk;
    destruct (mkdtemp_out E) as [d|].
  all: inv_run Hmk.
  2:{ right. split; [discriminate | reflexivity]. }
  prim H. prim H. prim H.
  2:{ right. split; [discriminate | reflexivity]. }
  step H Hlast; rewrite last_page_run in Hlast; inv_run Hlast.
  match type of H with
  | _ ?w1 = _ =>
      assert (Hw : documents w1 = documents w)
        by (match goal with
            | |- context [if ?c then _ else _] => destruct c
            end; reflexivity)
  end.
  step H Hx;
    match type of Hx with
    | extract_text_from_pdf E pdf_path ?lp ?w1 = _ =>
        pose proof (respects_extract_text keeps_documents keeps_documents_refl
                      keeps_documents_trans (fun w l => eq_refl) E pdf_path lp w1)
          as Hd;
        rewrite Hx in Hd; unfold keeps_documents in Hd; cbn [snd] in Hd
    end.
  2:{ right. split; [discriminate | congruence]. }
  match type of Hx with
  | extract_text_from_pdf E pdf_path ?lp ?w1 = (Ok ?t, _) =>
      assert (Ht : t = extracted_texts E lp)
        by (pose proof (extract_text_value w1 lp) as Hv; rewrite Hx in Hv;
            cbn [fst] in Hv; congruence)
  end.
  prim H.
  step H Hr; unfold convert_from_path in Hr; inv_run Hr.
  2:{ right. split; [discriminate|]. cbn [documents with_log]. congruence. }
  match type of H with
  | match ?imgs with _ => _ end _ = _ => destruct imgs as [|image rest]
  end.
  { prim H. inv_run H. right. split; [discriminate|].
    cbn [documents with_log]. congruence. }
  prim H.
  step H Hb;
    match type of Hb with
    | build_slides E ?t ?n ?i ?imgs ?sl ?w1 = _ =>
        pose proof (respects_build_slides keeps_documents keeps_documents_refl
                      keeps_documents_trans (fun w l => eq_refl)
                      (fun w f => eq_refl) E t n imgs i sl w1) as Hdb;
        rewrite Hb in Hdb; unfold keeps_documents in Hdb;
        cbn [snd documents with_log] in Hdb
    end.
  2:{ right. split; [discriminate | congruence]. }
  match type of Hb with
  | build_slides E ?t ?n 0 ?imgs [] ?w1 = (Ok ?prs, ?w2) =>
      destruct (build_slides_inv E t n imgs O [] w1 w2 prs Hb)
        as [added [Hprs [Hadded _]]]
  end.
  unfold presentation_save in H.
  step H Hp; unfold bind, lift, write_node in Hp;
    destruct (presentation_save_out E) as [[]|]; inv_run Hp.
  2:{ right. split; [discriminate | congruence]. }
  prim H. inv_run H. left. split; [reflexivity|].
  match type of Hb with
  | build_slides E _ _ 0 _ [] ?wa = (_, ?wb) =>
      match goal with
      | Hc : get_pdf_page_count_out E = Ok ?pc |- _ =>
          exists pc, (image :: rest), added, wa, wb
      end
  end.
  split; [assumption|]. split; [assumption|].
  split; [first [exact Hb | rewrite <- Ht; exact Hb]|]. split; [|split].
  - intros ->. discriminate.
  - cbn [documents with_log with_documents with_fs]. simpl app. f_equal.
    rewrite Hdb. etransitivity; [exact Hd | exact Hw].
  - cbn [fs with_log with_documents with_fs lookup_node find n_path].
    rewrite String.eqb_refl. reflexivity.
Qed.

Lemma cleanup_keeps_documents (w : World) :
  documents (snd (convert_cleanup E w)) = documents w.
Proof.
  apply (respects_convert_cleanup keeps_documents keeps_documents_refl
           keeps_documents_trans (fun w l => eq_refl) (fun w f => eq_refl) E).
Qed.

Lemma find_filter {A : Type} (h g : A -> bool) (l : list A) (a : A) :
  find h l = Some a -> g a = true -> find h (filter g l) = Some a.
Proof.
  induction l as [|x l IH]; intros Hf Hg; [discriminate|].
  simpl in Hf. destruct (h x) eqn:Hx.
  - injection Hf as ->. simpl. rewrite Hg. simpl. rewrite Hx. reflexivity.
  - simpl. destruct (g x); [simpl; rewrite Hx|]; apply IH; assumption.
Qed.

(** The cleanup keeps an entry that is neither the temporary directory nor
    below it. *)
Lemma cleanup_keeps_entry (w : World) (d p : string) (n : node) :
  self_temp_dir w = Some d ->
  String.eqb p d = false -> startswith p (d ++ "/") = false ->
  lookup_node (fs w) p = Some n ->
  lookup_node (fs (snd (convert_cleanup E w))) p = Some n.
Proof.
  intros Htd Hne Hpre Hn.
  unfold convert_cleanup, bind, get_temp_dir, os_path_exists, try_except, lift,
    delete_tree, logging.
  rewrite Htd.
  destruct (truthy d && path_exists (fs w) d); [|exact Hn].
  destruct (rmtree_out E); [|exact Hn].
  cbn [snd fs with_log with_fs]. unfold lookup_node in *.
  apply find_filter; [exact Hn|].
  apply find_some in Hn. destruct Hn as [_ Hp].
  apply String.eqb_eq in Hp. rewrite Hp, Hne, Hpre. reflexivity.
Qed.

End ReturnValue.

(** The two ways [convert] can end. *)
Lemma convert_outcome
    (E : Env) (pdf_path output_path : string) (max_pages : Z) (w : World) :
  (fst (convert E pdf_path output_path max_pages w) = Ok true /\
   exists page_count images prs w1 w2,
     get_pdf_page_count_out E = Ok page_count /\
     convert_from_path_out E (Z.min page_count max_pages) = Ok images /\
     build_slides E (extracted_texts E (Z.min page_count max_pages))
       (llen images) 0 images [] w1 = (Ok prs, w2) /\
     prs <> [] /\
     documents (snd (convert E pdf_path output_path max_pages w))
     = (output_path, prs) :: documents w) \/
  (fst (convert E pdf_path output_path max_pages w) = Ok false /\
   documents (snd (convert E pdf_path output_path max_pages w)) = documents w).
Proof.
  rewrite convert_after_body.
  destruct (convert_body E pdf_path output_path max_pages w) as [r w1] eqn:Hb.
  destruct (body_outcome E pdf_path output_path max_pages w w1 r Hb)
    as [[-> [pc [images [prs [wa [wb [Hc [Hi [Hs [Hne [Hdocs _]]]]]]]]]]]|[Hr Hdocs]].
  - left. split; [reflexivity|]. exists pc, images, prs, wa, wb.
    repeat (split; [assumption|]).
    cbn [snd]. rewrite cleanup_keeps_documents. exact Hdocs.
  - right. destruct r as [[|]|e]; [contradiction| |]; cbn [fst snd].
    + split; [reflexivity|]. rewrite cleanup_keeps_documents. exact Hdocs.
    + split; [reflexivity|]. rewrite cleanup_keeps_documents.
      rewrite convert_handler_run. cbn [snd documents with_log]. exact Hdocs.
Qed.

(** C8. When the rasterizer fails, the whole job fails: if
    [convert_from_path] raises on the range [convert] asks for, the pages 1
    to min(page count, max_pages), then [convert] returns [False] and writes
    no presentation, where the text extractor would have carried on with an
    empty entry.  That a shorter range would have been rendered does not
    help. *)
Theorem rasterization_failure_aborts_conversion
    (E : Env) (pdf_path output_path : string) (max_pages : Z) (w : World)
    (page_count : Z) :
  get_pdf_page_count_out E = Ok page_count ->
  (exists e,
     convert_from_path_out E (Z.min page_count max_pages) = Raise e) ->
  fst (convert E pdf_path output_path max_pages w) = Ok false /\
  documents (snd (convert E pdf_path output_path max_pages w)) = documents w.
Proof.
  intros Hcount [e Hraster].
  destruct (convert_outcome E pdf_path output_path max_pages w)
    as [[_ [pc [images [prs [wa [wb [Hc [Hi _]]]]]]]]|Hfalse];
    [|exact Hfalse].
  rewrite Hcount in Hc. injection Hc as <-. rewrite Hraster in Hi.
  discriminate.
Qed.

Lemma rasterization_failure_aborts_at_one_bad_page :
  get_pdf_page_count_out Scenario.one_bad_page = Ok 3 /\
  (exists e,
     convert_from_path_out Scenario.one_bad_page (Z.min 3 30) = Raise e) /\
  (exists images,
     convert_from_path_out Scenario.one_bad_page 2 = Ok images) /\
  fst (convert Scenario.one_bad_page "in.pdf" "out.pptx" 30 Scenario.world)
  = Ok false /\
  documents (snd (convert Scenario.one_bad_page "in.pdf" "out.pptx" 30
                    Scenario.world))
  = documents Scenario.world.
Proof.
  assert (Hraster : exists e,
            convert_from_path_out Scenario.one_bad_page (Z.min 3 30) = Raise e).
  { exists "Unable to render page 3.". reflexivity. }
  split; [reflexivity|]. split; [exact Hraster|].
  split; [eexists; reflexivity|].
  apply (rasterization_failure_aborts_conversion Scenario.one_bad_page
           "in.pdf" "out.pptx" 30 Scenario.world 3 eq_refl Hraster).
Defined.

(** X1. The return value of [convert] tells whether a presentation was
    written: [True] comes with a presentation of at least one slide saved
    under [output_path], [False] with no presentation saved at all. *)
Theorem convert_true_iff_presentation_written
    (E : Env) (pdf_path output_path : string) (max_pages : Z) (w : World) :
  (fst (convert E pdf_path output_path max_pages w) = Ok true /\
   exists prs,
     prs <> [] /\
     documents (snd (convert E pdf_path output_path max_pages w))
     = (output_path, prs) :: documents w) \/
  (fst (convert E pdf_path output_path max_pages w) = Ok false /\
   documents (snd (convert E pdf_path output_path max_pages w)) = documents w).
Proof.
  destruct (convert_outcome E pdf_path output_path max_pages w)
    as [[Ht [pc [images [prs [wa [wb [_ [_ [_ [Hne Hdocs]]]]]]]]]]|Hf].
  - left. split; [exact Ht|]. exists prs. split; assumption.
  - right. exact Hf.
Qed.

(** X2. When [convert] returns [True], the output file is there after the
    call as a regular file, provided [output_path] is not the temporary
    directory of the job or a path below it. *)
Theorem convert_true_leaves_output_file
    (E : Env) (pdf_path output_path : string) (max_pages : Z) (w : World)
    (d : string) :
  mkdtemp_out E = Ok d ->
  String.eqb output_path d = false ->
  startswith output_path (d ++ "/") = false ->
  fst (convert E pdf_path output_path max_pages w) = Ok true ->
  path_isfile (fs (snd (convert E pdf_path output_path max_pages w)))
              output_path = true.
Proof.
  intros Hmk Hne Hpre. rewrite convert_after_body.
  destruct (convert_body E pdf_path output_path max_pages w) as [r w1] eqn:Hb.
  destruct (body_outcome E pdf_path output_path max_pages w w1 r Hb)
    as [[-> [pc [images [prs [wa [wb [_ [_ [_ [_ [_ Hnode]]]]]]]]]]]|[Hr _]].
  - intros _. cbn [snd]. unfold path_isfile.
    rewrite (cleanup_keeps_entry E w1 d output_path _
               (body_sets_temp_dir E pdf_path output_path max_pages w w1 _ d Hmk Hb)
               Hne Hpre Hnode).
    reflexivity.
  - destruct r as [[|]|e]; [contradiction| |]; discriminate.
Qed.

Lemma convert_leaves_the_output_of_a_page :
  mkdtemp_out Scenario.triple_newline = Ok "/tmp/tmpa1" /\
  String.eqb "out.pptx" "/tmp/tmpa1" = false /\
  startswith "out.pptx" ("/tmp/tmpa1" ++ "/") = false /\
  fst (convert Scenario.triple_newline "in.pdf" "out.pptx" 30 Scenario.world)
  = Ok true /\
  path_isfile
    (fs (snd (convert Scenario.triple_newline "in.pdf" "out.pptx" 30
                Scenario.world)))
    "out.pptx"
  = true.
Proof.
  repeat (split; [reflexivity|]).
  apply (convert_true_leaves_output_file Scenario.triple_newline "in.pdf"
           "out.pptx" 30 Scenario.world "/tmp/tmpa1"); reflexivity.
Defined.

(* ===================================================================== *)
(** * The slides of a conversion                                          *)
(* ===================================================================== *)

Section Slides.

Variable E : Env.

Lemma save_page_image_raises (image : Image) (i : Z) (w : World) :
  unwritable image ->
  exists e w', save_page_image E image i w = (Raise e, w').
Proof.
  intros [[e1 Hj] [e2 Hp]].
  unfold save_page_image, temp_dir_str, bind, get_temp_dir, try_except,
    image_save, lift, ret, raise, logging, write_node.
  destruct (self_temp_dir w) as [d|] eqn:Htd; [|eexists; eexists; reflexivity].
  assert (Hj' : save_jpeg_out
                 (if String.eqb (mode image) "RGBA" || String.eqb (mode image) "P"
                  then mkImage "RGB" (save_jpeg_out image) (save_png_out image)
                  else image) = Raise e1).
  { destruct (String.eqb (mode image) "RGBA" || String.eqb (mode image) "P");
      exact Hj. }
  rewrite Hj'. simpl. rewrite ?Htd. simpl. rewrite Hp.
  eexists; eexists; reflexivity.
Qed.

(** The loop raises as soon as it comes to an image it cannot write, if it
    has not raised before. *)
Lemma build_slides_unwritable (pdf_texts : list string) (total : Z)
    (images : list Image) :
  Exists unwritable images ->
  forall i slides w r w',
    build_slides E pdf_texts total i images slides w = (r, w') ->
    exists e, r = Raise e.
Proof.
  induction 1 as [image rest Hbad | image rest _ IH]; intros i slides w r w' H;
    cbn [build_slides] in H.
  - prim H. step H Hpt; [|eauto].
    step H Himg; [|eauto].
    match type of Himg with
    | save_page_image E image i ?wx = _ =>
        destruct (save_page_image_raises image i wx Hbad) as [e [w2 Hraise]];
        rewrite Hraise in Himg; discriminate
    end.
  - prim H. step H Hpt; [|eauto].
    step H Himg; [|eauto].
    step H Hslide; [|eauto].
    apply IH in H. exact H.
Qed.

(** A frame given a text and then styled reads back that text. *)
Lemma styled_frame_text (s : string) (g : paragraph -> paragraph) :
  (forall p, p_text (g p) = p_text p) ->
  get_text (update_first (set_text s) g) = s.
Proof.
  intros Hg. unfold get_text. rewrite update_first_texts by exact Hg.
  unfold set_text. rewrite map_map. simpl. rewrite map_id. apply join_split.
Qed.

Lemma title_frame_text (n : Z) :
  get_text (title_frame n)
  = "Page " ++ str_of_int n ++ " - Click to Edit Title".
Proof. unfold title_frame. apply styled_frame_text. reflexivity. Qed.

End Slides.

(** X3. A page image that can be written neither as JPEG nor as PNG fails
    the whole job: when every list of images the rasterizer returns holds
    such an image, [convert] returns [False] and saves no presentation. *)
Theorem unwritable_image_fails_conversion
    (E : Env) (pdf_path output_path : string) (max_pages : Z) (w : World) :
  (forall last_page images,
     convert_from_path_out E last_page = Ok images ->
     Exists unwritable images) ->
  fst (convert E pdf_path output_path max_pages w) = Ok false /\
  documents (snd (convert E pdf_path output_path max_pages w)) = documents w.
Proof.
  intros Hbad.
  destruct (convert_outcome E pdf_path output_path max_pages w)
    as [[_ [pc [images [prs [wa [wb [_ [Hi [Hs _]]]]]]]]]|Hf]; [|exact Hf].
  destruct (build_slides_unwritable E _ _ images (Hbad _ _ Hi) _ _ _ _ _ Hs)
    as [e He].
  discriminate.
Qed.

Lemma conversion_fails_on_a_full_disk :
  (forall last_page images,
     convert_from_path_out Scenario.disk_full last_page = Ok images ->
     Exists unwritable images) /\
  fst (convert Scenario.disk_full "in.pdf" "out.pptx" 30 Scenario.world)
  = Ok false /\
  documents (snd (convert Scenario.disk_full "in.pdf" "out.pptx" 30
                    Scenario.world))
  = documents Scenario.world.
Proof.
  assert (Hbad : forall last_page images,
            convert_from_path_out Scenario.disk_full last_page = Ok images ->
            Exists unwritable images).
  { intros last_page images H. simpl in H. injection H as <-.
    constructor. split; eexists; reflexivity. }
  split; [exact Hbad|].
  apply (unwritable_image_fails_conversion Scenario.disk_full "in.pdf"
           "out.pptx" 30 Scenario.world Hbad).
Defined.

(** X4. Whenever [convert] returns [True], the saved presentation has one
    slide per image the rasterizer returned, in page order; slide k (from 0)
    is titled "Page k+1 - Click to Edit Title" and its content box is built
    from the text extracted for page k+1, or from the placeholder when that
    text is missing or too short. *)
Theorem converted_slides_follow_pages
    (E : Env) (pdf_path output_path : string) (max_pages : Z) (w : World) :
  fst (convert E pdf_path output_path max_pages w) = Ok true ->
  exists page_count images prs,
    get_pdf_page_count_out E = Ok page_count /\
    convert_from_path_out E (Z.min page_count max_pages) = Ok images /\
    documents (snd (convert E pdf_path output_path max_pages w))
    = (output_path, prs) :: documents w /\
    List.length prs = List.length images /\
    forall k, (k < List.length prs)%nat ->
      exists s,
        nth_error prs k = Some s /\
        get_text (title_box s)
        = "Page " ++ str_of_int (Z.of_nat k + 1) ++ " - Click to Edit Title" /\
        content_box s
        = content_frame E
            (slide_text (extracted_texts E (Z.min page_count max_pages)) k).
Proof.
  intros Htrue.
  destruct (convert_outcome E pdf_path output_path max_pages w)
    as [[_ [pc [images [prs [wa [wb [Hc [Hi [Hs [_ Hdocs]]]]]]]]]]|[Hf _]];
    [|congruence].
  destruct (build_slides_inv E _ _ images O [] wa wb prs Hs)
    as [added [Hprs [Hlen Hnth]]].
  simpl in Hprs. subst added.
  exists pc, images, prs. repeat (split; [assumption|]).
  intros k Hk. destruct (Hnth k) as [s [Hn [Ht Hcb]]]; [lia|].
  exists s. split; [exact Hn|]. split; [|exact Hcb].
  rewrite Ht, title_frame_text. reflexivity.
Qed.

Lemma converted_slides_of_two_pages :
  fst (convert Scenario.two_pages "in.pdf" "out.pptx" 30 Scenario.world)
  = Ok true /\
  exists page_count images prs,
    get_pdf_page_count_out Scenario.two_pages = Ok page_count /\
    convert_from_path_out Scenario.two_pages (Z.min page_count 30) = Ok images /\
    documents (snd (convert Scenario.two_pages "in.pdf" "out.pptx" 30
                      Scenario.world))
    = ("out.pptx", prs) :: documents Scenario.world /\
    List.length prs = List.length images /\
    forall k, (k < List.length prs)%nat ->
      exists s,
        nth_error prs k = Some s /\
        get_text (title_box s)
        = "Page " ++ str_of_int (Z.of_nat k + 1) ++ " - Click to Edit Title" /\
        content_box s
        = content_frame Scenario.two_pages
            (slide_text (extracted_texts Scenario.two_pages (Z.min page_count 30)) k).
Proof.
  split; [reflexivity|].
  apply (converted_slides_follow_pages Scenario.two_pages "in.pdf" "out.pptx"
           30 Scenario.world).
  reflexivity.
Defined.

Lemma missing_text_is_empty (E : Env) (cap : Z) (k : nat) :
  text_missing E k -> page_text_of (extracted_texts E cap) k = "".
Proof.
  unfold text_missing, extracted_texts, page_text_of.
  destruct (reader_out E) as [pages|e0].
  - intros [e Hk].
    destruct (nth_error (map (entry_at pages) (range (Z.min (llen pages) cap))) k)
      as [t|] eqn:Ht; [|reflexivity].
    assert (Hlt : (k < List.length
                         (map (entry_at pages) (range (Z.min (llen pages) cap))))%nat)
      by (apply nth_error_Some; congruence).
    rewrite (extracted_entries pages cap k Hlt), Hk in Ht.
    simpl in Ht. congruence.
  - intros _. destruct k; reflexivity.
Qed.

(** X5. Text extraction never costs a slide: when [convert] returns [True],
    a page whose text could not be extracted (the PDF reader failed, or the
    extraction of that page raised) still has its slide, and the content box
    of that slide holds the placeholder for the page. *)
Theorem missing_text_gives_placeholder
    (E : Env) (pdf_path output_path : string) (max_pages : Z) (w : World)
    (prs : presentation) (k : nat) :
  fst (convert E pdf_path output_path max_pages w) = Ok true ->
  documents (snd (convert E pdf_path output_path max_pages w))
  = (output_path, prs) :: documents w ->
  (k < List.length prs)%nat ->
  text_missing E k ->
  exists s,
    nth_error prs k = Some s /\
    get_text (content_box s) = placeholder (Z.of_nat k + 1).
Proof.
  intros Htrue Hdocs Hk Hmiss.
  destruct (convert_outcome E pdf_path output_path max_pages w)
    as [[_ [pc [images [prs' [wa [wb [_ [_ [Hs [_ Hdocs']]]]]]]]]]|[Hf _]];
    [|congruence].
  assert (prs' = prs) by congruence. subst prs'.
  destruct (build_slides_inv E _ _ images O [] wa wb prs Hs)
    as [added [Hprs [Hlen Hnth]]].
  simpl in Hprs. subst added.
  destruct (Hnth k) as [s [Hn [_ Hcb]]]; [lia|].
  exists s. split; [exact Hn|].
  rewrite Hcb. unfold slide_text. simpl (0 + k)%nat.
  rewrite (missing_text_is_empty E _ k Hmiss).
  change (too_short "") with true. cbv iota.
  assert (Hph : content_frame E (placeholder (Z.of_nat k + 1))
                = placeholder_frame (placeholder (Z.of_nat k + 1)))
    by reflexivity.
  rewrite Hph. apply placeholder_frame_text.
Qed.

Lemma textless_pdf_gives_placeholders :
  fst (convert Scenario.textless "in.pdf" "out.pptx" 30 Scenario.world)
  = Ok true /\
  documents (snd (convert Scenario.textless "in.pdf" "out.pptx" 30
                    Scenario.world))
  = ("out.pptx", Scenario.textless_slides) :: documents Scenario.world /\
  (1 < List.length Scenario.textless_slides)%nat /\
  text_missing Scenario.textless 1 /\
  exists s,
    nth_error Scenario.textless_slides 1 = Some s /\
    get_text (content_box s) = placeholder (Z.of_nat 1 + 1).
Proof.
  split; [reflexivity|]. split; [reflexivity|].
  split; [simpl; lia|]. split; [exact I|].
  apply (missing_text_gives_placeholder Scenario.textless "in.pdf" "out.pptx"
           30 Scenario.world Scenario.textless_slides 1%nat).
  - reflexivity.
  - reflexivity.
  - simpl; lia.
  - exact I.
Defined.

(* ===================================================================== *)
(** * The upload handler                                                  *)
(* ===================================================================== *)

Section Upload.

Variable E : Env.

Lemma rsplit1_stem (s : string) : getitem (rsplit1 dot s) 0 = Ok (stem_of s).
Proof.
  unfold stem_of, rsplit1.
  destruct (rev (split dot s)) as [|x [|y l]]; reflexivity.
Qed.

Lemma convert_returns (pdf_path output_path : string) (max_pages : Z)
    (w : World) :
  exists b w', convert E pdf_path output_path max_pages w = (Ok b, w').
Proof.
  rewrite convert_after_body.
  destruct (convert_body E pdf_path output_path max_pages w) as [[b|e] w1];
    eexists; eexists; reflexivity.
Qed.

(** The [finally] clause of the conversion block always returns; it keeps
    the documents and the flashes, and the upload is gone after it when
    [os.remove] succeeds. *)
Lemma remove_upload_run (filepath : string) (w : World) :
  exists w',
    remove_upload E filepath w = (Ok tt, w') /\
    documents w' = documents w /\ flashes w' = flashes w /\
    (remove_out E filepath = Ok tt -> path_exists (fs w') filepath = false).
Proof.
  unfold remove_upload, try_except, bind, os_path_exists, os_remove, lift,
    delete_node, logging, ret.
  destruct (path_exists (fs w) filepath) eqn:Hex.
  - destruct (remove_out E filepath) as [[]|e] eqn:Hrm.
    + eexists. split; [reflexivity|]. repeat split.
      intros _. cbn [fs with_fs]. unfold path_exists, lookup_node.
      destruct (find (fun n => String.eqb (n_path n) filepath)
                  (filter (fun n => negb (String.eqb (n_path n) filepath)) (fs w)))
        as [n|] eqn:Hf; [|reflexivity].
      apply find_some in Hf. destruct Hf as [Hin Hp].
      apply filter_In in Hin. destruct Hin as [_ Hq].
      rewrite Hp in Hq. discriminate.
    + eexists. split; [reflexivity|]. repeat split. discriminate.
  - eexists. split; [reflexivity|]. repeat split. intros _. exact Hex.
Qed.

(** The conversion block of [upload_file], lines 86-103, without its
    [finally]: it always answers. *)
Lemma conversion_block_answers (original_filename filepath : string)
    (w w' : World) (r : result response) :
  try_except
    (base <- lift (getitem (rsplit1 "." original_filename) 0) ;;
     let output_filename := uuid4 E ++ "_" ++ base ++ ".pptx" in
     let output_path := os_path_join OUTPUT_FOLDER output_filename in
     success <- convert E filepath output_path 30 ;;
     if success : bool then
       flash "PDF converted successfully! Click the download button below."
             "success" ;;
       ret (RenderTemplate "index.html" (Some output_filename) (Some base))
     else
       flash "Error converting PDF. Please ensure the file is valid and not corrupted."
             "error" ;;
       ret (Redirect "index"))
    (fun e =>
     logging ERROR ("Conversion error: " ++ e) ;;
     flash ("Error during conversion: " ++ e) "error" ;;
     ret (Redirect "index")) w = (r, w') ->
  exists a, r = Ok a /\ upload_answer a.
Proof.
  intros H. apply try_except_inv in H.
  destruct H as [[a [H ->]]|[e [w1 [_ H]]]].
  - exists a. split; [reflexivity|].
    step H Hb. cbv zeta in H. step H Hc.
    destruct a1; prim H; inv_run H.
    + right. eauto.
    + left. reflexivity.
  - prim H. prim H. inv_run H. exists (Redirect "index").
    split; [reflexivity | left; reflexivity].
Qed.

Lemma save_and_convert_answers (filename : option string) (w w' : World)
    (r : result response) :
  save_and_convert E filename w = (r, w') ->
  (exists e, r = Raise e) \/ exists a, r = Ok a /\ upload_answer a.
Proof.
  unfold save_and_convert. intros H.
  step H Hs; [|left; eauto].
  prim H. prim H.
  unfold try_finally in H.
  match type of H with
  | context [try_except ?m ?h ?w0] =>
      destruct (try_except m h w0) as [rb wb] eqn:Hblock
  end.
  apply conversion_block_answers in Hblock.
  destruct Hblock as [answer [-> Hans]].
  match type of H with
  | context [remove_upload E ?p ?w1] =>
      destruct (remove_upload_run p w1) as [w2 [Hrm _]]; rewrite Hrm in H
  end.
  inv_run H. right. eauto.
Qed.

End Upload.

(** X6. [upload_file] lets no exception through: whatever the request and
    whatever fails on the way (saving the upload, the conversion, removing
    the upload), it answers with a redirect to the index page or with the
    index page carrying a download link. *)
Theorem upload_file_always_answers (E : Env) (req : request) (w : World) :
  exists a w', upload_file E req w = (Ok a, w') /\ upload_answer a.
Proof.
  unfold upload_file, try_except.
  match goal with
  | |- context [match ?m w with _ => _ end] => destruct (m w) as [[a|e] w1] eqn:H
  end.
  - exists a, w1. split; [reflexivity|].
    destruct (file_filename req) as [[[|c name]|]|].
    + prim H. inv_run H. left. reflexivity.
    + step H Ha. destruct (negb a0).
      * prim H. inv_run H. left. reflexivity.
      * apply save_and_convert_answers in H.
        destruct H as [[e He]|[a' [Ha' Hans]]]; [discriminate|].
        injection Ha' as ->. exact Hans.
    + step H Ha. destruct (negb a0).
      * prim H. inv_run H. left. reflexivity.
      * apply save_and_convert_answers in H.
        destruct H as [[e He]|[a' [Ha' Hans]]]; [discriminate|].
        injection Ha' as ->. exact Hans.
    + prim H. inv_run H. left. reflexivity.
  - eexists. eexists. split; [reflexivity|]. left. reflexivity.
Qed.

Section AcceptedUpload.

Variable E : Env.

Lemma accepted_name_not_empty (name : string) :
  endswith (lower name) ".pdf" = true -> truthy name = true.
Proof. destruct name; [discriminate | reflexivity]. Qed.

(** [upload_file] on an accepted name is the saving and converting part. *)
Lemma upload_file_accepted (name : string) (w : World) :
  endswith (lower name) ".pdf" = true ->
  upload_file E (mkRequest (Some (Some name))) w
  = try_except (save_and_convert E (Some name))
      (fun e =>
       logging ERROR ("Upload error: " ++ e) ;;
       flash "An unexpected error occurred. Please try again." "error" ;;
       ret (Redirect "index")) w.
Proof.
  intros Hacc. unfold upload_file, try_except. cbn [file_filename].
  destruct name as [|c name]; [discriminate|].
  unfold bind at 1. unfold lift at 1. rewrite allowed_file_spec, Hacc.
  reflexivity.
Qed.

Lemma convert_valid_run (pdf_path output_path : string) (w : World) (P : Z) :
  valid_pdf E P -> 1 <= P ->
  exists prs w',
    convert E pdf_path output_path 30 w = (Ok true, w') /\
    documents w' = (output_path, prs) :: documents w /\
    llen prs = Z.min P 30.
Proof.
  intros Hvalid HP.
  destruct (convert_body E pdf_path output_path 30 w) as [r w1] eqn:Hb.
  destruct (body_converts_valid_pdf E pdf_path output_path 30 w w1 r P
              Hvalid HP ltac:(lia) Hb) as [prs [-> [Hdocs [Hlen _]]]].
  exists prs, (snd (convert_cleanup E w1)).
  rewrite convert_after_body, Hb.
  split; [reflexivity|]. split; [|exact Hlen].
  rewrite (cleanup_keeps_documents E). exact Hdocs.
Qed.

(** The saving and converting part when the upload can be saved. *)
Lemma save_and_convert_saved (name : string) (w w' : World)
    (r : result response) :
  upload_save_out E = Ok tt -> truthy name = true ->
  save_and_convert E (Some name) w = (r, w') ->
  exists answer,
    r = Ok answer /\
    (remove_out E (upload_path E name) = Ok tt ->
     path_exists (fs w') (upload_path E name) = false) /\
    forall P, valid_pdf E P -> 1 <= P ->
      answer = RenderTemplate "index.html" (Some (result_name E name))
                 (Some (stem_of (secure_filename E name))) /\
      In ("PDF converted successfully! Click the download button below.",
          "success") (flashes w') /\
      exists prs,
        documents w' = (result_path E name, prs) :: documents w /\
        llen prs = Z.min P 30.
Proof.
  intros Hsave Hname H. unfold save_and_convert in H. rewrite Hname in H.
  cbv zeta in H. fold (upload_path E name) in H.
  unfold file_save in H. rewrite Hsave in H.
  step H Hs; unfold bind, lift, write_node in Hs; inv_run Hs.
  prim H. prim H.
  unfold try_finally in H.
  match type of H with
  | context [try_except ?m ?h ?w0] =>
      destruct (try_except m h w0) as [rb wb] eqn:Hblock
  end.
  match type of H with
  | context [remove_upload E ?p ?w1] =>
      destruct (remove_upload_run E p w1) as [w2 [Hrm [Hdoc2 [Hfl2 Hgone]]]];
      rewrite Hrm in H
  end.
  inv_run H.
  pose proof Hblock as Hanswer.
  apply conversion_block_answers in Hanswer.
  destruct Hanswer as [answer [-> _]].
  exists answer. split; [reflexivity|]. split; [exact Hgone|].
  intros P Hvalid HP.
  apply try_except_inv in Hblock.
  destruct Hblock as [[a [Hblock Ha]]|[e [w1 [Hblock _]]]].
  - injection Ha as <-.
    rewrite rsplit1_stem in Hblock. prim Hblock. cbv zeta in Hblock.
    fold (result_name E name) in Hblock. fold (result_path E name) in Hblock.
    match type of Hblock with
    | bind (convert E ?p ?o 30) _ ?w0 = _ =>
        destruct (convert_valid_run p o w0 P Hvalid HP)
          as [prs [wc [Hconv [Hdocs Hlen]]]]
    end.
    step Hblock Hc; rewrite Hconv in Hc; inv_run Hc.
    prim Hblock. inv_run Hblock.
    split; [reflexivity|]. split.
    + rewrite Hfl2. cbn [flashes with_flashes]. apply in_or_app. right.
      left. reflexivity.
    + exists prs. split; [|exact Hlen].
      rewrite Hdoc2. cbn [documents with_flashes]. rewrite Hdocs. reflexivity.
  - exfalso.
    rewrite rsplit1_stem in Hblock. prim Hblock. cbv zeta in Hblock.
    match type of Hblock with
    | bind (convert E ?p ?o 30) _ ?w0 = _ =>
        destruct (convert_valid_run p o w0 P Hvalid HP)
          as [prs [wc [Hconv _]]]
    end.
    step Hblock Hc; rewrite Hconv in Hc; inv_run Hc.
    prim Hblock. inv_run Hblock.
Qed.

End AcceptedUpload.

(** X7. The upload never outlives the request: when an accepted upload has
    been saved and [os.remove] succeeds on it, the saved file does not exist
    after [upload_file] returns, whether the conversion succeeded, returned
    [False] or raised. *)
Theorem upload_is_removed_after_conversion
    (E : Env) (name : string) (w : World) :
  endswith (lower name) ".pdf" = true ->
  upload_save_out E = Ok tt ->
  remove_out E (upload_path E name) = Ok tt ->
  path_exists
    (fs (snd (upload_file E (mkRequest (Some (Some name))) w)))
    (upload_path E name)
  = false.
Proof.
  intros Hacc Hsave Hrm. rewrite upload_file_accepted by exact Hacc.
  unfold try_except.
  destruct (save_and_convert E (Some name) w) as [r w1] eqn:H.
  destruct (save_and_convert_saved E name w w1 r Hsave
              (accepted_name_not_empty name Hacc) H) as [answer [-> [Hgone _]]].
  cbn [snd]. exact (Hgone Hrm).
Qed.

Lemma upload_of_a_deck_is_removed :
  endswith (lower "deck.PDF") ".pdf" = true /\
  upload_save_out Scenario.two_pages = Ok tt /\
  remove_out Scenario.two_pages (upload_path Scenario.two_pages "deck.PDF")
  = Ok tt /\
  path_exists
    (fs (snd (upload_file Scenario.two_pages
                (mkRequest (Some (Some "deck.PDF"))) Scenario.world)))
    (upload_path Scenario.two_pages "deck.PDF")
  = false.
Proof.
  repeat (split; [reflexivity|]).
  apply (upload_is_removed_after_conversion Scenario.two_pages "deck.PDF"
           Scenario.world); reflexivity.
Defined.

(** X8. Uploading a valid PDF of P >= 1 pages under an accepted name, on a
    host where the upload can be saved, is answered with the index page
    carrying the download link "<uuid>_<stem>.pptx" and the success flash,
    and a presentation of min(P, 30) slides has been saved under that name
    in the output folder. *)
Theorem upload_of_valid_pdf_is_converted
    (E : Env) (name : string) (w : World) (P : Z) :
  endswith (lower name) ".pdf" = true ->
  upload_save_out E = Ok tt ->
  valid_pdf E P -> 1 <= P ->
  exists prs w',
    upload_file E (mkRequest (Some (Some name))) w
    = (Ok (RenderTemplate "index.html" (Some (result_name E name))
             (Some (stem_of (secure_filename E name)))),
       w') /\
    In ("PDF converted successfully! Click the download button below.",
        "success") (flashes w') /\
    documents w' = (result_path E name, prs) :: documents w /\
    llen prs = Z.min P 30.
Proof.
  intros Hacc Hsave Hvalid HP. rewrite upload_file_accepted by exact Hacc.
  unfold try_except.
  destruct (save_and_convert E (Some name) w) as [r w1] eqn:H.
  destruct (save_and_convert_saved E name w w1 r Hsave
              (accepted_name_not_empty name Hacc) H) as [answer [-> [_ Hv]]].
  destruct (Hv P Hvalid HP) as [-> [Hflash [prs [Hdocs Hlen]]]].
  exists prs, w1. auto.
Qed.

Lemma upload_of_a_deck_is_converted :
  endswith (lower "deck.PDF") ".pdf" = true /\
  upload_save_out Scenario.two_pages = Ok tt /\
  valid_pdf Scenario.two_pages 2 /\
  1 <= 2 /\
  exists prs w',
    upload_file Scenario.two_pages (mkRequest (Some (Some "deck.PDF")))
      Scenario.world
    = (Ok (RenderTemplate "index.html"
             (Some (result_name Scenario.two_pages "deck.PDF"))
             (Some (stem_of (secure_filename Scenario.two_pages "deck.PDF")))),
       w') /\
    In ("PDF converted successfully! Click the download button below.",
        "success") (flashes w') /\
    documents w'
    = (result_path Scenario.two_pages "deck.PDF", prs)
      :: documents Scenario.world /\
    llen prs = Z.min 2 30.
Proof.
  split; [reflexivity|]. split; [reflexivity|].
  split; [apply scenario_valid|]. split; [lia|].
  apply (upload_of_valid_pdf_is_converted Scenario.two_pages "deck.PDF"
           Scenario.world 2).
  - reflexivity.
  - reflexivity.
  - apply scenario_valid.
  - lia.
Defined.

(* ===================================================================== *)
(** * Downloads and the sweep                                             *)
(* ===================================================================== *)

Section AfterSweep.

Variable E : Env.

Lemma index_fs (w : World) :
  well_formed (fs w) ->
  can_list E (fs w) UPLOAD_FOLDER = true ->
  can_list E (fs w) OUTPUT_FOLDER = true ->
  fs (snd (index E w)) = filter (fun n => negb (swept E n)) (fs w).
Proof.
  intros Hwf Hup Hout. unfold index, bind.
  destruct (cleanup_old_files_run E w Hwf Hup Hout) as [l ->]. reflexivity.
Qed.

(** However GET / ends, what is gone after it is among the entries [swept]
    says. *)
Lemma index_deletes (w : World) :
  well_formed (fs w) ->
  exists g,
    fs (snd (index E w)) = filter (fun n => negb (g n)) (fs w) /\
    forall n, g n = true -> swept E n = true.
Proof.
  intros Hwf. destruct (cleanup_old_files_deletes E w Hwf) as [g [Hfs Hg]].
  exists g. split; [|exact Hg].
  unfold index, bind.
  destruct (cleanup_old_files E w) as [[[]|e] w1]; exact Hfs.
Qed.

End AfterSweep.

(** X9. A result the sweep has deleted can no longer be downloaded, and one
    it has kept still can: after a GET / on which both folders were listed,
    GET /download/<filename> for an entry of the output folder answers with
    a redirect and the flash "File not found or has expired." when the sweep
    deleted the entry.  When the sweep kept it, the answer is the file,
    under the name asked for, if the entry is a regular file that
    [send_file] can open; otherwise the exception of [send_file] is logged
    and the answer is a redirect with the flash "Error downloading file.". *)
Theorem download_after_sweep
    (E : Env) (w : World) (filename : string) (n : node) :
  well_formed (fs w) ->
  can_list E (fs w) UPLOAD_FOLDER = true ->
  can_list E (fs w) OUTPUT_FOLDER = true ->
  In n (fs w) ->
  n_path n = os_path_join OUTPUT_FOLDER (secure_filename E filename) ->
  download_file E filename (snd (index E w))
  = if swept E n
    then (Ok (Redirect "index"),
          with_flashes (snd (index E w))
            (flashes (snd (index E w))
             ++ [("File not found or has expired.", "error")])%list)
    else
      match (if n_isfile n then send_file_out E (n_path n)
             else Raise "[Errno 21] Is a directory") with
      | Ok _ => (Ok (SendFile (n_path n) filename), snd (index E w))
      | Raise e =>
          (Ok (Redirect "index"),
           with_flashes
             (with_log (snd (index E w))
                (log (snd (index E w))
                 ++ [(ERROR, ("Download error: " ++ e)%string)])%list)
             (flashes (snd (index E w))
              ++ [("Error downloading file.", "error")])%list)
      end.
Proof.
  intros Hwf Hup Hout Hn Hpath.
  unfold download_file, try_except, bind, os_path_exists, path_exists, send_file.
  rewrite index_fs by assumption. rewrite <- Hpath.
  destruct (swept E n) eqn:Hs.
  - rewrite lookup_filtered_out by (auto; rewrite Hs; reflexivity).
    reflexivity.
  - rewrite (lookup_filtered_in _ _ n Hwf Hn) by (rewrite Hs; reflexivity).
    cbn [negb]. rewrite index_fs by assumption.
    rewrite (lookup_filtered_in _ _ n Hwf Hn) by (rewrite Hs; reflexivity).
    destruct (n_isfile n); [destruct (send_file_out E (n_path n))|];
      reflexivity.
Qed.

Lemma swept_world_well_formed : well_formed (fs Scenario.swept_world).
Proof.
  unfold well_formed. simpl.
  repeat constructor; simpl; intuition discriminate.
Defined.

Lemma download_of_a_fresh_result_after_sweep :
  well_formed (fs Scenario.swept_world) /\
  can_list Scenario.two_pages (fs Scenario.swept_world) UPLOAD_FOLDER = true /\
  can_list Scenario.two_pages (fs Scenario.swept_world) OUTPUT_FOLDER = true /\
  In (mkNode "output/4f1c_new.pptx" true (7000 # 1)) (fs Scenario.swept_world) /\
  n_path (mkNode "output/4f1c_new.pptx" true (7000 # 1))
  = os_path_join OUTPUT_FOLDER
      (secure_filename Scenario.two_pages "4f1c_new.pptx") /\
  download_file Scenario.two_pages "4f1c_new.pptx"
    (snd (index Scenario.two_pages Scenario.swept_world))
  = (Ok (SendFile "output/4f1c_new.pptx" "4f1c_new.pptx"),
     snd (index Scenario.two_pages Scenario.swept_world)).
Proof.
  split; [exact swept_world_well_formed|].
  split; [reflexivity|]. split; [reflexivity|].
  split; [simpl; auto 6|]. split; [reflexivity|].
  apply (download_after_sweep Scenario.two_pages Scenario.swept_world
           "4f1c_new.pptx" (mkNode "output/4f1c_new.pptx" true (7000 # 1))).
  - exact swept_world_well_formed.
  - reflexivity.
  - reflexivity.
  - simpl; auto 6.
  - reflexivity.
Defined.

(** X10. What the sweep deletes is never more than this: an entry that is
    gone after GET / was a regular file directly inside "uploads" or
    "output" (its path is the folder, a slash and a name without slash),
    not named ".gitkeep", and more than 3600 seconds old. *)
Theorem sweep_deletes_only_old_files_of_the_folders
    (E : Env) (w : World) (n : node) :
  well_formed (fs w) ->
  In n (fs w) ->
  ~ In n (fs (snd (index E w))) ->
  n_isfile n = true /\
  (exists folder name,
     (folder = UPLOAD_FOLDER \/ folder = OUTPUT_FOLDER) /\
     n_path n = folder ++ "/" ++ name /\
     has_char "/" name = false /\ name <> ".gitkeep") /\
  (inject_Z 3600 < now E - n_mtime n)%Q.
Proof.
  intros Hwf Hn Hgone.
  assert (Hs : swept E n = true).
  { destruct (index_deletes E w Hwf) as [g [Hfs Hg]]. apply Hg.
    destruct (g n) eqn:Hgn; [reflexivity|]. exfalso. apply Hgone.
    rewrite Hfs. apply filter_In. rewrite Hgn. auto. }
  assert (Hin : forall folder,
            swept_in E folder n = true ->
            n_isfile n = true /\
            (exists name,
               n_path n = folder ++ "/" ++ name /\
               has_char "/" name = false /\ name <> ".gitkeep") /\
            (inject_Z 3600 < now E - n_mtime n)%Q).
  { intros folder H. unfold swept_in in H.
    destruct (child_name folder (n_path n)) as [name|] eqn:Hc; [|discriminate].
    apply andb_prop in H. destruct H as [Hk Hexp].
    unfold expired in Hexp. apply andb_prop in Hexp. destruct Hexp as [Hexp _].
    apply andb_prop in Hexp. destruct Hexp as [Hfile Hold].
    destruct (child_name_inv _ _ _ Hc) as [Hp Hslash].
    split; [exact Hfile|]. split.
    - exists name. rewrite Hp, append_assoc. repeat split; try assumption.
      intros ->. discriminate.
    - unfold older_than_an_hour in Hold. apply negb_true_iff in Hold.
      apply Qnot_le_lt. intros Hle. apply Qle_bool_iff in Hle. congruence. }
  unfold swept in Hs. apply orb_prop in Hs.
  destruct Hs as [Hs|Hs]; destruct (Hin _ Hs) as [Hf [[name Hname] Hold]];
    (split; [exact Hf|]; split; [|exact Hold]).
  - exists UPLOAD_FOLDER, name. split; [now left | exact Hname].
  - exists OUTPUT_FOLDER, name. split; [now right | exact Hname].
Qed.

Lemma sweep_deletes_the_old_upload_only :
  well_formed (fs Scenario.swept_world) /\
  In (mkNode "uploads/4f1c_old.pdf" true (10 # 1)) (fs Scenario.swept_world) /\
  ~ In (mkNode "uploads/4f1c_old.pdf" true (10 # 1))
       (fs (snd (index Scenario.two_pages Scenario.swept_world))) /\
  n_isfile (mkNode "uploads/4f1c_old.pdf" true (10 # 1)) = true /\
  (exists folder name,
     (folder = UPLOAD_FOLDER \/ folder = OUTPUT_FOLDER) /\
     n_path (mkNode "uploads/4f1c_old.pdf" true (10 # 1))
     = folder ++ "/" ++ name /\
     has_char "/" name = false /\ name <> ".gitkeep") /\
  (inject_Z 3600
   < now Scenario.two_pages
     - n_mtime (mkNode "uploads/4f1c_old.pdf" true (10 # 1)))%Q.
Proof.
  assert (Hgone : ~ In (mkNode "uploads/4f1c_old.pdf" true (10 # 1))
                       (fs (snd (index Scenario.two_pages Scenario.swept_world)))).
  { intros H. vm_compute in H. intuition discriminate. }
  split; [exact swept_world_well_formed|].
  split; [simpl; auto 6|]. split; [exact Hgone|].
  apply (sweep_deletes_only_old_files_of_the_folders Scenario.two_pages
           Scenario.swept_world (mkNode "uploads/4f1c_old.pdf" true (10 # 1))).
  - exact swept_world_well_formed.
  - simpl; auto 6.
  - exact Hgone.
Defined.

(* ===================================================================== *)
(** * Page images and the placeholder test                                *)
(* ===================================================================== *)

(** X12. The page image is written as JPEG when that works and as PNG when
    it does not: with [self.temp_dir] set to [d], the image of page index i
    lands at d/page_<i+1>.jpg and nothing is logged; if the JPEG save raises
    [e] and the PNG save works, it lands at d/page_<i+1>.png and the error
    is logged; if both raise, the exception of the PNG save leaves the
    block. *)
Theorem page_image_falls_back_to_png
    (E : Env) (image : Image) (i : Z) (w : World) (d : string) :
  self_temp_dir w = Some d ->
  match save_jpeg_out image, save_png_out image with
  | Ok _, _ =>
      exists w',
        save_page_image E image i w = (Ok (page_image_path d i ".jpg"), w') /\
        log w' = log w /\
        path_isfile (fs w') (page_image_path d i ".jpg") = true
  | Raise e, Ok _ =>
      exists w',
        save_page_image E image i w = (Ok (page_image_path d i ".png"), w') /\
        log w' = (log w ++ [(ERROR, ("Error saving image " ++ str_of_int (i + 1)
                                     ++ ": " ++ e)%string)])%list /\
        path_isfile (fs w') (page_image_path d i ".png") = true
  | Raise _, Raise e2 =>
      exists w', save_page_image E image i w = (Raise e2, w')
  end.
Proof.
  intros Htd.
  unfold save_page_image, temp_dir_str, bind, get_temp_dir, try_except,
    image_save, lift, ret, logging, write_node, page_image_path.
  rewrite Htd. cbv beta iota.
  assert (Hj : save_jpeg_out
                 (if String.eqb (mode image) "RGBA" || String.eqb (mode image) "P"
                  then mkImage "RGB" (save_jpeg_out image) (save_png_out image)
                  else image) = save_jpeg_out image).
  { destruct (String.eqb (mode image) "RGBA" || String.eqb (mode image) "P");
      reflexivity. }
  rewrite Hj.
  destruct (save_jpeg_out image) as [[]|e].
  - eexists. split; [reflexivity|]. split; [reflexivity|].
    unfold path_isfile, lookup_node. cbn [fs with_fs find n_path n_isfile].
    rewrite String.eqb_refl. reflexivity.
  - simpl. rewrite ?Htd. simpl.
    destruct (save_png_out image) as [[]|e2].
    + eexists. split; [reflexivity|]. split; [reflexivity|].
      unfold path_isfile, lookup_node. cbn [fs with_fs with_log find n_path n_isfile].
      rewrite String.eqb_refl. reflexivity.
    + eexists. reflexivity.
Qed.

Lemma palette_image_is_saved_as_png :
  self_temp_dir Scenario.job_world = Some "/tmp/tmpa1" /\
  exists w',
    save_page_image Scenario.two_pages Scenario.png_only 0 Scenario.job_world
    = (Ok (page_image_path "/tmp/tmpa1" 0 ".png"), w') /\
    log w'
    = (log Scenario.job_world
       ++ [(ERROR, ("Error saving image " ++ str_of_int (0 + 1) ++ ": "
                    ++ "cannot write mode P as JPEG")%string)])%list /\
    path_isfile (fs w') (page_image_path "/tmp/tmpa1" 0 ".png") = true.
Proof.
  split; [reflexivity|].
  apply (page_image_falls_back_to_png Scenario.two_pages Scenario.png_only 0
           Scenario.job_world "/tmp/tmpa1").
  reflexivity.
Defined.

Section Blank.

Lemma replace_keeps_blank (s : string) :
  all_space s = true ->
  forall skip, all_space (replace_from skip (nl ++ nl) nl s) = true.
Proof.
  induction s as [|c s IH]; intros Hs skip; [reflexivity|].
  cbn [all_space] in Hs. apply andb_prop in Hs. destruct Hs as [Hc Hs].
  cbn [replace_from]. destruct skip as [|k]; [|apply IH; exact Hs].
  destruct (startswith (String c s) (nl ++ nl)).
  - change (nl ++ replace_from (String.length (nl ++ nl) - 1) (nl ++ nl) nl s)
      with (String LF (replace_from 1 (nl ++ nl) nl s)).
    cbn [all_space]. rewrite (IH Hs). reflexivity.
  - cbn [all_space]. rewrite Hc, (IH Hs). reflexivity.
Qed.

Lemma strip_blank (s : string) : all_space s = true -> strip s = "".
Proof.
  unfold strip. intros Hs.
  assert (Hl : lstrip s = "").
  { induction s as [|c s IH]; [reflexivity|].
    cbn [all_space] in Hs. apply andb_prop in Hs. destruct Hs as [Hc Hs].
    cbn [lstrip]. rewrite Hc. apply IH. exact Hs. }
  rewrite Hl. reflexivity.
Qed.

End Blank.

(** X13. The placeholder is used exactly when fewer than 20 characters are
    left of the page text once it is stripped (the test for an empty text
    adds nothing to that); in particular a page whose raw text is only
    whitespace is stored as the empty string and its slide gets the
    placeholder. *)
Theorem placeholder_criterion (page_text : string) :
  too_short page_text = (len (strip page_text) <? 20) /\
  (all_space page_text = true ->
   clean_page_text page_text = "" /\
   forall pdf_texts k,
     nth_error pdf_texts k = Some (clean_page_text page_text) ->
     slide_text pdf_texts k = placeholder (Z.of_nat k + 1)).
Proof.
  split.
  - unfold too_short, truthy. destruct page_text as [|c s]; [reflexivity|].
    reflexivity.
  - intros Hblank.
    assert (Hclean : clean_page_text page_text = "").
    { unfold clean_page_text, replace. apply strip_blank.
      apply replace_keeps_blank. exact Hblank. }
    split; [exact Hclean|].
    intros pdf_texts k Hk. unfold slide_text, page_text_of.
    rewrite Hk, Hclean. reflexivity.
Qed.

Lemma blank_page_gets_the_placeholder :
  all_space ("  " ++ nl ++ " ") = true /\
  clean_page_text ("  " ++ nl ++ " ") = "" /\
  forall pdf_texts k,
    nth_error pdf_texts k = Some (clean_page_text ("  " ++ nl ++ " ")) ->
    slide_text pdf_texts k = placeholder (Z.of_nat k + 1).
Proof.
  split; [reflexivity|].
  apply (proj2 (placeholder_criterion ("  " ++ nl ++ " "))).
  reflexivity.
Defined.

(* ===================================================================== *)
(** * The name of the result                                              *)
(* ===================================================================== *)

Section Stem.

#[local] Arguments Ascii.eqb : simpl never.

Lemma join_split_sep (sep : ascii) (s : string) :
  join (String sep "") (split sep s) = s.
Proof.
  induction s as [|c s IH]; [reflexivity|].
  cbn [split]. destruct (Ascii.eqb_spec c sep) as [->|Hc].
  - rewrite join_cons by apply split_nonempty. rewrite IH. reflexivity.
  - pose proof (split_nonempty sep s) as Hne.
    destruct (split sep s) as [|h t] eqn:Hs; [contradiction|].
    destruct t as [|h' t'].
    + simpl in *. congruence.
    + rewrite join_cons by discriminate.
      rewrite join_cons in IH by discriminate.
      rewrite <- IH. reflexivity.
Qed.

Lemma join_snoc (sep : string) (l : list string) (x : string) :
  l <> [] -> join sep (l ++ [x])%list = join sep l ++ sep ++ x.
Proof.
  induction l as [|a l IH]; intros Hne; [contradiction|].
  destruct l as [|b l'].
  - reflexivity.
  - change ((a :: b :: l') ++ [x])%list with (a :: ((b :: l') ++ [x]))%list.
    rewrite join_cons by (destruct l'; discriminate).
    rewrite IH by discriminate.
    rewrite (join_cons sep a (b :: l')) by discriminate.
    rewrite !append_assoc. reflexivity.
Qed.

Lemma split_fields_no_sep (sep : ascii) (s : string) :
  Forall (fun l => has_char sep l = false) (split sep s).
Proof.
  induction s as [|c s IH]; cbn [split].
  - constructor; [reflexivity | constructor].
  - destruct (Ascii.eqb c sep) eqn:Hc.
    + constructor; [reflexivity | exact IH].
    + destruct (split sep s) as [|h t]; [repeat constructor|].
      * simpl. rewrite Hc. reflexivity.
      * inversion IH; subst. constructor; [|assumption].
        simpl. rewrite Hc. simpl. assumption.
Qed.

(** With a dot in the name, the stem and what follows the last dot put the
    name together again. *)
Lemma stem_and_extension (s : string) :
  has_char dot s = true ->
  s = stem_of s ++ "." ++ last (split dot s) "" /\
  has_char dot (last (split dot s) "") = false.
Proof.
  intros H. destruct (split_with_sep dot s H) as [h [k [t Hs]]].
  assert (Hne : h :: k :: t <> []) by discriminate.
  destruct (exists_last Hne) as [l' [x Hx]].
  assert (Hl' : l' <> []).
  { intros ->. destruct t; discriminate. }
  pose proof (join_split_sep dot s) as Hjoin.
  pose proof (split_fields_no_sep dot s) as Hfields.
  unfold stem_of, rsplit1. rewrite Hs, Hx in *. clear Hs Hx.
  rewrite rev_unit, last_last.
  destruct (rev l') as [|z zs] eqn:Hr.
  { exfalso. apply Hl'. rewrite <- (rev_involutive l'), Hr. reflexivity. }
  cbn [hd]. rewrite <- Hr, rev_involutive.
  rewrite join_snoc in Hjoin by exact Hl'. split.
  - symmetry. exact Hjoin.
  - rewrite Forall_forall in Hfields. apply Hfields.
    apply in_or_app. right. left. reflexivity.
Qed.

End Stem.

Section DownloadLink.

Variable E : Env.

(** The conversion block of [upload_file] answers with the index page only
    after [convert] has returned [True], and the link on the page is the
    name under which the presentation was saved. *)
Lemma conversion_block_link (original_filename filepath : string)
    (w w' : World) (template : string) (link original : option string) :
  try_except
    (base <- lift (getitem (rsplit1 "." original_filename) 0) ;;
     let output_filename := uuid4 E ++ "_" ++ base ++ ".pptx" in
     let output_path := os_path_join OUTPUT_FOLDER output_filename in
     success <- convert E filepath output_path 30 ;;
     if success : bool then
       flash "PDF converted successfully! Click the download button below."
             "success" ;;
       ret (RenderTemplate "index.html" (Some output_filename) (Some base))
     else
       flash "Error converting PDF. Please ensure the file is valid and not corrupted."
             "error" ;;
       ret (Redirect "index"))
    (fun e =>
     logging ERROR ("Conversion error: " ++ e) ;;
     flash ("Error during conversion: " ++ e) "error" ;;
     ret (Redirect "index")) w
  = (Ok (RenderTemplate template link original), w') ->
  template = "index.html" /\
  link = Some (uuid4 E ++ "_" ++ stem_of original_filename ++ ".pptx") /\
  original = Some (stem_of original_filename) /\
  exists prs,
    documents w'
    = (os_path_join OUTPUT_FOLDER
         (uuid4 E ++ "_" ++ stem_of original_filename ++ ".pptx"), prs)
      :: documents w.
Proof.
  intros H. apply try_except_inv in H.
  destruct H as [[a [H Ha]]|[e [w1 [_ H]]]].
  - injection Ha as Ha. subst a.
    rewrite rsplit1_stem in H. prim H. cbv zeta in H.
    step H Hc.
    match type of Hc with
    | convert E ?p ?o 30 ?w0 = _ =>
        pose proof (convert_outcome E p o 30 w0) as Hout;
        rewrite Hc in Hout; cbn [fst snd] in Hout
    end.
    match type of H with
    | (if ?b then _ else _) _ = _ => destruct b
    end.
    + prim H. inv_run H.
      destruct Hout as [[_ [pc [images [prs [wa [wb [_ [_ [_ [_ Hdocs]]]]]]]]]]
                       |[Hfalse _]]; [|discriminate].
      repeat (split; [reflexivity|]).
      exists prs. cbn [documents with_flashes]. exact Hdocs.
    + prim H. inv_run H.
  - prim H. prim H. inv_run H.
Qed.

(** Lines 73-111 of [upload_file] answer with the index page only for a
    saved upload that [convert] turned into a presentation. *)
Lemma save_and_convert_link (name : string) (w w' : World)
    (template : string) (link original : option string) :
  truthy name = true ->
  save_and_convert E (Some name) w
  = (Ok (RenderTemplate template link original), w') ->
  template = "index.html" /\
  link = Some (uuid4 E ++ "_" ++ stem_of (secure_filename E name) ++ ".pptx") /\
  original = Some (stem_of (secure_filename E name)) /\
  exists prs,
    documents w'
    = (os_path_join OUTPUT_FOLDER
         (uuid4 E ++ "_" ++ stem_of (secure_filename E name) ++ ".pptx"), prs)
      :: documents w.
Proof.
  intros Hname H. unfold save_and_convert in H. rewrite Hname in H.
  cbv zeta in H. unfold file_save in H.
  step H Hs. unfold bind, lift, write_node in Hs.
  destruct (upload_save_out E) as [[]|]; inv_run Hs.
  prim H. prim H.
  unfold try_finally in H.
  match type of H with
  | context [try_except ?m ?h ?w0] =>
      destruct (try_except m h w0) as [rb wb] eqn:Hblock
  end.
  match type of H with
  | context [remove_upload E ?p ?w1] =>
      destruct (remove_upload_run E p w1) as [w2 [Hrm [Hdoc2 _]]];
      rewrite Hrm in H
  end.
  inv_run H.
  apply conversion_block_link in Hblock.
  destruct Hblock as [Ht [Hl [Ho [prs Hdocs]]]].
  repeat (split; [assumption|]).
  exists prs. rewrite Hdoc2, Hdocs. reflexivity.
Qed.

End DownloadLink.

(** X14. The download link names the presentation that was written, and
    keeps the name of the upload up to its last dot.  Whenever [upload_file]
    answers with a page, the page is the index page, the request carried a
    file name ending in ".pdf" in any letter case, and with <stem> the
    secured file name up to its last dot (a secured name with a dot is
    <stem>, a dot and an extension without dot; one without dot is its own
    stem) the link is "<uuid>_<stem>.pptx", the name shown is <stem>, and a
    presentation has been saved under that name in the output folder. *)
Theorem download_link_replaces_the_extension
    (E : Env) (req : request) (w w' : World)
    (template : string) (link original : option string) :
  upload_file E req w = (Ok (RenderTemplate template link original), w') ->
  exists name stem,
    file_filename req = Some (Some name) /\
    endswith (lower name) ".pdf" = true /\
    (if has_char dot (secure_filename E name)
     then exists extension,
            secure_filename E name = stem ++ "." ++ extension /\
            has_char dot extension = false
     else secure_filename E name = stem) /\
    template = "index.html" /\
    link = Some (uuid4 E ++ "_" ++ stem ++ ".pptx") /\
    original = Some stem /\
    exists prs,
      documents w'
      = (os_path_join OUTPUT_FOLDER (uuid4 E ++ "_" ++ stem ++ ".pptx"), prs)
        :: documents w.
Proof.
  intros H. unfold upload_file in H. apply try_except_inv in H.
  destruct H as [[a [H Ha]]|[e [w1 [_ H]]]].
  2:{ prim H. prim H. inv_run H. }
  injection Ha as Ha. subst a.
  destruct (file_filename req) as [[[|c name]|]|] eqn:Hreq.
  - prim H. inv_run H.
  - step H Hallowed. unfold lift in Hallowed.
    rewrite allowed_file_spec in Hallowed. inv_run Hallowed.
    match type of H with
    | (if negb ?b then _ else _) _ = _ => destruct b eqn:Hacc
    end; cbn [negb] in H.
    2:{ prim H. inv_run H. }
    change (endswith (lower (String c name)) ".pdf" = true) in Hacc.
    apply save_and_convert_link in H; [|reflexivity].
    destruct H as [Ht [Hl [Ho Hdocs]]].
    exists (String c name), (stem_of (secure_filename E (String c name))).
    split; [reflexivity|]. split; [exact Hacc|].
    split; [|auto].
    destruct (has_char dot (secure_filename E (String c name))) eqn:Hdot.
    + destruct (stem_and_extension _ Hdot) as [Hs Hd]. eauto.
    + unfold stem_of, rsplit1. rewrite (split_without_sep dot _ Hdot).
      reflexivity.
  - step H Hallowed. inv_run Hallowed.
  - prim H. inv_run H.
Qed.

Lemma download_link_of_a_versioned_deck :
  exists w',
    upload_file Scenario.two_pages (mkRequest (Some (Some "deck.v2.PDF")))
      Scenario.world
    = (Ok (RenderTemplate "index.html" (Some "4f1c_deck.v2.pptx")
             (Some "deck.v2")), w') /\
    exists name stem,
      file_filename (mkRequest (Some (Some "deck.v2.PDF")))
      = Some (Some name) /\
      endswith (lower name) ".pdf" = true /\
      (if has_char dot (secure_filename Scenario.two_pages name)
       then exists extension,
              secure_filename Scenario.two_pages name
              = stem ++ "." ++ extension /\
              has_char dot extension = false
       else secure_filename Scenario.two_pages name = stem) /\
      "index.html" = "index.html" /\
      Some "4f1c_deck.v2.pptx"
      = Some (uuid4 Scenario.two_pages ++ "_" ++ stem ++ ".pptx") /\
      Some "deck.v2" = Some stem /\
      exists prs,
        documents w'
        = (os_path_join OUTPUT_FOLDER
             (uuid4 Scenario.two_pages ++ "_" ++ stem ++ ".pptx"), prs)
          :: documents Scenario.world.
Proof.
  eexists. split; [vm_compute; reflexivity|].
  apply (download_link_replaces_the_extension Scenario.two_pages
           (mkRequest (Some (Some "deck.v2.PDF"))) Scenario.world).
  vm_compute. reflexivity.
Defined.
